(** * OTS teacher-registration bot: registration sessions, review and payment

    A shallow embedding of [src/index.js] (the Telegram registration bot
    with its Chapa payment webhook) and of the places where the two sibling
    variants of the same program, [src/unnamed/part_000] and
    [src/unnamed/part_001], differ from it.

    Conventions of the embedding.
    - A JavaScript string is the list of its UTF-16 code units ([list N]).
    - Telegram identities and millisecond clock readings are integers ([Z]);
      all of them lie in the range where JavaScript arithmetic is exact, and
      one handler run reads one clock value.
    - Amounts of money are JavaScript numbers, that is doubles ([float]).
    - The session table [users], the set [processedTransactions], the map
      [rateLimit] and [adminReplyTarget] are the fields of one [World]
      that every handler threads.  A handler runs on it without another
      event in between; where the order of events matters, the places at
      which a handler gives control back are modelled: the task that the
      subject step starts and does not await ([spawn]), and the request of
      the webhook to the gateway ([verifyRequest], [verifyResume]).
    - Calls to the chat transport and to the payment gateway are answered
      by an [Env]; what the transport delivered is appended to the [trace]
      of the world.  Presentational text is reduced to a tag.

    The properties are numbered C1 to C10 as in the list of claims about
    the specification; the further properties of the code, X1 to X30,
    follow them. *)

From Stdlib Require Import ZArith NArith List Lia String Ascii Bool.
From Stdlib Require Import QArith Qcanon.
From Stdlib Require Import PrimFloat.
From stdpp Require Import base tactics option list gmap sets numbers.
From stdpp Require Import relations.

Local Open Scope Z_scope.

(* A decimal literal of a double denotes the nearest double, as it does in
   the source. *)
Set Warnings "-inexact-float".

(** ** JavaScript strings as code-unit sequences *)

Module Js.

Abbreviation JsString := (list N).

(** An ASCII literal of the source, as code units. *)
Definition lit (s : string) : JsString :=
  map N_of_ascii (list_ascii_of_string s).

(** ECMAScript [WhiteSpace] and [LineTerminator] code units: the set that
    [String.prototype.trim], the regular-expression class [\s] and the
    numeric conversion of strings all share. *)
Definition isWhiteSpace (c : N) : bool :=
  ((9 <=? c) && (c <=? 13) || (c =? 32) || (c =? 160) || (c =? 5760)
   || (8192 <=? c) && (c <=? 8202) || (c =? 8232) || (c =? 8233)
   || (c =? 8239) || (c =? 8287) || (c =? 12288) || (c =? 65279))%N.

Definition isDigit (c : N) : bool := ((48 <=? c) && (c <=? 57))%N.

Fixpoint trimStart (s : JsString) : JsString :=
  match s with
  | c :: s' => if isWhiteSpace c then trimStart s' else s
  | [] => []
  end.

Definition trim (s : JsString) : JsString :=
  rev (trimStart (rev (trimStart s))).

(** [String.prototype.toLowerCase] on one code unit.  The Basic Latin and
    Latin-1 letters and the Kelvin and Angstrom signs are mapped; other
    code units are left as they are.  No code unit outside the mapped ones
    lowers to a run of ASCII letters, so a comparison of the result with an
    ASCII literal is decided as JavaScript decides it. *)
Definition lowerUnit (c : N) : N :=
  (if (65 <=? c) && (c <=? 90) then c + 32
   else if (192 <=? c) && (c <=? 222) && negb (c =? 215) then c + 32
   else if c =? 8490 then 107
   else if c =? 8491 then 229
   else c)%N.

Definition toLowerCase (s : JsString) : JsString := map lowerUnit s.

Fixpoint startsWith (p s : JsString) : bool :=
  match p, s with
  | [], _ => true
  | a :: p', b :: s' => (a =? b)%N && startsWith p' s'
  | _ :: _, [] => false
  end.

(** [s.includes(sub)]: [sub] occurs at some offset of [s]. *)
Fixpoint includes (sub s : JsString) : bool :=
  startsWith sub s ||
  match s with
  | [] => false
  | _ :: s' => includes sub s'
  end.

(** [s.split(sep)] for a separator of one code unit: never empty. *)
Fixpoint split (sep : N) (s : JsString) : list JsString :=
  match s with
  | [] => [[]]
  | c :: s' =>
      if (c =? sep)%N then [] :: split sep s'
      else match split sep s' with
           | seg :: segs => (c :: seg) :: segs
           | [] => [[c]]
           end
  end.

(** [s.split(sep).pop()]. *)
Definition lastSegment (sep : N) (s : JsString) : JsString :=
  List.last (split sep s) [].

Definition eqb (a b : JsString) : bool := bool_decide (a = b).

(** *** Numbers read from strings

    [Number(s)] as far as this program looks at its result: an integer,
    some other non-zero number (a fraction or an infinity), or [NaN].
    The value is computed exactly; a negative zero is the integer zero. *)
Inductive JsNum := Int (z : Z) | NonInt | NaN.

#[global] Instance JsNum_eq_dec : EqDecision JsNum.
Proof. solve_decision. Defined.

(** [Boolean(n)]. *)
Definition truthy (n : JsNum) : bool :=
  match n with
  | Int z => negb (z =? 0)
  | NonInt => true
  | NaN => false
  end.

Fixpoint spanDigits (s : JsString) : JsString * JsString :=
  match s with
  | c :: s' =>
      if isDigit c then let '(d, r) := spanDigits s' in (c :: d, r)
      else ([], s)
  | [] => ([], [])
  end.

(** One more decimal digit to the right of the value [a]. *)
Definition digitStep (a : Z) (c : N) : Z := 10 * a + (Z.of_N c - 48).

Definition digitsValue (ds : JsString) : Z := fold_left digitStep ds 0.

Definition digitIn (base : Z) (c : N) : option Z :=
  let v := if isDigit c then Some (Z.of_N c - 48)
           else if ((97 <=? c) && (c <=? 102))%N then Some (Z.of_N c - 87)
           else if ((65 <=? c) && (c <=? 70))%N then Some (Z.of_N c - 55)
           else None in
  match v with
  | Some d => if d <? base then Some d else None
  | None => None
  end.

Fixpoint radixValue (base : Z) (s : JsString) (acc : Z) : option Z :=
  match s with
  | [] => Some acc
  | c :: s' =>
      match digitIn base c with
      | Some d => radixValue base s' (base * acc + d)
      | None => None
      end
  end.

(** [0x], [0o] and [0b] literals (either case of the letter, no sign). *)
Definition nonDecimalLiteral (s : JsString) : option JsNum :=
  match s with
  | z :: p :: ds =>
      let base := if ((p =? 120) || (p =? 88))%N then Some 16
                  else if ((p =? 111) || (p =? 79))%N then Some 8
                  else if ((p =? 98) || (p =? 66))%N then Some 2
                  else None in
      match base with
      | Some b =>
          if (z =? 48)%N then
            Some (match ds with
                  | [] => NaN
                  | _ => match radixValue b ds 0 with
                         | Some v => Int v
                         | None => NaN
                         end
                  end)
          else None
      | None => None
      end
  | _ => None
  end.

Definition signOf (s : JsString) : bool * JsString :=
  match s with
  | c :: r => if (c =? 45)%N then (true, r)
              else if (c =? 43)%N then (false, r) else (false, s)
  | [] => (false, s)
  end.

(** The exponent part of a decimal literal; the empty rest is exponent 0. *)
Definition exponentPart (r : JsString) : option Z :=
  match r with
  | [] => Some 0
  | c :: r' =>
      if ((c =? 101) || (c =? 69))%N then
        let '(neg, u) := signOf r' in
        match spanDigits u with
        | ((_ :: _) as ds, []) =>
            Some (if neg then - digitsValue ds else digitsValue ds)
        | _ => None
        end
      else None
  end.

Definition scale (neg : bool) (m e : Z) : JsNum :=
  let sg := if neg then -1 else 1 in
  if m =? 0 then Int 0
  else if 0 <=? e then Int (sg * (m * 10 ^ e))
  else if m mod 10 ^ (- e) =? 0 then Int (sg * (m / 10 ^ (- e)))
  else NonInt.

Definition decimalLiteral (s : JsString) : JsNum :=
  let '(neg, u) := signOf s in
  if eqb u (lit "Infinity") then NonInt
  else
    let '(ip, r1) := spanDigits u in
    let '(fp, r2) := match r1 with
                     | c :: r => if (c =? 46)%N then spanDigits r else ([], r1)
                     | [] => ([], r1)
                     end in
    match ip ++ fp with
    | [] => NaN
    | ds => match exponentPart r2 with
            | Some e => scale neg (digitsValue ds) (e - Z.of_nat (length fp))
            | None => NaN
            end
    end.

(** [Number(s)] for a string [s]. *)
Definition Number (s : JsString) : JsNum :=
  match trim s with
  | [] => Int 0
  | t => match nonDecimalLiteral t with
         | Some n => n
         | None => decimalLiteral t
         end
  end.

(** [Number(undefined)] is [NaN]. *)
Definition NumberOpt (s : option JsString) : JsNum :=
  match s with
  | Some t => Number t
  | None => NaN
  end.

(** *** Integers written as strings *)

Fixpoint decimalDigits (fuel : nat) (n : N) (acc : JsString) : JsString :=
  match fuel with
  | O => acc
  | S f =>
      let acc' := (48 + n mod 10)%N :: acc in
      if (n <? 10)%N then acc' else decimalDigits f (n / 10)%N acc'
  end.

Definition ofN (n : N) : JsString :=
  decimalDigits (S (N.to_nat (N.log2 n))) n [].

(** [String(z)] for an integer [z]. *)
Definition ofZ (z : Z) : JsString :=
  if z <? 0 then 45%N :: ofN (Z.to_N (- z)) else ofN (Z.to_N z).

(** [String(n)] on the numbers the program concatenates into strings. *)
Definition ofNum (n : JsNum) : JsString :=
  match n with
  | Int z => ofZ z
  | NonInt => lit "Infinity"
  | NaN => lit "NaN"
  end.

End Js.

(** ** Regular expressions

    The anchored patterns of the source ([/^...$/], no flags) are matched
    against the whole string by Brzozowski derivatives over code units. *)

Module Regex.

Inductive t :=
| Never
| Empty
| Class (p : N → bool)
| Seq (r1 r2 : t)
| Alt (r1 r2 : t)
| Star (r : t).

Fixpoint nullable (r : t) : bool :=
  match r with
  | Never => false
  | Empty => true
  | Class _ => false
  | Seq r1 r2 => nullable r1 && nullable r2
  | Alt r1 r2 => nullable r1 || nullable r2
  | Star _ => true
  end.

Fixpoint deriv (c : N) (r : t) : t :=
  match r with
  | Never => Never
  | Empty => Never
  | Class p => if p c then Empty else Never
  | Seq r1 r2 =>
      if nullable r1 then Alt (Seq (deriv c r1) r2) (deriv c r2)
      else Seq (deriv c r1) r2
  | Alt r1 r2 => Alt (deriv c r1) (deriv c r2)
  | Star r' => Seq (deriv c r') (Star r')
  end.

(** [/^r$/.test(s)]. *)
Definition test (r : t) (s : Js.JsString) : bool :=
  nullable (fold_left (fun r c => deriv c r) s r).

Definition Chr (c : N) : t := Class (N.eqb c).
Definition Lit (s : string) : t :=
  fold_right (fun c r => Seq (Chr c) r) Empty (Js.lit s).
Definition Opt (r : t) : t := Alt r Empty.
Definition Plus (r : t) : t := Seq r (Star r).
Fixpoint Repeat (n : nat) (r : t) : t :=
  match n with
  | O => Empty
  | S n' => Seq r (Repeat n' r)
  end.

End Regex.

(** ** Exceptions and completions *)

Inductive Exn :=
| TypeError          (* a method called on [undefined] *)
| TransportError     (* a rejected call of the chat transport *)
| GatewayError       (* a rejected or malformed call of the payment gateway *)
| PaymentLinkError.  (* [new Error("Failed to create payment link")] *)

Inductive Completion (A : Type) :=
| Normal (a : A)
| Throw (e : Exn).
Arguments Normal {A} a.
Arguments Throw {A} e.

(** ** Validators *)

(** [isValidYouTubeUrl] of [src/index.js]; [None] is [undefined]. *)
Definition isValidYouTubeUrl (url : option Js.JsString) : bool :=
  match url with
  | None | Some [] => false
  | Some u =>
      Js.includes (Js.lit "youtube.com/channel/") u
      || Js.includes (Js.lit "youtube.com/c/") u
      || Js.includes (Js.lit "youtube.com/user/") u
      || Js.includes (Js.lit "youtu.be/") u
      || Js.includes (Js.lit "youtube.com/@") u
  end.

(** [isValidEmail] of [src/index.js] (and of [part_000]): calling
    [toLowerCase] on [undefined] throws. *)
Definition isValidEmail (email : option Js.JsString) : Completion bool :=
  match email with
  | None => Throw TypeError
  | Some e =>
      if Js.eqb (Js.toLowerCase e) (Js.lit "skip") then Normal true
      else Normal (Js.includes (Js.lit "@") e && Js.includes (Js.lit ".") e)
  end.

(** [/^(\+251|0)?9\d{8}$/] *)
Definition phoneRegex : Regex.t :=
  Regex.Seq (Regex.Opt (Regex.Alt (Regex.Lit "+251") (Regex.Lit "0")))
    (Regex.Seq (Regex.Chr 57) (Regex.Repeat 8 (Regex.Class Js.isDigit))).

(** [isValidPhone]: [phone.replace(/\s/g, '')], then the pattern. *)
Definition isValidPhone (phone : Js.JsString) : bool :=
  let cleanPhone := filter (fun c => negb (Js.isWhiteSpace c)) phone in
  Regex.test phoneRegex cleanPhone.

(** ** Data model *)

Import Js.

(** [user.step]: [None] is the source's [null]. *)
Inductive Step :=
| step_name | step_phone | step_youtube | step_email | step_subject
| step_completed.

Inductive Status :=
| idle | collecting | pending_review | approved | reapply_required
| payment_verified.

#[global] Instance Step_eq_dec : EqDecision Step.
Proof. solve_decision. Defined.
#[global] Instance Status_eq_dec : EqDecision Status.
Proof. solve_decision. Defined.

(** One entry of [users].  A field that the object does not (yet) carry is
    [None].  [paymentDate] holds the instant whose ISO rendering the source
    stores; amounts are JavaScript numbers, that is IEEE 754 doubles. *)
Record User := mkUser {
  step : option Step;
  status : Status;
  createdAt : option Z;
  lastActivity : option Z;
  name : option JsString;
  phone : option JsString;
  youtube : option JsString;
  email : option JsString;
  subject : option JsString;
  penalty : option bool;
  tx_ref : option JsString;
  paidAmount : option float;
  commission : option float;
  paymentDate : option Z
}.

(** Field assignments [user.f = v]. *)
Definition set_step (v : option Step) (u : User) : User :=
  {| step := v; status := status u; createdAt := createdAt u;
     lastActivity := lastActivity u; name := name u; phone := phone u;
     youtube := youtube u; email := email u; subject := subject u;
     penalty := penalty u; tx_ref := tx_ref u; paidAmount := paidAmount u;
     commission := commission u; paymentDate := paymentDate u |}.
Definition set_status (v : Status) (u : User) : User :=
  {| step := step u; status := v; createdAt := createdAt u;
     lastActivity := lastActivity u; name := name u; phone := phone u;
     youtube := youtube u; email := email u; subject := subject u;
     penalty := penalty u; tx_ref := tx_ref u; paidAmount := paidAmount u;
     commission := commission u; paymentDate := paymentDate u |}.
Definition set_createdAt (v : option Z) (u : User) : User :=
  {| step := step u; status := status u; createdAt := v;
     lastActivity := lastActivity u; name := name u; phone := phone u;
     youtube := youtube u; email := email u; subject := subject u;
     penalty := penalty u; tx_ref := tx_ref u; paidAmount := paidAmount u;
     commission := commission u; paymentDate := paymentDate u |}.
Definition set_lastActivity (v : option Z) (u : User) : User :=
  {| step := step u; status := status u; createdAt := createdAt u;
     lastActivity := v; name := name u; phone := phone u;
     youtube := youtube u; email := email u; subject := subject u;
     penalty := penalty u; tx_ref := tx_ref u; paidAmount := paidAmount u;
     commission := commission u; paymentDate := paymentDate u |}.
Definition set_name (v : option JsString) (u : User) : User :=
  {| step := step u; status := status u; createdAt := createdAt u;
     lastActivity := lastActivity u; name := v; phone := phone u;
     youtube := youtube u; email := email u; subject := subject u;
     penalty := penalty u; tx_ref := tx_ref u; paidAmount := paidAmount u;
     commission := commission u; paymentDate := paymentDate u |}.
Definition set_phone (v : option JsString) (u : User) : User :=
  {| step := step u; status := status u; createdAt := createdAt u;
     lastActivity := lastActivity u; name := name u; phone := v;
     youtube := youtube u; email := email u; subject := subject u;
     penalty := penalty u; tx_ref := tx_ref u; paidAmount := paidAmount u;
     commission := commission u; paymentDate := paymentDate u |}.
Definition set_youtube (v : option JsString) (u : User) : User :=
  {| step := step u; status := status u; createdAt := createdAt u;
     lastActivity := lastActivity u; name := name u; phone := phone u;
     youtube := v; email := email u; subject := subject u;
     penalty := penalty u; tx_ref := tx_ref u; paidAmount := paidAmount u;
     commission := commission u; paymentDate := paymentDate u |}.
Definition set_email (v : option JsString) (u : User) : User :=
  {| step := step u; status := status u; createdAt := createdAt u;
     lastActivity := lastActivity u; name := name u; phone := phone u;
     youtube := youtube u; email := v; subject := subject u;
     penalty := penalty u; tx_ref := tx_ref u; paidAmount := paidAmount u;
     commission := commission u; paymentDate := paymentDate u |}.
Definition set_subject (v : option JsString) (u : User) : User :=
  {| step := step u; status := status u; createdAt := createdAt u;
     lastActivity := lastActivity u; name := name u; phone := phone u;
     youtube := youtube u; email := email u; subject := v;
     penalty := penalty u; tx_ref := tx_ref u; paidAmount := paidAmount u;
     commission := commission u; paymentDate := paymentDate u |}.
Definition set_penalty (v : option bool) (u : User) : User :=
  {| step := step u; status := status u; createdAt := createdAt u;
     lastActivity := lastActivity u; name := name u; phone := phone u;
     youtube := youtube u; email := email u; subject := subject u;
     penalty := v; tx_ref := tx_ref u; paidAmount := paidAmount u;
     commission := commission u; paymentDate := paymentDate u |}.
Definition set_tx_ref (v : option JsString) (u : User) : User :=
  {| step := step u; status := status u; createdAt := createdAt u;
     lastActivity := lastActivity u; name := name u; phone := phone u;
     youtube := youtube u; email := email u; subject := subject u;
     penalty := penalty u; tx_ref := v; paidAmount := paidAmount u;
     commission := commission u; paymentDate := paymentDate u |}.
Definition set_paidAmount (v : option float) (u : User) : User :=
  {| step := step u; status := status u; createdAt := createdAt u;
     lastActivity := lastActivity u; name := name u; phone := phone u;
     youtube := youtube u; email := email u; subject := subject u;
     penalty := penalty u; tx_ref := tx_ref u; paidAmount := v;
     commission := commission u; paymentDate := paymentDate u |}.
Definition set_commission (v : option float) (u : User) : User :=
  {| step := step u; status := status u; createdAt := createdAt u;
     lastActivity := lastActivity u; name := name u; phone := phone u;
     youtube := youtube u; email := email u; subject := subject u;
     penalty := penalty u; tx_ref := tx_ref u; paidAmount := paidAmount u;
     commission := v; paymentDate := paymentDate u |}.
Definition set_paymentDate (v : option Z) (u : User) : User :=
  {| step := step u; status := status u; createdAt := createdAt u;
     lastActivity := lastActivity u; name := name u; phone := phone u;
     youtube := youtube u; email := email u; subject := subject u;
     penalty := penalty u; tx_ref := tx_ref u; paidAmount := paidAmount u;
     commission := commission u; paymentDate := v |}.

(** The object literal that [/start] stores. *)
Definition freshUser (now : Z) : User :=
  {| step := None; status := idle; createdAt := Some now;
     lastActivity := Some now; name := None; phone := None; youtube := None;
     email := None; subject := None; penalty := None; tx_ref := None;
     paidAmount := None; commission := None; paymentDate := None |}.

(** [!t] on an optional timestamp: absent, or the number zero. *)
Definition truthyTime (t : option Z) : bool :=
  match t with
  | Some z => negb (z =? 0)
  | None => false
  end.

(** *** Constants of the source *)

Definition STANDARD : Z := 99.
Definition PENALTY : Z := 149.
Definition TEACHER_PERCENT : float := 0.55%float.
Definition RATE_LIMIT_WINDOW : Z := 60000.
Definition MAX_REQUESTS : Z := 30.
Definition SESSION_TIMEOUT : Z := 30 * 60 * 1000.

(** Button labels of [src/index.js], with their emoji as code units. *)
Definition REGISTER : JsString := [55357; 56541]%N ++ lit " Register".
Definition CANCEL : JsString := [10060]%N ++ lit " Cancel".
Definition BACK : JsString := [11013; 65039]%N ++ lit " Back".
Definition MY_STATUS : JsString := [55357; 56522]%N ++ lit " My Status".
Definition ABOUT : JsString := [8505; 65039]%N ++ lit " About Platform".

(** *** Observable effects *)

Inductive Dest :=
| Chat (id : JsNum)   (* a chat identity *)
| DbChannel.          (* [DB_CHANNEL] *)

Inductive Notice :=
| TooManyRequests
| AdminMessage (text : option JsString)
| ReplyDelivered
| AlreadyInProgress
| PromptName | PromptPhone | PromptYoutube | PromptEmail | PromptSubject
| Cancelled
| ReturnedToPrevious
| InvalidName | UseContactButton | InvalidPhone | YoutubeRequired
| InvalidYoutube | InvalidEmail | InvalidSubject
| ReviewRequest (target : Z)
| Submitted
| StatusReport (s : Status) (fee : option Z)
| NotStarted
| AboutPlatform
| Welcome
| ApprovedWithLink (fee : Z)
| PaymentLinkFailed
| TypeYourReply
| NotApproved
| PaymentVerified (amount : float)
| PaymentReceived (amount : float) (ref : JsString)
(* the sibling variants only *)
| FeeCalculationFailed
| LinkGenerated (fee : Z)
| ChapaApiError (fee : Z)
| ChapaConnectionFailed (fee : Z)
| ApprovedPayNow (fee : Z)
| CompletePayment (fee : Z).

Inductive Answer :=
| UserNotFound | TeacherApproved | PaymentLinkFailedAlert | Unauthorized
| ReplyModeActivated | TeacherRejected
(* the sibling variants only *)
| FeeFailedAlert | LinkSent (fee : Z) | ChapaErrorAlert | ChapaConnectionAlert
| InvalidPaymentRequest | PaymentLinkGenerated | PaymentFailedAlert.

(** What [editMessageText] appends to the review message. *)
Inductive Mark :=
| MarkApproved | MarkRejected
| MarkGenerating | MarkLinkSent | MarkChapaError | MarkConnectionFailed.

Inductive Effect :=
| SendMessage (to : Dest) (n : Notice)
| SendChatAction (to : Dest)
| GetChat
| AnswerCallbackQuery (a : Answer)
| EditMessageText (m : Mark)
| ConsoleError (e : Exn).

(** *** The process-wide state *)

Record RateLimitEntry := mkEntry { count : Z; resetTime : Z }.

Record World := mkWorld {
  users : gmap Z User;
  processedTransactions : gset JsString;
  adminReplyTarget : option JsNum;
  rateLimit : gmap Z RateLimitEntry;
  trace : list Effect;
  calls : nat
}.

Definition set_users (v : gmap Z User) (w : World) : World :=
  {| users := v; processedTransactions := processedTransactions w;
     adminReplyTarget := adminReplyTarget w; rateLimit := rateLimit w;
     trace := trace w; calls := calls w |}.
Definition set_processedTransactions (v : gset JsString) (w : World) : World :=
  {| users := users w; processedTransactions := v;
     adminReplyTarget := adminReplyTarget w; rateLimit := rateLimit w;
     trace := trace w; calls := calls w |}.
Definition set_adminReplyTarget (v : option JsNum) (w : World) : World :=
  {| users := users w; processedTransactions := processedTransactions w;
     adminReplyTarget := v; rateLimit := rateLimit w; trace := trace w;
     calls := calls w |}.
Definition set_rateLimit (v : gmap Z RateLimitEntry) (w : World) : World :=
  {| users := users w; processedTransactions := processedTransactions w;
     adminReplyTarget := adminReplyTarget w; rateLimit := v; trace := trace w;
     calls := calls w |}.
Definition set_trace (v : list Effect) (w : World) : World :=
  {| users := users w; processedTransactions := processedTransactions w;
     adminReplyTarget := adminReplyTarget w; rateLimit := rateLimit w;
     trace := v; calls := calls w |}.
Definition set_calls (v : nat) (w : World) : World :=
  {| users := users w; processedTransactions := processedTransactions w;
     adminReplyTarget := adminReplyTarget w; rateLimit := rateLimit w;
     trace := trace w; calls := v |}.

Definition initialWorld : World :=
  {| users := ∅; processedTransactions := ∅; adminReplyTarget := None;
     rateLimit := ∅; trace := []; calls := 0%nat |}.

(** *** The collaborators *)

(** What [verify.data.data] holds on a call of the gateway that returned. *)
Record PaymentData := mkPayment { pstatus : JsString; amount : float }.

Inductive VerifyReply :=
| VerifyFails                            (* the request rejects *)
| VerifyData (data : option PaymentData).

Inductive CheckoutReply :=
| CheckoutFails
| CheckoutResponse (success : bool).

(** One event's view of the outside: the clock, the configured reviewer
    ([Number(process.env.ADMIN_ID)]), whether the [k]-th call of the chat
    transport made by the process is delivered, and the gateway's answers. *)
Record Env := mkEnv {
  now : Z;
  ADMIN_ID : JsNum;
  delivers : nat → bool;
  verifyTransaction : JsString → VerifyReply;
  initializeCheckout : CheckoutReply
}.

(** ** Handlers as computations over the world

    A handler reads the [Env], updates the [World] and either completes or
    throws.  State changes made before a throw stay made, as in the source. *)

Definition M (A : Type) : Type := Env → World → Completion A * World.

#[global] Instance M_ret : MRet M := λ A a _ w, (Normal a, w).
#[global] Instance M_bind : MBind M := λ A B k m env w,
  match m env w with
  | (Normal a, w') => k a env w'
  | (Throw e, w') => (Throw e, w')
  end.

Definition throw {A} (e : Exn) : M A := λ _ w, (Throw e, w).

(** [try { m } catch (e) { h e }] *)
Definition try_catch {A} (m : M A) (h : Exn → M A) : M A := λ env w,
  match m env w with
  | (Normal a, w') => (Normal a, w')
  | (Throw e, w') => h e env w'
  end.

Definition ask : M Env := λ env w, (Normal env, w).
Definition get : M World := λ _ w, (Normal w, w).
Definition modify (f : World → World) : M unit := λ _ w, (Normal (), f w).

(** Lift a completion of a pure helper. *)
Definition complete {A} (c : Completion A) : M A := λ _ w, (c, w).

(** A call of the chat transport: delivered and recorded, or rejected. *)
Definition call (e : Effect) : M unit := λ env w,
  let w' := set_calls (S (calls w)) w in
  if delivers env (calls w) then (Normal (), set_trace (trace w ++ [e]) w')
  else (Throw TransportError, w').

(** [console.error]. *)
Definition logError (e : Exn) : M unit :=
  modify (λ w, set_trace (trace w ++ [ConsoleError e]) w).

(** An [async] task started and not awaited.  [start] is what the task does
    before its first [await] gives control back; the handler that started
    it then runs on to its end ([k]), and only after that does the task go
    on ([rest]).  A rejection inside the task does not reach the handler. *)
Definition spawn {A} (start : M A) (rest : A → M unit) (k : M unit) : M unit :=
  λ env w,
  match start env w with
  | (Normal a, w1) => let '(c, w2) := k env w1 in (c, snd (rest a env w2))
  | (Throw _, w1) => k env w1
  end.

(** Mutation of the object stored at [users[id]]. *)
Definition updUser (id : Z) (f : User → User) : M unit :=
  modify (λ w, set_users (alter f id (users w)) w).

Definition sendMessage (to : JsNum) (n : Notice) : M unit :=
  call (SendMessage (Chat to) n).

(** [sendWithTyping]: the typing indicator, then the message. *)
Definition sendWithTyping (chatId : Z) (n : Notice) : M unit :=
  call (SendChatAction (Chat (Int chatId)));;
  sendMessage (Int chatId) n.

(** ** Helper functions of the source *)

(** The entry that [checkRateLimit] stores: a new window when the old one
    has passed, one more request otherwise. *)
Definition nextLimits (now : Z) (entry : option RateLimitEntry) : RateLimitEntry :=
  let userLimits :=
    default {| count := 0; resetTime := now + RATE_LIMIT_WINDOW |} entry in
  if resetTime userLimits <? now
  then {| count := 1; resetTime := now + RATE_LIMIT_WINDOW |}
  else {| count := count userLimits + 1; resetTime := resetTime userLimits |}.

Definition checkRateLimit (userId : Z) : M bool := λ env w,
  let userLimits := nextLimits (now env) (rateLimit w !! userId) in
  (Normal (count userLimits <=? MAX_REQUESTS),
   set_rateLimit (<[userId := userLimits]> (rateLimit w)) w).

(** [(Date.now() - user.createdAt) / (1000 * 60 * 60)], as the exact
    quotient.  The source rounds the quotient to a double; its test
    [hours > 24] has the same outcome, because rounding is monotone and
    24 is the quotient of two integers that are doubles. *)
Definition hoursSince (now created : Z) : Qc :=
  (Q2Qc (inject_Z (now - created)) / Q2Qc (inject_Z (1000 * 60 * 60)))%Qc.

(** [getFee]: the fee, and the user object as the call leaves it. *)
Definition getFee (now : Z) (user : option User) : Z * option User :=
  match user with
  | None => (STANDARD, None)
  | Some u =>
      if negb (truthyTime (createdAt u)) then (STANDARD, Some u)
      else
        let hours := hoursSince now (default 0 (createdAt u)) in
        if bool_decide (status u = reapply_required)
           || bool_decide (Q2Qc 24 < hours)%Qc
        then (PENALTY, Some (set_penalty (Some true) u))
        else (STANDARD, Some (set_penalty (Some false) u))
  end.

(** [getFee(users[id])] on the stored object. *)
Definition getFeeOf (id : Z) : M Z := λ env w,
  match getFee (now env) (users w !! id) with
  | (fee, Some u) => (Normal fee, set_users (<[id := u]> (users w)) w)
  | (fee, None) => (Normal fee, w)
  end.

(** The body of the [forEach] in [cleanupInactiveSessions]. *)
Definition sweepOne (now : Z) (us : gmap Z User) (userId : Z) : gmap Z User :=
  match us !! userId with
  | Some user =>
      if truthyTime (lastActivity user)
         && (SESSION_TIMEOUT <? now - default 0 (lastActivity user))
      then
        if bool_decide (status user = collecting)
           || bool_decide (status user = idle)
        then delete userId us
        else us
      else us
  | None => us
  end.

Definition cleanupInactiveSessions (now : Z) (us : gmap Z User) : gmap Z User :=
  fold_left (sweepOne now) (map_to_list us).*1 us.

(** The sweep as the timer runs it. *)
Definition sweep : M unit := λ env w,
  (Normal (), set_users (cleanupInactiveSessions (now env) (users w)) w).

(** ** Inbound chat messages *)

Record Contact := mkContact { user_id : option Z; phone_number : JsString }.

Record Message := mkMessage {
  chat_id : Z;                 (* [msg.chat.id] *)
  from_id : Z;                 (* [msg.from.id] *)
  text : option JsString;      (* [msg.text], absent on contacts and media *)
  contact : option Contact     (* [msg.contact] *)
}.

(** [text === label] *)
Definition textIs (t : option JsString) (label : JsString) : bool :=
  bool_decide (t = Some label).

(** [!text]: absent or empty. *)
Definition noText (t : option JsString) : bool :=
  match t with
  | None | Some [] => true
  | Some _ => false
  end.

(** [!text || text.length < 2] *)
Definition tooShort (t : option JsString) : bool :=
  noText t || (length (default [] t) <? 2)%nat.

(** The [/start] handler, run for a message whose text matches [/\/start/]. *)
Definition onStart (msg : Message) : M unit :=
  let chatId := chat_id msg in
  ok ← checkRateLimit chatId;
  if negb ok then sendMessage (Int chatId) TooManyRequests
  else
    env ← ask;
    modify (λ w, set_users (<[chatId := freshUser (now env)]> (users w)) w);;
    sendWithTyping chatId Welcome.

(** The task started at the end of the subject step calls [bot.getChat]
    before its first [await]: [channelInfo] is that call with what it turns
    out to give, nothing of interest when answered and the error when
    rejected. *)
Definition channelInfo : M (option Exn) :=
  try_catch (call GetChat;; mret None) (λ e, mret (Some e)).

(** The task from there on: the [catch] of the channel lookup, the review
    request and the confirmation. *)
Definition reviewTask (chatId : Z) (failure : option Exn) : M unit :=
  match failure with
  | Some e => logError e
  | None => mret ()
  end;;
  call (SendMessage DbChannel (ReviewRequest chatId));;
  sendMessage (Int chatId) Submitted.

(** The [My Status] and [About Platform] buttons, which close the handler. *)
Definition statusAndAbout (chatId : Z) (text : option JsString) : M unit :=
  if textIs text MY_STATUS then
    w ← get;
    match users w !! chatId with
    | None => mret ()
    | Some user =>
        match status user with
        | idle => sendMessage (Int chatId) NotStarted
        | approved =>
            fee ← getFeeOf chatId;
            sendMessage (Int chatId) (StatusReport approved (Some fee))
        | st => sendMessage (Int chatId) (StatusReport st None)
        end
    end
  else if textIs text ABOUT then sendMessage (Int chatId) AboutPlatform
  else mret ().

(** The data-collection steps, dispatched on [user.step]. *)
Definition onStep (msg : Message) (user : User) : M unit :=
  let chatId := chat_id msg in
  let text := text msg in
  match step user with
  | Some step_name =>
      if tooShort text then sendMessage (Int chatId) InvalidName
      else
        updUser chatId (λ u, set_step (Some step_phone)
                               (set_name (trim <$> text) u));;
        sendWithTyping chatId PromptPhone
  | Some step_phone =>
      let phoneNumber :=
        match contact msg with
        | Some c =>
            if bool_decide (user_id c = Some chatId)
            then Some (phone_number c)
            else if negb (noText text) && negb (textIs text BACK)
                    && negb (textIs text CANCEL)
            then text else None
        | None =>
            if negb (noText text) && negb (textIs text BACK)
               && negb (textIs text CANCEL)
            then text else None
        end in
      match phoneNumber with
      | None => sendMessage (Int chatId) UseContactButton
      | Some p =>
          if negb (isValidPhone p) then sendMessage (Int chatId) InvalidPhone
          else
            updUser chatId (λ u, set_step (Some step_youtube)
                                   (set_phone (Some p) u));;
            sendWithTyping chatId PromptYoutube
      end
  | Some step_youtube =>
      if noText text || eqb (toLowerCase (default [] text)) (lit "skip")
      then sendMessage (Int chatId) YoutubeRequired
      else if negb (isValidYouTubeUrl text)
      then sendMessage (Int chatId) InvalidYoutube
      else
        updUser chatId (λ u, set_step (Some step_email)
                               (set_youtube (trim <$> text) u));;
        sendWithTyping chatId PromptEmail
  | Some step_email =>
      valid ← complete (isValidEmail text);
      if negb valid then sendMessage (Int chatId) InvalidEmail
      else
        let stored :=
          if eqb (toLowerCase (default [] text)) (lit "skip")
          then Some (lit "Not provided") else trim <$> text in
        updUser chatId (λ u, set_step (Some step_subject) (set_email stored u));;
        sendWithTyping chatId PromptSubject
  | Some step_subject =>
      if tooShort text then sendMessage (Int chatId) InvalidSubject
      else
        updUser chatId (λ u, set_status pending_review
                               (set_step (Some step_completed)
                                  (set_subject (trim <$> text) u)));;
        (* the task is started, and the handler goes on to the buttons *)
        spawn channelInfo (reviewTask chatId) (statusAndAbout chatId text)
  | Some step_completed | None => statusAndAbout chatId text
  end.

(** The [Register], [Cancel] and [Back] buttons, then the steps. *)
Definition onControl (msg : Message) (user : User) : M unit :=
  let chatId := chat_id msg in
  let text := text msg in
  if textIs text REGISTER then
    if bool_decide (status user = pending_review)
       || bool_decide (status user = approved)
       || bool_decide (status user = payment_verified)
    then sendMessage (Int chatId) AlreadyInProgress
    else
      env ← ask;
      updUser chatId (λ u, set_createdAt (Some (now env))
                             (set_status collecting
                                (set_step (Some step_name) u)));;
      sendWithTyping chatId PromptName
  else if textIs text CANCEL then
    updUser chatId (λ u, set_status idle (set_step None u));;
    sendMessage (Int chatId) Cancelled
  else if textIs text BACK then
    match step user with
    | Some step_phone =>
        updUser chatId (set_step (Some step_name));;
        sendMessage (Int chatId) ReturnedToPrevious
    | Some step_youtube =>
        updUser chatId (set_step (Some step_phone));;
        sendMessage (Int chatId) ReturnedToPrevious
    | Some step_email =>
        updUser chatId (set_step (Some step_youtube));;
        sendMessage (Int chatId) ReturnedToPrevious
    | Some step_subject =>
        updUser chatId (set_step (Some step_email));;
        sendMessage (Int chatId) ReturnedToPrevious
    | None => mret ()
    | Some _ => sendMessage (Int chatId) ReturnedToPrevious
    end
  else onStep msg user.

(** [adminReplyTarget] as a condition. *)
Definition replyPending (w : World) : bool :=
  match adminReplyTarget w with
  | Some n => truthy n
  | None => false
  end.

(** The [message] handler. *)
Definition onMessage (msg : Message) : M unit :=
  let chatId := chat_id msg in
  ok ← checkRateLimit chatId;
  if negb ok then sendMessage (Int chatId) TooManyRequests
  else
    env ← ask;
    w ← get;
    if bool_decide (Int (from_id msg) = ADMIN_ID env) && replyPending w then
      sendMessage (default NaN (adminReplyTarget w)) (AdminMessage (text msg));;
      sendMessage (ADMIN_ID env) ReplyDelivered;;
      modify (set_adminReplyTarget None)
    else
      match users w !! chatId with
      | None => mret ()
      | Some user =>
          updUser chatId (set_lastActivity (Some (now env)));;
          onControl msg user
      end.

(** ** Reviewer decisions ([callback_query]) *)

Record Query := mkQuery {
  query_from : Z;        (* [query.from.id] *)
  data : JsString        (* [query.data], as the buttons of the bot carry it *)
}.

(** [users[n]]: only an integer names a stored session. *)
Definition lookupNum (us : gmap Z User) (n : JsNum) : option (Z * User) :=
  match n with
  | Int z => (λ u, (z, u)) <$> us !! z
  | _ => None
  end.

(** [Number(query.data.split("_")[1])] *)
Definition targetOf (q : Query) : JsNum :=
  NumberOpt (split 95 (data q) !! 1%nat).

(** [prefix + Date.now() + "-" + targetId] *)
Definition mintRef (prefix : string) (now : Z) (targetId : JsNum) : JsString :=
  lit prefix ++ ofZ now ++ lit "-" ++ ofNum targetId.

Definition isAdmin (env : Env) (id : Z) : bool :=
  bool_decide (Int id = ADMIN_ID env).

(** The [reply_] branch, the same in [src/index.js] and [part_000]. *)
Definition onReply (q : Query) : M unit :=
  env ← ask;
  if negb (isAdmin env (query_from q)) then call (AnswerCallbackQuery Unauthorized)
  else
    modify (set_adminReplyTarget (Some (targetOf q)));;
    call (AnswerCallbackQuery ReplyModeActivated);;
    sendMessage (ADMIN_ID env) TypeYourReply.

(** The [reject_] branch, the same in [src/index.js] and [part_000]. *)
Definition onReject (q : Query) : M unit :=
  env ← ask;
  if negb (isAdmin env (query_from q)) then call (AnswerCallbackQuery Unauthorized)
  else
    w ← get;
    match lookupNum (users w) (targetOf q) with
    | None => call (AnswerCallbackQuery UserNotFound)
    | Some (id, _) =>
        updUser id (set_status reapply_required);;
        call (EditMessageText MarkRejected);;
        call (AnswerCallbackQuery TeacherRejected);;
        sendMessage (targetOf q) NotApproved
    end.

(** The [approve_] branch of [src/index.js]. *)
Definition onApprove (q : Query) : M unit :=
  let targetId := targetOf q in
  w ← get;
  match lookupNum (users w) targetId with
  | None => call (AnswerCallbackQuery UserNotFound)
  | Some (id, targetUser) =>
      fee ← getFeeOf id;
      env ← ask;
      updUser id (λ u, set_tx_ref (Some (mintRef "tx-" (now env) targetId))
                         (set_status approved u));;
      (* [targetUser.name.split(' ')] while building [paymentData] *)
      match name targetUser with
      | None => throw TypeError
      | Some _ =>
          try_catch
            (match initializeCheckout env with
             | CheckoutFails => throw GatewayError
             | CheckoutResponse false => throw PaymentLinkError
             | CheckoutResponse true =>
                 call (EditMessageText MarkApproved);;
                 call (AnswerCallbackQuery TeacherApproved);;
                 sendMessage targetId (ApprovedWithLink fee)
             end)
            (λ e, logError e;;
                  sendMessage targetId PaymentLinkFailed;;
                  call (AnswerCallbackQuery PaymentLinkFailedAlert))
      end
  end.

(** The [callback_query] handler of [src/index.js]. *)
Definition onCallbackQuery (q : Query) : M unit :=
  if startsWith (lit "approve_") (data q) then onApprove q
  else if startsWith (lit "reply_") (data q) then onReply q
  else if startsWith (lit "reject_") (data q) then onReject q
  else mret ().

(** ** The payment-confirmation webhook ([POST /verify]) *)

Inductive Body :=
| MissingTxRef | AlreadyProcessed | PaymentNotSuccessful | UserNotFoundBody
| Success | InternalServerError
| Received | InternalButAcknowledged.   (* [part_000] only *)

Record Response := mkResponse { code : Z; body : Body }.

(** The assignments of the finalising step.  The commission is the product
    [data.amount * TEACHER_PERCENT] of two doubles, rounded as the language
    rounds it. *)
Definition markPaid (now : Z) (amount : float) (u : User) : User :=
  set_paymentDate (Some now)
    (set_commission (Some (amount * TEACHER_PERCENT)%float)
       (set_paidAmount (Some amount)
          (set_status payment_verified u))).

Definition addProcessed (ref : JsString) : M unit :=
  modify (λ w, set_processedTransactions ({[ref]} ∪ processedTransactions w) w).

(** [Number(tx_ref.split("-").pop())] *)
Definition ownerOf (tx_ref : JsString) : JsNum := Number (lastSegment 45 tx_ref).

(** The handler of [src/index.js] (and of [part_001]).  The request is the
    [tx_ref] field of its JSON body, a string as the gateway sends it, and
    [None] when the body has none.  This is one delivery with no other
    event between the request to the gateway and its answer; the two halves
    of the handler around that [await] follow as [verifyRequest] and
    [verifyResume]. *)
Definition verify (tx_ref : option JsString) : M Response :=
  try_catch
    (if noText tx_ref then mret (mkResponse 400 MissingTxRef)
     else
       let ref := default [] tx_ref in
       w ← get;
       if bool_decide (ref ∈ processedTransactions w)
       then mret (mkResponse 200 AlreadyProcessed)
       else
         env ← ask;
         match verifyTransaction env ref with
         | VerifyFails => throw GatewayError
         | VerifyData None => throw TypeError       (* [data.status] *)
         | VerifyData (Some d) =>
             if negb (eqb (pstatus d) (lit "success"))
             then mret (mkResponse 200 PaymentNotSuccessful)
             else
               let telegramId := ownerOf ref in
               match lookupNum (users w) telegramId with
               | None => mret (mkResponse 404 UserNotFoundBody)
               | Some (id, _) =>
                   addProcessed ref;;
                   updUser id (markPaid (now env) (amount d));;
                   sendMessage telegramId (PaymentVerified (amount d));;
                   sendMessage (ADMIN_ID env) (PaymentReceived (amount d) ref);;
                   mret (mkResponse 200 Success)
               end
         end)
    (λ e, logError e;; mret (mkResponse 500 InternalServerError)).

(** *** The two halves of a delivery

    The handler gives control back at [await axios.get(...)]: between its
    test of [processedTransactions] and the answer of the gateway other
    events run, a second delivery of the same reference among them. *)

(** Up to the request to the gateway: a response at once, or the reference
    whose verification has been requested. *)
Definition verifyRequest (tx_ref : option JsString) : M (Response + JsString) :=
  if noText tx_ref then mret (inl (mkResponse 400 MissingTxRef))
  else
    let ref := default [] tx_ref in
    w ← get;
    if bool_decide (ref ∈ processedTransactions w)
    then mret (inl (mkResponse 200 AlreadyProcessed))
    else mret (inr ref).

(** From the answer of the gateway on, in the world of that moment. *)
Definition verifyResume (ref : JsString) (reply : VerifyReply) : M Response :=
  try_catch
    (match reply with
     | VerifyFails => throw GatewayError
     | VerifyData None => throw TypeError       (* [data.status] *)
     | VerifyData (Some d) =>
         if negb (eqb (pstatus d) (lit "success"))
         then mret (mkResponse 200 PaymentNotSuccessful)
         else
           let telegramId := ownerOf ref in
           w ← get;
           match lookupNum (users w) telegramId with
           | None => mret (mkResponse 404 UserNotFoundBody)
           | Some (id, _) =>
               env ← ask;
               addProcessed ref;;
               updUser id (markPaid (now env) (amount d));;
               sendMessage telegramId (PaymentVerified (amount d));;
               sendMessage (ADMIN_ID env) (PaymentReceived (amount d) ref);;
               mret (mkResponse 200 Success)
           end
     end)
    (λ e, logError e;; mret (mkResponse 500 InternalServerError)).

(** ** The sibling variants, where they differ from [src/index.js] *)

Module Part000.

(** The [approve_] branch of [src/unnamed/part_000]. *)
Definition onApprove (q : Query) : M unit :=
  env ← ask;
  if negb (isAdmin env (query_from q)) then call (AnswerCallbackQuery Unauthorized)
  else
    let targetId := targetOf q in
    w ← get;
    match lookupNum (users w) targetId with
    | None => call (AnswerCallbackQuery UserNotFound)
    | Some (id, targetUser) =>
        fee ← getFeeOf id;
        if fee <=? 0 then
          sendMessage (ADMIN_ID env) FeeCalculationFailed;;
          call (AnswerCallbackQuery FeeFailedAlert)
        else
          updUser id (λ u, set_tx_ref (Some (mintRef "OTS-" (now env) targetId))
                             (set_status approved u));;
          (* [email.includes('@')] and [targetUser.name.split(' ')] *)
          match email targetUser, name targetUser with
          | Some _, Some _ =>
              call (EditMessageText MarkGenerating);;
              try_catch
                (match initializeCheckout env with
                 | CheckoutFails => throw GatewayError
                 | CheckoutResponse true =>
                     sendMessage targetId (ApprovedWithLink fee);;
                     sendMessage (ADMIN_ID env) (LinkGenerated fee);;
                     call (EditMessageText MarkLinkSent);;
                     call (AnswerCallbackQuery (LinkSent fee))
                 | CheckoutResponse false =>
                     sendMessage (ADMIN_ID env) (ChapaApiError fee);;
                     call (EditMessageText MarkChapaError);;
                     call (AnswerCallbackQuery ChapaErrorAlert)
                 end)
                (λ e, logError e;;
                      sendMessage (ADMIN_ID env) (ChapaConnectionFailed fee);;
                      call (EditMessageText MarkConnectionFailed);;
                      call (AnswerCallbackQuery ChapaConnectionAlert))
          | _, _ => throw TypeError
          end
    end.

(** The [callback_query] handler of [src/unnamed/part_000]. *)
Definition onCallbackQuery (q : Query) : M unit :=
  if startsWith (lit "approve_") (data q) then onApprove q
  else if startsWith (lit "reply_") (data q) then onReply q
  else if startsWith (lit "reject_") (data q) then onReject q
  else mret ().

(** The handler of [src/unnamed/part_000]. *)
Definition verify (tx_ref : option JsString) : M Response :=
  try_catch
    (if noText tx_ref then mret (mkResponse 200 MissingTxRef)
     else
       let ref := default [] tx_ref in
       w ← get;
       if bool_decide (ref ∈ processedTransactions w)
       then mret (mkResponse 200 AlreadyProcessed)
       else
         env ← ask;
         match verifyTransaction env ref with
         | VerifyFails => throw GatewayError
         | VerifyData d =>
             match d with
             | Some d =>
                 if eqb (pstatus d) (lit "success") then
                   let telegramId := ownerOf ref in
                   match lookupNum (users w) telegramId with
                   | Some (id, _) =>
                       addProcessed ref;;
                       updUser id (markPaid (now env) (amount d));;
                       sendMessage telegramId (PaymentVerified (amount d));;
                       sendMessage (ADMIN_ID env) (PaymentReceived (amount d) ref)
                   | None => mret ()
                   end
                 else mret ()
             | None => mret ()
             end;;
             mret (mkResponse 200 Received)
         end)
    (λ e, logError e;; mret (mkResponse 200 InternalButAcknowledged)).

End Part000.

Module Part001.

(** [/^[^\s@]+@[^\s@]+\.[^\s@]+$/] *)
Definition atom (c : N) : bool := negb (Js.isWhiteSpace c) && negb (c =? 64)%N.

Definition emailRegex : Regex.t :=
  Regex.Seq (Regex.Plus (Regex.Class atom))
    (Regex.Seq (Regex.Chr 64)
       (Regex.Seq (Regex.Plus (Regex.Class atom))
          (Regex.Seq (Regex.Chr 46) (Regex.Plus (Regex.Class atom))))).

(** [isValidEmail] of [src/unnamed/part_001]. *)
Definition isValidEmail (email : option Js.JsString) : Completion bool :=
  match email with
  | None => Throw TypeError
  | Some e =>
      if Js.eqb (Js.toLowerCase e) (Js.lit "skip") then Normal true
      else Normal (Regex.test emailRegex e)
  end.

(** The [pay_now] branch of [src/unnamed/part_001]: the approved actor
    asks for the checkout link. *)
Definition onPayNow (q : Query) : M unit :=
  let userId := query_from q in
  w ← get;
  match users w !! userId with
  | None => call (AnswerCallbackQuery InvalidPaymentRequest)
  | Some user =>
      if negb (bool_decide (status user = approved))
      then call (AnswerCallbackQuery InvalidPaymentRequest)
      else
        amount ← getFeeOf userId;
        env ← ask;
        updUser userId (set_tx_ref (Some (mintRef "tx-" (now env) (Int userId))));;
        match name user with
        | None => throw TypeError
        | Some _ =>
            try_catch
              (match initializeCheckout env with
               | CheckoutFails => throw GatewayError
               | CheckoutResponse false => throw PaymentLinkError
               | CheckoutResponse true =>
                   sendMessage (Int userId) (CompletePayment amount);;
                   call (AnswerCallbackQuery PaymentLinkGenerated)
               end)
              (λ e, logError e;;
                    sendMessage (Int userId) PaymentLinkFailed;;
                    call (AnswerCallbackQuery PaymentFailedAlert))
        end
  end.

(** The reviewer's branch of [src/unnamed/part_001]. *)
Definition onAdmin (q : Query) : M unit :=
  let targetId := targetOf q in
  w ← get;
  match lookupNum (users w) targetId with
  | None => call (AnswerCallbackQuery UserNotFound)
  | Some (id, _) =>
      if startsWith (lit "reply_") (data q) then
        env ← ask;
        modify (set_adminReplyTarget (Some targetId));;
        call (AnswerCallbackQuery ReplyModeActivated);;
        sendMessage (ADMIN_ID env) TypeYourReply
      else
        (if startsWith (lit "approve_") (data q) then
           fee ← getFeeOf id;
           updUser id (set_status approved);;
           call (EditMessageText MarkApproved);;
           call (AnswerCallbackQuery TeacherApproved);;
           sendMessage targetId (ApprovedPayNow fee)
         else mret ());;
        (if startsWith (lit "reject_") (data q) then
           updUser id (set_status reapply_required);;
           call (EditMessageText MarkRejected);;
           call (AnswerCallbackQuery TeacherRejected);;
           sendMessage targetId NotApproved
         else mret ())
  end.

(** The [callback_query] handler of [src/unnamed/part_001]. *)
Definition onCallbackQuery (q : Query) : M unit :=
  if eqb (data q) (lit "pay_now") then onPayNow q
  else
    env ← ask;
    if isAdmin env (query_from q) then onAdmin q
    else call (AnswerCallbackQuery Unauthorized).

End Part001.

(** ** Vocabulary of the properties *)

(** The session has no creation timestamp, as [getFee] tests it. *)
Definition noTimestamp (u : User) : Prop := truthyTime (createdAt u) = false.

(** The status is [reapply_required], or more than 24 hours have elapsed. *)
Definition penaltyDue (now : Z) (u : User) : Prop :=
  status u = reapply_required
  ∨ ∃ created, createdAt u = Some created
               ∧ (Q2Qc 24 < hoursSince now created)%Qc.

(** The session has been idle for longer than [SESSION_TIMEOUT]. *)
Definition idlePastTimeout (now : Z) (u : User) : Prop :=
  ∃ la, lastActivity u = Some la ∧ la ≠ 0 ∧ SESSION_TIMEOUT < now - la.

(** What the sweep decides for one stored session. *)
Definition evicted (now : Z) (u : User) : bool :=
  truthyTime (lastActivity u)
  && (SESSION_TIMEOUT <? now - default 0 (lastActivity u))
  && (bool_decide (status u = collecting) || bool_decide (status u = idle)).

(** [post m env w Q]: the run of [m] from [w] ends in a completion and a
    world that satisfy [Q]. *)
Definition post {A} (m : M A) (env : Env) (w : World)
    (Q : Completion A → World → Prop) : Prop :=
  Q (fst (m env w)) (snd (m env w)).

(** The fields of a session, and two sessions that hold the same value in
    every field outside a given list. *)
Inductive Field :=
| f_step | f_status | f_createdAt | f_lastActivity | f_name | f_phone
| f_youtube | f_email | f_subject | f_penalty | f_tx_ref | f_paidAmount
| f_commission | f_paymentDate.

Definition agreeOn (f : Field) (u u' : User) : Prop :=
  match f with
  | f_step => step u' = step u
  | f_status => status u' = status u
  | f_createdAt => createdAt u' = createdAt u
  | f_lastActivity => lastActivity u' = lastActivity u
  | f_name => name u' = name u
  | f_phone => phone u' = phone u
  | f_youtube => youtube u' = youtube u
  | f_email => email u' = email u
  | f_subject => subject u' = subject u
  | f_penalty => penalty u' = penalty u
  | f_tx_ref => tx_ref u' = tx_ref u
  | f_paidAmount => paidAmount u' = paidAmount u
  | f_commission => commission u' = commission u
  | f_paymentDate => paymentDate u' = paymentDate u
  end.

Definition sameApartFrom (fs : list Field) (u u' : User) : Prop :=
  ∀ f, f ∉ fs → agreeOn f u u'.

(** The step that follows [s] in the fixed sequence. *)
Definition nextStep (s : Step) : option Step :=
  match s with
  | step_name => Some step_phone
  | step_phone => Some step_youtube
  | step_youtube => Some step_email
  | step_email => Some step_subject
  | step_subject => Some step_completed
  | step_completed => None
  end.

(** ** Sample data for the worked examples *)

(** A completed application that awaits review. *)
Definition sampleApplicant : User :=
  {| step := Some step_completed; status := pending_review;
     createdAt := Some 1000; lastActivity := Some 4000;
     name := Some (lit "Jane Doe"); phone := Some (lit "0912345678");
     youtube := Some (lit "https://youtube.com/@jane");
     email := Some (lit "Not provided"); subject := Some (lit "Math");
     penalty := None; tx_ref := None; paidAmount := None;
     commission := None; paymentDate := None |}.

(** Every collaborator answers; the reviewer is identity 1. *)
Definition sampleEnv : Env :=
  {| now := 5000; ADMIN_ID := Int 1; delivers := λ _, true;
     verifyTransaction :=
       λ _, VerifyData (Some {| pstatus := lit "success"; amount := 99%float |});
     initializeCheckout := CheckoutResponse true |}.

Definition sampleWorld : World :=
  set_users {[42 := sampleApplicant]} initialWorld.

(** The rate limiter lets the next request of [k] through. *)
Definition admitted (env : Env) (w : World) (k : Z) : bool :=
  count (nextLimits (now env) (rateLimit w !! k)) <=? MAX_REQUESTS.

(** The message is taken as the reviewer's pending reply. *)
Definition redirected (env : Env) (w : World) (msg : Message) : bool :=
  isAdmin env (from_id msg) && replyPending w.

(** The text is one of the three control buttons. *)
Definition isControl (t : option JsString) : bool :=
  textIs t REGISTER || textIs t CANCEL || textIs t BACK.

(** The moves of [step] that the invariant of the data model lists: stay,
    one step forward, one step back on [Back], reset on [Cancel]. *)
Definition listedMove (t : option JsString) (s s' : option Step) : Prop :=
  s' = s
  ∨ (∃ a b, s = Some a ∧ nextStep a = Some b ∧ s' = Some b)
  ∨ (t = Some BACK ∧ ∃ a b, s = Some a ∧ s' = Some b ∧ nextStep b = Some a)
  ∨ (t = Some CANCEL ∧ s' = None).

(** The moves the handler makes for a session [u]: the listed ones, and
    the restart at [name] on [Register], which the handler refuses while
    the status is [pending_review], [approved] or [payment_verified]. *)
Definition stepMove (t : option JsString) (u : User) (s' : option Step) : Prop :=
  listedMove t (step u) s'
  ∨ (t = Some REGISTER ∧ s' = Some step_name
     ∧ status u ≠ pending_review ∧ status u ≠ approved
     ∧ status u ≠ payment_verified).

(** A session in the middle of the form, at the given step. *)
Definition collectingAt (s : Step) : User :=
  set_step (Some s) (set_status collecting (freshUser 1000)).

(** The strings a regular expression denotes. *)
Inductive lang : Regex.t → JsString → Prop :=
| lang_empty : lang Regex.Empty []
| lang_class p c : p c = true → lang (Regex.Class p) [c]
| lang_seq r1 r2 s1 s2 :
    lang r1 s1 → lang r2 s2 → lang (Regex.Seq r1 r2) (s1 ++ s2)
| lang_alt_l r1 r2 s : lang r1 s → lang (Regex.Alt r1 r2) s
| lang_alt_r r1 r2 s : lang r2 s → lang (Regex.Alt r1 r2) s
| lang_star_nil r : lang (Regex.Star r) []
| lang_star_more r s1 s2 :
    lang r s1 → lang (Regex.Star r) s2 → lang (Regex.Star r) (s1 ++ s2).

(** The shape [<part>@<part>.<part>] with non-empty parts free of
    whitespace and of the at sign. *)
Definition emailShape (e : JsString) : Prop :=
  ∃ l m t, e = l ++ 64%N :: m ++ 46%N :: t
           ∧ l ≠ [] ∧ m ≠ [] ∧ t ≠ []
           ∧ Forall (λ c, Part001.atom c = true) l
           ∧ Forall (λ c, Part001.atom c = true) m
           ∧ Forall (λ c, Part001.atom c = true) t.

(** The world after a sequence of events, each in the same environment. *)
Definition runAll (env : Env) (events : list (M unit)) (w : World) : World :=
  fold_left (λ w' m, snd (m env w')) events w.

(** A text message of actor [k]. *)
Definition says (k : Z) (s : JsString) : M unit :=
  onMessage (mkMessage k k (Some s) None).

(** ** Vocabulary of the further properties *)

(** The substrings that [isValidYouTubeUrl] looks for. *)
Definition youtubeMarkers : list string :=
  ["youtube.com/channel/"; "youtube.com/c/"; "youtube.com/user/"; "youtu.be/";
   "youtube.com/@"]%string.

(** An optional [+251] or [0], a nine, and eight more digits. *)
Definition phoneShape (p : JsString) : Prop :=
  ∃ pre ds, p = pre ++ 57%N :: ds
            ∧ (pre = [] ∨ pre = lit "+251" ∨ pre = lit "0")
            ∧ length ds = 8%nat
            ∧ Forall (λ c, isDigit c = true) ds.

(** The answers of [checkRateLimit] to successive requests of [userId],
    one per environment, and the world they leave. *)
Fixpoint attempts (userId : Z) (envs : list Env) (w : World) : list bool * World :=
  match envs with
  | [] => ([], w)
  | env :: envs' =>
      match checkRateLimit userId env w with
      | (Normal ok, w') =>
          let '(oks, w'') := attempts userId envs' w' in (ok :: oks, w'')
      | (Throw _, w') => ([], w')
      end
  end.

(** A request at clock reading [t] starts a new window: there is no entry
    yet, or the window of the entry has passed. *)
Definition windowOpens (t : Z) (entry : option RateLimitEntry) : Prop :=
  match entry with
  | None => True
  | Some e => resetTime e < t
  end.

(** The chat transport delivers every call. *)
Definition reliable (env : Env) : Prop := ∀ n, delivers env n = true.

(** The world in which the branches of the message handler run for a
    message of [k]: the request is counted and the activity stamp of the
    session refreshed. *)
Definition touched (env : Env) (w : World) (k : Z) : World :=
  set_users (alter (set_lastActivity (Some (now env))) k (users w))
    (set_rateLimit (<[k := nextLimits (now env) (rateLimit w !! k)]> (rateLimit w))
       w).

(** The moves of [status] that the message handler makes. *)
Definition statusMove (t : option JsString) (u : User) (s' : Status) : Prop :=
  s' = status u
  ∨ (t = Some REGISTER ∧ s' = collecting ∧ status u ≠ pending_review
     ∧ status u ≠ approved ∧ status u ≠ payment_verified)
  ∨ (t = Some CANCEL ∧ s' = idle)
  ∨ (step u = Some step_subject ∧ s' = pending_review).

(** What the [My Status] button answers for a session. *)
Definition statusNotice (now : Z) (u : User) : Notice :=
  match status u with
  | idle => NotStarted
  | approved => StatusReport approved (Some (fst (getFee now (Some u))))
  | st => StatusReport st None
  end.

(** The callback data of the three buttons under a review request:
    ["reply_" + chatId], ["approve_" + chatId], ["reject_" + chatId]. *)
Definition reviewButtons (chatId : Z) : list JsString :=
  [lit "reply_" ++ ofZ chatId;
   lit "approve_" ++ ofZ chatId;
   lit "reject_" ++ ofZ chatId].

(** The error that the approve branch catches when it obtains no link. *)
Definition checkoutError (r : CheckoutReply) : option Exn :=
  match r with
  | CheckoutFails => Some GatewayError
  | CheckoutResponse false => Some PaymentLinkError
  | CheckoutResponse true => None
  end.

(** The gateway confirms the payment behind [ref]. *)
Definition confirmed (env : Env) (ref : JsString) (d : PaymentData) : Prop :=
  verifyTransaction env ref = VerifyData (Some d) ∧ pstatus d = lit "success".

(** *** The process as a whole *)

(** The entry points of the process.  A call of the webhook is taken as
    one event: the delivery from its request to the gateway up to the
    answer, with no other event in between ([verify]). *)
Inductive Event :=
| EvStart (msg : Message)                 (* [bot.onText(/\/start/, ...)] *)
| EvMessage (msg : Message)               (* [bot.on("message", ...)] *)
| EvCallback (q : Query)                  (* [bot.on("callback_query", ...)] *)
| EvVerify (tx_ref : option JsString)     (* [app.post("/verify", ...)] *)
| EvSweep.                                (* the [setInterval] timer *)

Definition handle (ev : Event) : M unit :=
  match ev with
  | EvStart msg => onStart msg
  | EvMessage msg => onMessage msg
  | EvCallback q => onCallbackQuery q
  | EvVerify tx_ref => verify tx_ref;; mret ()
  | EvSweep => sweep
  end.

(** The worlds the process can be in: it starts with empty stores and
    handles one event after the other, each in the environment of its
    moment. *)
Inductive reachable : World → Prop :=
| reachable_init : reachable initialWorld
| reachable_step env ev w : reachable w → reachable (snd (handle ev env w)).

Definition runEvents (env : Env) (events : list Event) (w : World) : World :=
  fold_left (λ w' ev, snd (handle ev env w')) events w.

(** The assignments that the handlers make to the session stored under
    [k], each with the test that guards it. *)
Inductive sessionStep (now : Z) (k : Z) (u : User) : User → Prop :=
| ss_penalty p : sessionStep now k u (set_penalty p u)
| ss_touch : sessionStep now k u (set_lastActivity (Some now) u)
| ss_register :
    status u ≠ pending_review → status u ≠ approved →
    status u ≠ payment_verified →
    sessionStep now k u
      (set_createdAt (Some now) (set_status collecting (set_step (Some step_name) u)))
| ss_cancel : sessionStep now k u (set_status idle (set_step None u))
| ss_back a b :
    step u = Some a → nextStep b = Some a → a ≠ step_completed →
    sessionStep now k u (set_step (Some b) u)
| ss_name n :
    step u = Some step_name → is_Some n →
    sessionStep now k u (set_step (Some step_phone) (set_name n u))
| ss_phone p :
    step u = Some step_phone → isValidPhone p = true →
    sessionStep now k u (set_step (Some step_youtube) (set_phone (Some p) u))
| ss_youtube y :
    step u = Some step_youtube → is_Some y →
    sessionStep now k u (set_step (Some step_email) (set_youtube y u))
| ss_email e :
    step u = Some step_email → is_Some e →
    sessionStep now k u (set_step (Some step_subject) (set_email e u))
| ss_subject s :
    step u = Some step_subject → is_Some s →
    sessionStep now k u
      (set_status pending_review
         (set_step (Some step_completed) (set_subject s u)))
| ss_approve :
    sessionStep now k u
      (set_tx_ref (Some (mintRef "tx-" now (Int k))) (set_status approved u))
| ss_reject : sessionStep now k u (set_status reapply_required u)
| ss_paid a : sessionStep now k u (markPaid now a u).

(** What one event leaves under [k]: a fresh session, or the session that
    was there, after some of the assignments. *)
Definition sessionAfter (now : Z) (us : gmap Z User) (k : Z) (u' : User) : Prop :=
  u' = freshUser now ∨ ∃ u, us !! k = Some u ∧ rtc (sessionStep now k) u u'.

(** The position of a step in the form. *)
Definition stepRank (s : option Step) : nat :=
  match s with
  | None => 0
  | Some step_name => 1
  | Some step_phone => 2
  | Some step_youtube => 3
  | Some step_email => 4
  | Some step_subject => 5
  | Some step_completed => 6
  end.

(** The session holds the fields of the steps it has passed, and it awaits
    review only with the form completed. *)
Definition collected (u : User) : Prop :=
  (status u = pending_review → step u = Some step_completed)
  ∧ ((2 ≤ stepRank (step u))%nat → is_Some (name u))
  ∧ ((3 ≤ stepRank (step u))%nat → ∃ p, phone u = Some p ∧ isValidPhone p = true)
  ∧ ((4 ≤ stepRank (step u))%nat → is_Some (youtube u))
  ∧ ((5 ≤ stepRank (step u))%nat → is_Some (email u))
  ∧ ((6 ≤ stepRank (step u))%nat → is_Some (subject u)).

(** The payment fields are written together, the commission as the
    product of the amount and [TEACHER_PERCENT]; without them the session
    is not paid. *)
Definition paymentRecord (u : User) : Prop :=
  match paidAmount u with
  | Some a => commission u = Some (a * TEACHER_PERCENT)%float
              ∧ is_Some (paymentDate u)
  | None => status u ≠ payment_verified ∧ commission u = None
            ∧ paymentDate u = None
  end.

(** The stored reference was minted for the session that holds it. *)
Definition refNamesOwner (k : Z) (u : User) : Prop :=
  ∀ r, tx_ref u = Some r → ∃ t, r = mintRef "tx-" t (Int k).

(** The events of the registration of applicant 42, from [/start] to the
    subject, and of the approval and payment that follow. *)
Definition registrationEvents : list Event :=
  [EvStart (mkMessage 42 42 (Some (lit "/start")) None);
   EvMessage (mkMessage 42 42 (Some REGISTER) None);
   EvMessage (mkMessage 42 42 (Some (lit "Jane Doe")) None);
   EvMessage (mkMessage 42 42 (Some (lit "0912345678")) None);
   EvMessage (mkMessage 42 42 (Some (lit "https://youtube.com/@jane")) None);
   EvMessage (mkMessage 42 42 (Some (lit "skip")) None);
   EvMessage (mkMessage 42 42 (Some (lit "Math")) None)].

(** The world when applicant 42 is asked for the name, and when asked for
    the e-mail address. *)
Definition atNameStep : World :=
  runEvents sampleEnv (take 2 registrationEvents) initialWorld.

Definition atEmailStep : World :=
  runEvents sampleEnv (take 5 registrationEvents) initialWorld.

(** A group chat, identity -1001234, completes the form and is approved,
    and the actor 1001234 has started the bot. *)
Definition groupEvents : list Event :=
  [EvStart (mkMessage (-1001234) 7 (Some (lit "/start")) None);
   EvMessage (mkMessage (-1001234) 7 (Some REGISTER) None);
   EvMessage (mkMessage (-1001234) 7 (Some (lit "Jane Doe")) None);
   EvMessage (mkMessage (-1001234) 7 (Some (lit "0912345678")) None);
   EvMessage (mkMessage (-1001234) 7 (Some (lit "https://youtube.com/@jane")) None);
   EvMessage (mkMessage (-1001234) 7 (Some (lit "skip")) None);
   EvMessage (mkMessage (-1001234) 7 (Some (lit "Math")) None);
   EvStart (mkMessage 1001234 1001234 (Some (lit "/start")) None);
   EvCallback (mkQuery 1 (lit "approve_-1001234"))].

Definition paymentEvents : list Event :=
  [EvCallback (mkQuery 1 (lit "approve_42"));
   EvVerify (Some (lit "tx-5000-42"))].

(** ** The primitives on the literals of the source and of the specification *)

Section JsExamples.
Import Js.

Example Number_examples :
  Number [] = Int 0
  ∧ map (λ s, Number (lit s))
      ["  12 "; "-7"; "+7"; "1e3"; "0x1f"; "12.0"; "5."; ".5e1"; "250e-1";
       "0"; "-0"; "1.5"; "25e-1"; "Infinity";
       "."; "abc"; "-0x10"; "1e"; "0b"; "12px"; "1 2"]%string
    = [Int 12; Int (-7); Int 7; Int 1000; Int 31; Int 12; Int 5; Int 5;
       Int 25; Int 0; Int 0; NonInt; NonInt; NonInt;
       NaN; NaN; NaN; NaN; NaN; NaN; NaN].
Proof. vm_compute. split; reflexivity. Qed.

Example ofZ_examples :
  (ofZ 0, ofZ 7, ofZ 1700000000000, ofZ (-1001234))
  = (lit "0", lit "7", lit "1700000000000", lit "-1001234").
Proof. vm_compute. reflexivity. Qed.

Example split_examples :
  (split 95 (lit "approve_42"), split 95 (lit "approve_"), split 95 (lit "x"),
   lastSegment 45 (lit "tx-17-42"), lastSegment 45 (lit "tx-17--42"))
  = ([lit "approve"; lit "42"], [lit "approve"; []], [lit "x"],
     lit "42", lit "42").
Proof. vm_compute. reflexivity. Qed.

Example trim_examples :
  (trim (lit "  a b "), trim (lit "   "), toLowerCase (lit "SkIp"))
  = (lit "a b", [], lit "skip").
Proof. vm_compute. reflexivity. Qed.

(** The validator examples of the specification. *)
Example isValidPhone_examples :
  map (λ s, isValidPhone (lit s))
    ["+251912345678"; "0912345678"; "912345678"; "09 1234 5678";
     "0812345678"; "12345678"]%string
  = [true; true; true; true; false; false].
Proof. vm_compute. reflexivity. Qed.

Example isValidEmail_examples :
  map (λ s, isValidEmail (Some (lit s)))
    ["skip"; "SKIP"; "a@b.c"; "notanemail"]%string
  = [Normal true; Normal true; Normal true; Normal false]
  ∧ map (λ s, Part001.isValidEmail (Some (lit s)))
      ["skip"; "SKIP"; "a@b.c"; "a@b.c.d"; "notanemail"; "a@@b.c";
       "a b@c.d"]%string
    = [Normal true; Normal true; Normal true; Normal true;
       Normal false; Normal false; Normal false].
Proof. vm_compute. split; reflexivity. Qed.

Example isValidYouTubeUrl_examples :
  map (λ s, isValidYouTubeUrl (Some (lit s)))
    ["https://youtube.com/@handle"; "https://youtu.be/x";
     "https://example.com"]%string
  = [true; true; false].
Proof. vm_compute. reflexivity. Qed.

End JsExamples.

(** ** Sessions that differ in given fields *)

Lemma sameApartFrom_penalty (p : option bool) (u : User) :
  sameApartFrom [f_penalty] u (set_penalty p u).
Proof.
  intros f Hf. destruct f; try reflexivity.
  all: exfalso; apply Hf; apply list_elem_of_here.
Qed.

Lemma sameApartFrom_lastActivity (t : option Z) (u : User) :
  sameApartFrom [f_lastActivity] u (set_lastActivity t u).
Proof.
  intros f Hf. destruct f; try reflexivity.
  all: exfalso; apply Hf; apply list_elem_of_here.
Qed.

Lemma sameApartFrom_markPaid (now : Z) (a : float) (u : User) :
  sameApartFrom [f_status; f_paidAmount; f_commission; f_paymentDate] u
    (markPaid now a u).
Proof.
  intros f Hf. destruct f; try reflexivity.
  all: exfalso; apply Hf;
    repeat first [apply list_elem_of_here | apply list_elem_of_further].
Qed.

(** The commission is a product of doubles: for the two fees it is the
    double nearest to 55 % of the amount, for an amount of 100 it is not. *)
Example commission_examples :
  (99 * TEACHER_PERCENT = 54.45)%float
  ∧ (149 * TEACHER_PERCENT = 81.95)%float
  ∧ (100 * TEACHER_PERCENT = 55.00000000000001)%float
  ∧ (100 * TEACHER_PERCENT)%float ≠ 55%float.
Proof. vm_compute. repeat split. discriminate. Qed.

(** ** Fee policy *)

Section FeePolicy.

(** Elapsed hours exceed 24 exactly when more than 86 400 000 ms passed. *)
Lemma hoursSince_exceeds (now created : Z) :
  (Q2Qc 24 < hoursSince now created)%Qc ↔ 24 * (1000 * 60 * 60) < now - created.
Proof.
  unfold hoursSince, Qclt.
  change (1000 * 60 * 60) with 3600000.
  unfold Qcdiv, Qcmult, Qcinv, Q2Qc. cbn [this].
  do 2 setoid_rewrite Qred_correct.
  assert (Hq : (Qinv (Qred (inject_Z 3600000)) == 1 # 3600000)%Q)
    by reflexivity.
  setoid_rewrite Hq.
  unfold Qlt, Qmult, inject_Z. cbn [Qnum Qden]. lia.
Qed.

Lemma getFee_cases (now : Z) (u : User) :
  (noTimestamp u ∧ getFee now (Some u) = (STANDARD, Some u))
  ∨ (¬ noTimestamp u ∧ penaltyDue now u
     ∧ getFee now (Some u) = (PENALTY, Some (set_penalty (Some true) u)))
  ∨ (¬ noTimestamp u ∧ ¬ penaltyDue now u
     ∧ getFee now (Some u) = (STANDARD, Some (set_penalty (Some false) u))).
Proof.
  unfold noTimestamp, penaltyDue, getFee. cbv zeta.
  destruct (truthyTime (createdAt u)) eqn:Ht; [|left; done].
  right. cbn [negb].
  destruct (createdAt u) as [c|] eqn:Hc; [|cbn in Ht; done].
  cbn [default from_option id].
  destruct (bool_decide (status u = reapply_required)) eqn:Hs.
  - left. apply bool_decide_eq_true in Hs. split; [done|]. split; [by left|done].
  - apply bool_decide_eq_false in Hs. cbn [orb].
    destruct (bool_decide (Q2Qc 24 < hoursSince now c)%Qc) eqn:Hh.
    + left. apply bool_decide_eq_true in Hh. split; [done|].
      split; [right; eauto|done].
    + right. apply bool_decide_eq_false in Hh. split; [done|]. split; [|done].
      intros [?|(c' & [= <-] & ?)]; done.
Qed.

End FeePolicy.

(** C3.  [getFee] returns 99 and leaves the session alone when the session
    has no creation timestamp ([createdAt] absent or zero, the source's
    test [!user.createdAt]).  Otherwise, when the status is
    [reapply_required] or more than 24 hours, that is 24 * 3 600 000
    milliseconds, have elapsed since [createdAt], it returns 149 and the
    session has its penalty flag set; in the remaining cases it returns 99
    and the session has the flag cleared.  No other field of the session
    changes.  A second call on the session the first call left, at the same
    clock reading, returns the same fee and the same session, and the fee
    depends on nothing but [createdAt], [status] and the clock reading. *)
Theorem getFee_policy (now : Z) (u : User) :
  (createdAt u = None ∨ createdAt u = Some 0 →
     getFee now (Some u) = (99, Some u))
  ∧ (∀ created, createdAt u = Some created → created ≠ 0 →
       status u = reapply_required ∨ 24 * (1000 * 60 * 60) < now - created →
       ∃ u', getFee now (Some u) = (149, Some u')
             ∧ penalty u' = Some true ∧ sameApartFrom [f_penalty] u u')
  ∧ (∀ created, createdAt u = Some created → created ≠ 0 →
       status u ≠ reapply_required → now - created ≤ 24 * (1000 * 60 * 60) →
       ∃ u', getFee now (Some u) = (99, Some u')
             ∧ penalty u' = Some false ∧ sameApartFrom [f_penalty] u u')
  ∧ getFee now (snd (getFee now (Some u))) = getFee now (Some u)
  ∧ (∀ v, createdAt v = createdAt u → status v = status u →
       fst (getFee now (Some v)) = fst (getFee now (Some u))).
Proof.
  split; [|split; [|split; [|split]]].
  - intros [Hc|Hc]; unfold getFee; by rewrite Hc.
  - intros c Hc Hz Hdue.
    destruct (getFee_cases now u) as [[H1 E]|[(H1 & H2 & E)|(H1 & H2 & E)]].
    + unfold noTimestamp in H1. rewrite Hc in H1. cbn in H1.
      apply negb_false_iff, Z.eqb_eq in H1. done.
    + rewrite E. eexists. split; [reflexivity|]. split; [reflexivity|].
      apply sameApartFrom_penalty.
    + exfalso. apply H2. destruct Hdue as [Hs|Ht]; [by left|right].
      exists c. split; [done|]. by apply hoursSince_exceeds.
  - intros c Hc Hz Hs Ht.
    destruct (getFee_cases now u) as [[H1 E]|[(H1 & H2 & E)|(H1 & H2 & E)]].
    + unfold noTimestamp in H1. rewrite Hc in H1. cbn in H1.
      apply negb_false_iff, Z.eqb_eq in H1. done.
    + exfalso. destruct H2 as [H2|(c' & Hc' & H2)]; [done|].
      rewrite Hc in Hc'. injection Hc' as <-.
      apply hoursSince_exceeds in H2. lia.
    + rewrite E. eexists. split; [reflexivity|]. split; [reflexivity|].
      apply sameApartFrom_penalty.
  - destruct (getFee_cases now u) as [[H1 E]|[(H1 & H2 & E)|(H1 & H2 & E)]];
      rewrite E; cbn [snd]; try done;
      match goal with
      | |- getFee ?n (Some ?v) = _ =>
          destruct (getFee_cases n v) as [[K1 ->]|[(K1 & K2 & ->)|(K1 & K2 & ->)]]
      end; try done; exfalso; tauto.
  - intros v Hc Hs. unfold getFee. cbv zeta. rewrite Hc, Hs.
    destruct (negb (truthyTime (createdAt u))); [done|].
    by destruct (bool_decide (status u = reapply_required)
                 || bool_decide
                      (Q2Qc 24 < hoursSince now (default 0%Z (createdAt u)))%Qc).
Qed.

(** A witness of [getFee_policy]: a session created at 1000 is asked for
    the fee 24 hours and one millisecond later. *)
Lemma getFee_policy_witness :
  ∃ u', getFee 86401001 (Some (freshUser 1000)) = (149, Some u')
        ∧ penalty u' = Some true ∧ sameApartFrom [f_penalty] (freshUser 1000) u'.
Proof.
  apply (proj1 (proj2 (getFee_policy 86401001 (freshUser 1000))) 1000).
  - reflexivity.
  - lia.
  - right. lia.
Defined.

(** ** The idle-session sweep *)

Section Sweep.

Variable now : Z.

Lemma sweepOne_lookup (us : gmap Z User) (a k : Z) :
  sweepOne now us a !! k =
    if decide (k = a)
    then u ← us !! k; if evicted now u then None else Some u
    else us !! k.
Proof.
  unfold sweepOne, evicted. case_decide as Hk.
  - subst k. destruct (us !! a) as [u|] eqn:Hu; cbn; [|done].
    destruct (truthyTime (lastActivity u)
              && (SESSION_TIMEOUT <? now - default 0 (lastActivity u)));
      cbn [andb]; [|done].
    destruct (bool_decide (status u = collecting) || bool_decide (status u = idle));
      [by rewrite lookup_delete_eq | done].
  - destruct (us !! a) as [u|]; [|done].
    destruct (truthyTime (lastActivity u)
              && (SESSION_TIMEOUT <? now - default 0 (lastActivity u)));
      [|done].
    destruct (bool_decide (status u = collecting) || bool_decide (status u = idle));
      [by rewrite lookup_delete_ne | done].
Qed.

Lemma sweep_fold_lookup (l : list Z) (us : gmap Z User) (k : Z) :
  fold_left (sweepOne now) l us !! k =
    if decide (k ∈ l)
    then u ← us !! k; if evicted now u then None else Some u
    else us !! k.
Proof.
  revert us. induction l as [|a l IH]; intros us; cbn [fold_left].
  - case_decide as H; [by apply elem_of_nil in H | done].
  - rewrite IH, sweepOne_lookup.
    destruct (decide (k = a)) as [->|Hne].
    + rewrite (decide_True (P := a ∈ a :: l)) by left.
      destruct (us !! a) as [u|]; cbn; [|by case_decide].
      destruct (evicted now u) eqn:He; cbn; [by case_decide|].
      rewrite He. by case_decide.
    + destruct (decide (k ∈ l)) as [Hin|Hnin].
      * by rewrite (decide_True (P := k ∈ a :: l)) by (by right).
      * rewrite (decide_False (P := k ∈ a :: l)); [done|].
        intros [?|?]%elem_of_cons; done.
Qed.

(** The sweep removes exactly the sessions that [evicted] selects. *)
Lemma cleanup_lookup (us : gmap Z User) (k : Z) :
  cleanupInactiveSessions now us !! k =
    u ← us !! k; if evicted now u then None else Some u.
Proof.
  unfold cleanupInactiveSessions. rewrite sweep_fold_lookup.
  case_decide as Hin; [done|].
  destruct (us !! k) as [u|] eqn:Hu; [|done].
  exfalso. apply Hin. apply list_elem_of_fmap.
  exists (k, u). split; [done|]. by apply elem_of_map_to_list.
Qed.

Lemma evicted_spec (u : User) :
  evicted now u = true ↔
    idlePastTimeout now u ∧ (status u = idle ∨ status u = collecting).
Proof.
  unfold evicted, idlePastTimeout, truthyTime.
  rewrite !andb_true_iff, orb_true_iff, !bool_decide_eq_true, Z.ltb_lt.
  destruct (lastActivity u) as [la|]; cbn [default].
  - rewrite negb_true_iff, Z.eqb_neq. split.
    + intros [[? ?] ?]. split; [exists la; done | tauto].
    + intros [(la' & [= <-] & ? & ?) ?]. tauto.
  - split; [intros [[? ?] ?]; done | intros [(la' & ? & _) _]; done].
Qed.

End Sweep.

(** C7. The periodic sweep deletes a stored session only when the session
    has been idle past the timeout and its status is [idle] or
    [collecting]; a session whose status is [pending_review], [approved],
    [reapply_required] or [payment_verified] is kept as it is. *)
Theorem cleanup_spares_review_and_payment
    (now : Z) (us : gmap Z User) (k : Z) (u : User) :
  us !! k = Some u →
  (cleanupInactiveSessions now us !! k = None →
     idlePastTimeout now u ∧ (status u = idle ∨ status u = collecting))
  ∧ (status u = pending_review ∨ status u = approved
     ∨ status u = reapply_required ∨ status u = payment_verified →
     cleanupInactiveSessions now us !! k = Some u).
Proof.
  intros Hu. rewrite cleanup_lookup, Hu. cbn.
  destruct (evicted now u) eqn:He.
  - apply evicted_spec in He. split; [done|].
    destruct He as [_ [Hs|Hs]]; rewrite Hs; intros [?|[?|[?|?]]]; done.
  - split; [done|done].
Qed.

(** A witness of [cleanup_spares_review_and_payment]: a session awaiting
    review survives a sweep long after its last activity. *)
Lemma cleanup_spares_witness :
  cleanupInactiveSessions 100000000
    {[7 := set_status pending_review (freshUser 1)]} !! 7
  = Some (set_status pending_review (freshUser 1)).
Proof.
  refine (proj2 (cleanup_spares_review_and_payment 100000000
                   {[7 := set_status pending_review (freshUser 1)]} 7
                   (set_status pending_review (freshUser 1)) _) _).
  - vm_compute. reflexivity.
  - left. reflexivity.
Defined.

(** ** Integers and their decimal strings *)

Section Decimal.
Import Js.

Lemma decimalDigits_value (f : nat) (n : N) (acc : JsString) :
  (n < 2 ^ N.of_nat f)%N →
  fold_left digitStep (decimalDigits f n acc) 0
  = fold_left digitStep acc (Z.of_N n).
Proof.
  revert n acc. induction f as [|f IH]; intros n acc Hn.
  - cbn in Hn. assert (n = 0%N) as -> by lia. done.
  - cbn [decimalDigits]. destruct (n <? 10)%N eqn:Hlt.
    + apply N.ltb_lt in Hlt. cbn [fold_left]. f_equal. unfold digitStep.
      rewrite N.mod_small by done. lia.
    + apply N.ltb_ge in Hlt. rewrite IH.
      * cbn [fold_left]. f_equal. unfold digitStep.
        rewrite N2Z.inj_div.
        assert (Z.of_N (48 + n mod 10) = 48 + Z.of_N n mod 10) as ->.
        { rewrite N2Z.inj_add, N2Z.inj_mod. done. }
        change (Z.of_N 10) with 10.
        pose proof (Z.div_mod (Z.of_N n) 10). lia.
      * rewrite Nat2N.inj_succ, N.pow_succ_r' in Hn.
        apply N.Div0.div_lt_upper_bound.
        lia.
Qed.

Lemma decimalDigits_digits (f : nat) (n : N) (acc : JsString) :
  Forall (λ c, isDigit c = true) acc →
  Forall (λ c, isDigit c = true) (decimalDigits f n acc).
Proof.
  revert n acc. induction f as [|f IH]; intros n acc Hacc; [done|].
  cbn [decimalDigits].
  assert (isDigit (48 + n mod 10) = true) as Hd.
  { unfold isDigit.
    assert (n mod 10 < 10)%N by (by apply N.mod_upper_bound).
    revert H. generalize (n mod 10)%N. intros m Hm.
    apply andb_true_iff. split; apply N.leb_le; lia. }
  destruct (n <? 10)%N; [by constructor|]. apply IH. by constructor.
Qed.

Lemma decimalDigits_nonempty (f : nat) (n : N) (acc : JsString) :
  decimalDigits (S f) n acc ≠ [].
Proof.
  revert n acc. induction f as [|f IH]; intros n acc.
  - cbn. by destruct (n <? 10)%N.
  - change (decimalDigits (S (S f)) n acc)
      with (if (n <? 10)%N then (48 + n mod 10)%N :: acc
            else decimalDigits (S f) (n / 10)%N ((48 + n mod 10)%N :: acc)).
    destruct (n <? 10)%N; [done|apply IH].
Qed.

Lemma ofN_digits (n : N) : Forall (λ c, isDigit c = true) (ofN n).
Proof. apply decimalDigits_digits. constructor. Qed.

Lemma ofN_nonempty (n : N) : ofN n ≠ [].
Proof. apply decimalDigits_nonempty. Qed.

Lemma ofN_value (n : N) : digitsValue (ofN n) = Z.of_N n.
Proof.
  unfold digitsValue, ofN. rewrite (decimalDigits_value _ n []); [done|].
  rewrite Nat2N.inj_succ, N2Nat.id.
  destruct (N.eq_dec n 0%N) as [->|Hn]; [done|].
  apply N.log2_spec. lia.
Qed.

Lemma ofN_inj (n m : N) : ofN n = ofN m → n = m.
Proof.
  intros H. apply (f_equal digitsValue) in H. rewrite !ofN_value in H. lia.
Qed.

End Decimal.

Section NumberOfDigits.
Import Js.

Lemma digit_not_space (c : N) : isDigit c = true → isWhiteSpace c = false.
Proof.
  unfold isDigit, isWhiteSpace. intros [H1 H2]%andb_true_iff.
  apply N.leb_le in H1. apply N.leb_le in H2.
  repeat (apply orb_false_iff; split);
    try (apply N.eqb_neq; lia);
    apply andb_false_iff;
    ((left; apply N.leb_gt; lia) || (right; apply N.leb_gt; lia)).
Qed.

Lemma spanDigits_app (ds r : JsString) :
  Forall (λ c, isDigit c = true) ds →
  match r with [] => True | c :: _ => isDigit c = false end →
  spanDigits (ds ++ r) = (ds, r).
Proof.
  intros Hds Hr. induction Hds as [|c ds Hc _ IH]; cbn [spanDigits app].
  - destruct r as [|c r]; [done|]. cbn [spanDigits]. by rewrite Hr.
  - by rewrite Hc, IH.
Qed.

Lemma trimStart_id (c : N) (s : JsString) :
  isWhiteSpace c = false → trimStart (c :: s) = c :: s.
Proof. intros H. cbn. by rewrite H. Qed.

Lemma trim_digits (ds : JsString) :
  Forall (λ c, isDigit c = true) ds → trim ds = ds.
Proof.
  intros Hds. unfold trim.
  assert (∀ l, Forall (λ c, isDigit c = true) l → trimStart l = l) as Hid.
  { intros l Hl. destruct Hl as [|c l Hc _]; [done|].
    apply trimStart_id, digit_not_space, Hc. }
  rewrite (Hid ds Hds), Hid; [apply rev_involutive|].
  by apply List.Forall_rev.
Qed.

(** [Number] reads a non-empty run of decimal digits as its value. *)
Lemma Number_digits (ds : JsString) :
  ds ≠ [] → Forall (λ c, isDigit c = true) ds →
  Number ds = Int (digitsValue ds).
Proof.
  intros Hne Hds. unfold Number. rewrite (trim_digits ds Hds).
  destruct ds as [|c ds]; [done|].
  pose proof (Forall_inv Hds) as Hc. cbn beta in Hc.
  assert (isDigit c = true) as Hc' by done.
  unfold isDigit in Hc'. apply andb_true_iff in Hc' as [Hc1 Hc2].
  apply N.leb_le in Hc1. apply N.leb_le in Hc2.
  assert (nonDecimalLiteral (c :: ds) = None) as ->.
  { unfold nonDecimalLiteral. destruct ds as [|p ds]; [done|].
    pose proof (Forall_inv (Forall_inv_tail Hds)) as Hp. cbn beta in Hp.
    unfold isDigit in Hp. apply andb_true_iff in Hp as [Hp1 Hp2].
    apply N.leb_le in Hp1. apply N.leb_le in Hp2.
    rewrite !(proj2 (N.eqb_neq p _)) by lia. done. }
  unfold decimalLiteral, signOf.
  rewrite !(proj2 (N.eqb_neq c _)) by lia.
  unfold eqb. rewrite bool_decide_eq_false_2.
  2:{ intros [= -> _]. vm_compute in Hc2. done. }
  pose proof (spanDigits_app (c :: ds) [] Hds I) as Hsp.
  rewrite app_nil_r in Hsp. rewrite Hsp, app_nil_r.
  cbn [exponentPart length Z.of_nat]. unfold scale.
  destruct (digitsValue (c :: ds) =? 0) eqn:Hz.
  - apply Z.eqb_eq in Hz. by rewrite Hz.
  - cbn. f_equal. destruct (digitsValue (c :: ds)); lia.
Qed.

Lemma Number_ofZ (z : Z) : 0 ≤ z → Number (ofZ z) = Int z.
Proof.
  intros Hz. unfold ofZ. rewrite (proj2 (Z.ltb_ge z 0)) by done.
  rewrite Number_digits by (apply ofN_nonempty || apply ofN_digits).
  rewrite ofN_value. f_equal. lia.
Qed.

Lemma split_nonempty (sep : N) (s : JsString) : split sep s ≠ [].
Proof.
  induction s as [|c s IH]; cbn; [done|].
  destruct (c =? sep)%N; [done|]. by destruct (split sep s).
Qed.

(** A string without the separator is its own single segment. *)
Lemma split_single (sep : N) (s : JsString) :
  Forall (λ c, c ≠ sep) s → split sep s = [s].
Proof.
  induction 1 as [|c s Hc _ IH]; cbn; [done|].
  rewrite (proj2 (N.eqb_neq c sep)) by done. by rewrite IH.
Qed.

Lemma split_app_two (sep : N) (a b : JsString) :
  ∃ x y l, split sep (a ++ sep :: b) = x :: y :: l.
Proof.
  induction a as [|c a (x & y & l & IH)]; cbn.
  - rewrite N.eqb_refl. destruct (split sep b) eqn:E.
    + by apply split_nonempty in E.
    + eauto.
  - destruct (c =? sep)%N; rewrite IH; eauto.
Qed.

(** The last segment of [a ++ sep :: b] is the last segment of [b]. *)
Lemma lastSegment_app (sep : N) (a b : JsString) :
  lastSegment sep (a ++ sep :: b) = lastSegment sep b.
Proof.
  unfold lastSegment. induction a as [|c a IH]; cbn [app split].
  - rewrite N.eqb_refl. destruct (split sep b) eqn:E; [|done].
    by apply split_nonempty in E.
  - destruct (split_app_two sep a b) as (x & y & l & E).
    rewrite E in IH |- *. destruct (c =? sep)%N; exact IH.
Qed.

Lemma ofN_no_dash (n : N) : Forall (λ c, c ≠ 45%N) (ofN n).
Proof.
  eapply List.Forall_impl; [|apply ofN_digits]. intros c Hc ->. done.
Qed.

End NumberOfDigits.

(** ** Reasoning rules for handlers *)

Section Rules.
Context {A B : Type}.
Implicit Types (env : Env) (w : World).

Lemma post_ret (a : A) env w Q : Q (Normal a) w → post (mret a) env w Q.
Proof. done. Qed.

Lemma post_throw (e : Exn) env w (Q : Completion A → World → Prop) :
  Q (Throw e) w → post (throw e) env w Q.
Proof. done. Qed.

Lemma post_complete (c : Completion A) env w Q :
  Q c w → post (complete c) env w Q.
Proof. done. Qed.

Lemma post_bind (m : M A) (k : A → M B) env w Q :
  post m env w (λ c w', match c with
                        | Normal a => post (k a) env w' Q
                        | Throw e => Q (Throw e) w'
                        end) →
  post (m ≫= k) env w Q.
Proof.
  unfold post, mbind, M_bind. by destruct (m env w) as [[a|e] w'].
Qed.

Lemma post_try (m : M A) (h : Exn → M A) env w Q :
  post m env w (λ c w', match c with
                        | Normal a => Q (Normal a) w'
                        | Throw e => post (h e) env w' Q
                        end) →
  post (try_catch m h) env w Q.
Proof.
  unfold post, try_catch. by destruct (m env w) as [[a|e] w'].
Qed.

End Rules.

Section PrimitiveRules.
Implicit Types (env : Env) (w : World).

Lemma post_ask env w Q : Q (Normal env) w → post ask env w Q.
Proof. done. Qed.

Lemma post_get env w Q : Q (Normal w) w → post get env w Q.
Proof. done. Qed.

Lemma post_modify (f : World → World) env w Q :
  Q (Normal ()) (f w) → post (modify f) env w Q.
Proof. done. Qed.

Lemma post_updUser (id : Z) (f : User → User) env w Q :
  Q (Normal ()) (set_users (alter f id (users w)) w) →
  post (updUser id f) env w Q.
Proof. done. Qed.

Lemma post_logError (e : Exn) env w Q :
  Q (Normal ()) (set_trace (trace w ++ [ConsoleError e]) w) →
  post (logError e) env w Q.
Proof. done. Qed.

(** A transport call has two outcomes; both must be covered. *)
Lemma post_call (e : Effect) env w Q :
  Q (Normal ()) (set_trace (trace w ++ [e]) (set_calls (S (calls w)) w)) →
  Q (Throw TransportError) (set_calls (S (calls w)) w) →
  post (call e) env w Q.
Proof. unfold post, call. by destruct (delivers env (calls w)). Qed.

Lemma post_spawn {A} (start : M A) (rest : A → M unit) (k : M unit) env w Q :
  post start env w
    (λ c w1, match c with
             | Normal a =>
                 post k env w1
                   (λ c' w2, post (rest a) env w2 (λ _ w3, Q c' w3))
             | Throw _ => post k env w1 Q
             end) →
  post (spawn start rest k) env w Q.
Proof.
  unfold post, spawn. destruct (start env w) as [[a|e] w1]; [|done].
  cbn [fst snd]. by destruct (k env w1) as [c w2].
Qed.

Lemma insert_as_alter (m : gmap Z User) (k : Z) (u : User) (f : User → User) :
  m !! k = Some u → <[k := f u]> m = alter f k m.
Proof.
  intros Hu. apply map_eq. intros j. rewrite lookup_insert, lookup_alter.
  destruct (decide (k = j)) as [->|]; [by rewrite Hu|done].
Qed.

Lemma set_users_same w : set_users (users w) w = w.
Proof. by destruct w. Qed.

(** [getFee] on a stored session changes at most its penalty flag. *)
Lemma post_getFeeOf (k : Z) env w Q :
  (∀ fee b, (∀ v, b v = v ∨ ∃ p, b v = set_penalty p v) →
            (fee = STANDARD ∨ fee = PENALTY) →
            Q (Normal fee) (set_users (alter b k (users w)) w)) →
  post (getFeeOf k) env w Q.
Proof.
  intros H. unfold post, getFeeOf.
  destruct (users w !! k) as [u|] eqn:Hu.
  - destruct (getFee_cases (now env) u) as [[_ E]|[(_ & _ & E)|(_ & _ & E)]];
      rewrite E; cbn [fst snd].
    + rewrite (insert_as_alter _ _ _ (λ v, v) Hu). apply H; auto.
    + rewrite (insert_as_alter _ _ _ (set_penalty (Some true)) Hu).
      apply H; eauto.
    + rewrite (insert_as_alter _ _ _ (set_penalty (Some false)) Hu).
      apply H; eauto.
  - cbn [getFee fst snd].
    specialize (H STANDARD (λ v, v)). rewrite alter_id in H by done.
    rewrite set_users_same in H. apply H; auto.
Qed.

Lemma post_checkRateLimit (k : Z) env w Q :
  Q (Normal (admitted env w k))
    (set_rateLimit
       (<[k := nextLimits (now env) (rateLimit w !! k)]> (rateLimit w)) w) →
  post (checkRateLimit k) env w Q.
Proof. done. Qed.

End PrimitiveRules.

(** One step of symbolic execution of a handler under [post]. *)
Ltac wp_step :=
  lazymatch goal with
  | |- post (mret _) _ _ _ => apply post_ret
  | |- post (mbind _ _) _ _ _ => apply post_bind
  | |- post (throw _) _ _ _ => apply post_throw
  | |- post (complete _) _ _ _ => apply post_complete
  | |- post (try_catch _ _) _ _ _ => apply post_try
  | |- post ask _ _ _ => apply post_ask
  | |- post get _ _ _ => apply post_get
  | |- post (modify _) _ _ _ => apply post_modify
  | |- post (updUser _ _) _ _ _ => apply post_updUser
  | |- post (logError _) _ _ _ => apply post_logError
  | |- post (call _) _ _ _ => apply post_call
  | |- post (spawn _ _ _) _ _ _ => apply post_spawn
  | |- post (getFeeOf _) _ _ _ => apply post_getFeeOf; intros ? ? ? ?
  | |- post (checkRateLimit _) _ _ _ => apply post_checkRateLimit
  | |- post (sendMessage _ _) _ _ _ => unfold sendMessage
  | |- post (sendWithTyping _ _) _ _ _ => unfold sendWithTyping
  | |- post (addProcessed _) _ _ _ => unfold addProcessed
  | |- post channelInfo _ _ _ => unfold channelInfo
  | |- post (reviewTask _ _) _ _ _ => unfold reviewTask
  | |- post (if ?b then _ else _) _ _ _ => destruct b eqn:?
  | |- post (match ?x with _ => _ end) _ _ _ => destruct x eqn:?
  | |- match ?x with _ => _ end => destruct x eqn:?
  end; cbv beta iota.

Ltac wp := repeat wp_step.

Ltac store := cbn [users processedTransactions adminReplyTarget rateLimit trace
                   calls set_users set_processedTransactions
                   set_adminReplyTarget set_rateLimit set_trace set_calls] in *.

(** ** Worlds reached by a list of events *)

Lemma reachable_runEvents (env : Env) (events : list Event) (w : World) :
  reachable w → reachable (runEvents env events w).
Proof.
  revert w. induction events as [|ev events IH]; intros w Hw; [done|].
  apply IH. by apply reachable_step.
Qed.

(** ** Handlers over a transport that delivers *)

Lemma post_call_reliable (e : Effect) (env : Env) (w : World) Q :
  reliable env →
  Q (Normal ()) (set_trace (trace w ++ [e]) (set_calls (S (calls w)) w)) →
  post (call e) env w Q.
Proof. intros Hd HQ. unfold post, call. by rewrite Hd. Qed.

Ltac wp_reliable Hd :=
  repeat first [ apply (post_call_reliable _ _ _ _ Hd) | wp_step ].

Lemma sampleEnv_reliable : reliable sampleEnv.
Proof. intros n. reflexivity. Qed.

(** ** Reviewer decisions *)

Lemma lookupNum_Some (us : gmap Z User) (n : Js.JsNum) (k : Z) (u : User) :
  lookupNum us n = Some (k, u) ↔ n = Js.Int k ∧ us !! k = Some u.
Proof.
  unfold lookupNum. destruct n as [z| |].
  - destruct (us !! z) as [v|] eqn:Hv; cbn.
    + split.
      * intros E. injection E as E1 E2. subst. done.
      * intros [E H]. injection E as E. subst. congruence.
    + split; [done|]. intros [E H]. injection E as E. subst. congruence.
  - split; [done|]. intros [E _]. discriminate.
  - split; [done|]. intros [E _]. discriminate.
Qed.

(** The reply and reject branches are closed to callers other than the
    reviewer: the caller is told so and the store is left as it was. *)
Lemma onReply_guarded (env : Env) (w : World) (q : Query) :
  isAdmin env (query_from q) = false →
  let w' := snd (onReply q env w) in
  users w' = users w ∧ adminReplyTarget w' = adminReplyTarget w
  ∧ processedTransactions w' = processedTransactions w.
Proof.
  intros Hna.
  change (post (onReply q) env w
            (λ _ w', users w' = users w ∧ adminReplyTarget w' = adminReplyTarget w
                     ∧ processedTransactions w' = processedTransactions w)).
  unfold onReply. wp_step. wp_step. rewrite Hna. cbn [negb]. wp; done.
Qed.

Lemma onReject_guarded (env : Env) (w : World) (q : Query) :
  isAdmin env (query_from q) = false →
  let w' := snd (onReject q env w) in
  users w' = users w ∧ adminReplyTarget w' = adminReplyTarget w
  ∧ processedTransactions w' = processedTransactions w.
Proof.
  intros Hna.
  change (post (onReject q) env w
            (λ _ w', users w' = users w ∧ adminReplyTarget w' = adminReplyTarget w
                     ∧ processedTransactions w' = processedTransactions w)).
  unfold onReject. wp_step. wp_step. rewrite Hna. cbn [negb]. wp; done.
Qed.

(** In [part_000] the approve branch carries the same guard. *)
Lemma Part000_onCallbackQuery_guarded (env : Env) (w : World) (q : Query) :
  isAdmin env (query_from q) = false →
  let w' := snd (Part000.onCallbackQuery q env w) in
  users w' = users w ∧ adminReplyTarget w' = adminReplyTarget w
  ∧ processedTransactions w' = processedTransactions w.
Proof.
  intros Hna. unfold Part000.onCallbackQuery.
  destruct (Js.startsWith (Js.lit "approve_") (data q)).
  - change (post (Part000.onApprove q) env w
              (λ _ w', users w' = users w
                       ∧ adminReplyTarget w' = adminReplyTarget w
                       ∧ processedTransactions w' = processedTransactions w)).
    unfold Part000.onApprove. wp_step. wp_step. rewrite Hna. cbn [negb]. wp; done.
  - destruct (Js.startsWith (Js.lit "reply_") (data q));
      [by apply onReply_guarded|].
    destruct (Js.startsWith (Js.lit "reject_") (data q));
      [by apply onReject_guarded|done].
Qed.

(** In [part_001] every reviewer action sits behind one guard. *)
Lemma Part001_onCallbackQuery_guarded (env : Env) (w : World) (q : Query) :
  isAdmin env (query_from q) = false →
  data q ≠ Js.lit "pay_now" →
  let w' := snd (Part001.onCallbackQuery q env w) in
  users w' = users w ∧ adminReplyTarget w' = adminReplyTarget w
  ∧ processedTransactions w' = processedTransactions w.
Proof.
  intros Hna Hd.
  change (post (Part001.onCallbackQuery q) env w
            (λ _ w', users w' = users w
                     ∧ adminReplyTarget w' = adminReplyTarget w
                     ∧ processedTransactions w' = processedTransactions w)).
  unfold Part001.onCallbackQuery, Js.eqb.
  rewrite bool_decide_eq_false_2 by done.
  wp_step. wp_step. rewrite Hna. wp; done.
Qed.

(** What the approve branch of [src/index.js] does to the session that the
    callback data names, whoever the caller is. *)
Lemma onApprove_mints (env : Env) (w : World) (q : Query) (k : Z) (u : User) :
  Js.startsWith (Js.lit "approve_") (data q) = true →
  lookupNum (users w) (targetOf q) = Some (k, u) →
  ∃ u', users (snd (onCallbackQuery q env w)) !! k = Some u'
        ∧ status u' = approved
        ∧ tx_ref u' = Some (mintRef "tx-" (now env) (Js.Int k)).
Proof.
  intros Hp Hl.
  change (post (onCallbackQuery q) env w
            (λ _ w', ∃ u', users w' !! k = Some u' ∧ status u' = approved
                           ∧ tx_ref u'
                             = Some (mintRef "tx-" (now env) (Js.Int k)))).
  unfold onCallbackQuery. rewrite Hp. unfold onApprove.
  wp_step. wp_step. rewrite Hl. cbv beta iota.
  apply lookupNum_Some in Hl as [Ht Hu].
  wp; store; rewrite !lookup_alter, !decide_True, Hu, Ht by done;
    cbn; eauto.
Qed.

(** The approve branch of [src/index.js] never answers [Unauthorized]. *)
Lemma onApprove_never_refuses (env : Env) (w : World) (q : Query) :
  Js.startsWith (Js.lit "approve_") (data q) = true →
  ∃ l, trace (snd (onCallbackQuery q env w)) = trace w ++ l
       ∧ AnswerCallbackQuery Unauthorized ∉ l.
Proof.
  intros Hp.
  change (post (onCallbackQuery q) env w
            (λ _ w', ∃ l, trace w' = trace w ++ l
                          ∧ AnswerCallbackQuery Unauthorized ∉ l)).
  unfold onCallbackQuery. rewrite Hp. unfold onApprove.
  wp; store; rewrite <- ?app_assoc;
    (eexists; split; [try reflexivity; symmetry; apply app_nil_r|]);
    intros Hin;
    repeat (apply elem_of_cons in Hin as [Hin|Hin]; [discriminate|]);
    by apply elem_of_nil in Hin.
Qed.

(** C4 (divergence of [src/index.js]).  The approve branch of
    [src/index.js] has no authorization check: a caller who is not the
    reviewer and whose callback data names a stored session is not refused;
    the call sets that session's status to [approved] and mints its
    transaction reference. *)
Theorem onApprove_unguarded
    (env : Env) (w : World) (q : Query) (k : Z) (u : User) :
  isAdmin env (query_from q) = false →
  Js.startsWith (Js.lit "approve_") (data q) = true →
  lookupNum (users w) (targetOf q) = Some (k, u) →
  let w' := snd (onCallbackQuery q env w) in
  (∃ u', users w' !! k = Some u'
         ∧ status u' = approved
         ∧ tx_ref u' = Some (mintRef "tx-" (now env) (Js.Int k)))
  ∧ (∃ l, trace w' = trace w ++ l ∧ AnswerCallbackQuery Unauthorized ∉ l).
Proof.
  intros _ Hp Hl. cbv zeta. split.
  - by apply (onApprove_mints env w q k u).
  - by apply onApprove_never_refuses.
Qed.

(** A witness of [onApprove_unguarded]: identity 666 is not the reviewer
    (identity 1) and approves applicant 42. *)
Lemma onApprove_unguarded_witness :
  let w' := snd (onCallbackQuery (mkQuery 666 (Js.lit "approve_42"))
                   sampleEnv sampleWorld) in
  (∃ u', users w' !! 42 = Some u'
         ∧ status u' = approved
         ∧ tx_ref u' = Some (mintRef "tx-" 5000 (Js.Int 42)))
  ∧ (∃ l, trace w' = trace sampleWorld ++ l
          ∧ AnswerCallbackQuery Unauthorized ∉ l).
Proof.
  apply (onApprove_unguarded sampleEnv sampleWorld
           (mkQuery 666 (Js.lit "approve_42")) 42 sampleApplicant);
    vm_compute; reflexivity.
Defined.

(** ** Transaction references *)

Section TransactionRef.
Import Js.

Lemma ofZ_inj (a b : Z) : ofZ a = ofZ b → a = b.
Proof.
  unfold ofZ. intros H.
  assert (∀ n r, 45%N :: r ≠ ofN n) as Hdash.
  { intros n r E. pose proof (ofN_no_dash n) as Hn. rewrite <- E in Hn.
    by apply Forall_inv in Hn. }
  destruct (a <? 0) eqn:Ha, (b <? 0) eqn:Hb.
  - injection H as H. apply ofN_inj in H. lia.
  - by apply Hdash in H.
  - symmetry in H. by apply Hdash in H.
  - apply ofN_inj in H. lia.
Qed.

Lemma mintRef_unfold (prefix : string) (now t : Z) :
  0 ≤ now →
  mintRef prefix now (Int t) = (lit prefix ++ ofN (Z.to_N now)) ++ 45%N :: ofZ t.
Proof.
  intros Hn. unfold mintRef, ofNum, ofZ at 1.
  rewrite (proj2 (Z.ltb_ge now 0)) by done.
  change (lit "-") with [45%N]. by rewrite <- !app_assoc.
Qed.

(** The owner is read back from the reference of a non-negative target. *)
Lemma ownerOf_mintRef (prefix : string) (now t : Z) :
  0 ≤ now → 0 ≤ t → ownerOf (mintRef prefix now (Int t)) = Int t.
Proof.
  intros Hn Ht. rewrite mintRef_unfold by done.
  unfold ownerOf. rewrite lastSegment_app.
  unfold lastSegment. rewrite split_single.
  - cbn [List.last]. by apply Number_ofZ.
  - unfold ofZ. rewrite (proj2 (Z.ltb_ge t 0)) by done. apply ofN_no_dash.
Qed.

(** References minted for different targets or clock readings differ. *)
Lemma mintRef_inj (prefix : string) (now1 now2 t1 t2 : Z) :
  0 ≤ now1 → 0 ≤ now2 →
  mintRef prefix now1 (Int t1) = mintRef prefix now2 (Int t2) →
  now1 = now2 ∧ t1 = t2.
Proof.
  intros H1 H2 E. rewrite !mintRef_unfold in E by done.
  rewrite <- !app_assoc in E. apply app_inv_head in E.
  apply (f_equal spanDigits) in E.
  rewrite !spanDigits_app in E by (apply ofN_digits || done).
  injection E as E1 E2. apply ofN_inj in E1. apply ofZ_inj in E2. lia.
Qed.

End TransactionRef.

(** The reference stored by an approval leads the webhook back to the
    approved session, when the target identity is not negative. *)
Lemma approved_reference_finds_owner
    (env : Env) (w : World) (q : Query) (k : Z) (u : User) :
  0 ≤ now env → 0 ≤ k →
  Js.startsWith (Js.lit "approve_") (data q) = true →
  lookupNum (users w) (targetOf q) = Some (k, u) →
  let w' := snd (onCallbackQuery q env w) in
  ∃ u' ref, users w' !! k = Some u' ∧ tx_ref u' = Some ref
            ∧ lookupNum (users w') (ownerOf ref) = Some (k, u').
Proof.
  intros Hn Hk Hp Hl. cbv zeta.
  destruct (onApprove_mints env w q k u Hp Hl) as (u' & Hu' & _ & Hr).
  exists u', (mintRef "tx-" (now env) (Js.Int k)).
  split; [done|]. split; [done|].
  rewrite ownerOf_mintRef by done. by apply lookupNum_Some.
Qed.

(** For a target that is not negative the reference works as intended:
    references minted for approvals that differ in target or in clock
    reading differ, and the numeric parse of the last dash-separated
    segment gives back the target. *)
Lemma transactionRef_correlates (now1 now2 t1 t2 : Z) :
  0 ≤ now1 → 0 ≤ now2 →
  (mintRef "tx-" now1 (Js.Int t1) = mintRef "tx-" now2 (Js.Int t2) →
     now1 = now2 ∧ t1 = t2)
  ∧ (0 ≤ t1 → ownerOf (mintRef "tx-" now1 (Js.Int t1)) = Js.Int t1).
Proof.
  intros H1 H2. split.
  - by apply mintRef_inj.
  - intros Ht. by apply ownerOf_mintRef.
Qed.

(** The reference is a function of the clock reading and the target: two
    approvals of applicant 42 at one clock reading store the same one. *)
Example mintRef_same_instant :
  let q := mkQuery 1 (Js.lit "approve_42") in
  let w1 := snd (onCallbackQuery q sampleEnv sampleWorld) in
  let w2 := snd (onCallbackQuery q sampleEnv w1) in
  tx_ref <$> users w1 !! 42 = Some (Some (Js.lit "tx-5000-42"))
  ∧ tx_ref <$> users w2 !! 42 = Some (Some (Js.lit "tx-5000-42")).
Proof. vm_compute. split; reflexivity. Qed.

Lemma mintRef_nonempty (now t : Z) : mintRef "tx-" now (Js.Int t) ≠ [].
Proof. unfold mintRef. discriminate. Qed.

(** The owner read back from the reference of a negative target is the
    target without its sign: the sign is taken for a separator. *)
Lemma ownerOf_mintRef_negative (prefix : string) (now t : Z) :
  0 ≤ now → t < 0 → ownerOf (mintRef prefix now (Js.Int t)) = Js.Int (- t).
Proof.
  intros Hn Ht. rewrite mintRef_unfold by done.
  unfold ownerOf. rewrite lastSegment_app.
  unfold Js.ofZ. rewrite (proj2 (Z.ltb_lt t 0)) by done.
  change (45%N :: Js.ofN (Z.to_N (- t)))
    with ([] ++ 45%N :: Js.ofN (Z.to_N (- t))).
  rewrite (lastSegment_app 45 [] (Js.ofN (Z.to_N (- t)))).
  unfold Js.lastSegment. rewrite split_single by apply ofN_no_dash.
  cbn [List.last].
  replace (Js.ofN (Z.to_N (- t))) with (Js.ofZ (- t)).
  - apply Number_ofZ. lia.
  - unfold Js.ofZ. by rewrite (proj2 (Z.ltb_ge (- t) 0)) by lia.
Qed.

(** ** The payment-confirmation webhook *)

(** A reference that is already in the processed set is acknowledged and
    nothing else happens: the world after the call is the world before. *)
Lemma verify_already_processed (env : Env) (w : World) (ref : Js.JsString) :
  ref ≠ [] → ref ∈ processedTransactions w →
  verify (Some ref) env w = (Normal (mkResponse 200 AlreadyProcessed), w).
Proof.
  intros Hne Hin. unfold verify, try_catch, mbind, M_bind, get, mret, M_ret.
  destruct ref as [|c r]; [done|]. cbn [noText default from_option id].
  by rewrite bool_decide_eq_true_2.
Qed.

Lemma Part000_verify_already_processed
    (env : Env) (w : World) (ref : Js.JsString) :
  ref ≠ [] → ref ∈ processedTransactions w →
  Part000.verify (Some ref) env w = (Normal (mkResponse 200 AlreadyProcessed), w).
Proof.
  intros Hne Hin.
  unfold Part000.verify, try_catch, mbind, M_bind, get, mret, M_ret.
  destruct ref as [|c r]; [done|]. cbn [noText default from_option id].
  by rewrite bool_decide_eq_true_2.
Qed.

(** A confirmed payment of a known owner is recorded before anybody is
    notified. *)
Lemma verify_confirmed_run
    (env : Env) (w : World) (ref : Js.JsString) (d : PaymentData) (k : Z) (u : User) :
  ref ≠ [] → ref ∉ processedTransactions w → confirmed env ref d →
  ownerOf ref = Js.Int k → users w !! k = Some u →
  verify (Some ref) env w
  = try_catch
      (sendMessage (Js.Int k) (PaymentVerified (amount d));;
       sendMessage (ADMIN_ID env) (PaymentReceived (amount d) ref);;
       mret (mkResponse 200 Success))
      (λ e, logError e;; mret (mkResponse 500 InternalServerError))
      env
      (set_users (<[k := markPaid (now env) (amount d) u]> (users w))
         (set_processedTransactions ({[ref]} ∪ processedTransactions w) w)).
Proof.
  intros Hne Hnew [Hv Hs] Ho Hu.
  unfold verify, try_catch, mbind, M_bind, get, ask, mret, M_ret.
  destruct ref as [|c r]; [done|]. cbn [noText default from_option id].
  rewrite bool_decide_eq_false_2 by done. rewrite Hv.
  unfold Js.eqb. rewrite bool_decide_eq_true_2 by done. cbn [negb].
  rewrite Ho. unfold lookupNum. rewrite Hu.
  cbn [fmap option_fmap option_map].
  unfold addProcessed, updUser, modify. store.
  by rewrite <- (insert_as_alter _ _ _ _ Hu).
Qed.

Lemma onCallbackQuery_processed (env : Env) (w : World) (q : Query) :
  processedTransactions (snd (onCallbackQuery q env w)) = processedTransactions w.
Proof.
  change (post (onCallbackQuery q) env w
            (λ _ w', processedTransactions w' = processedTransactions w)).
  unfold onCallbackQuery, onApprove, onReply, onReject. wp; done.
Qed.

(** C5 (code defect).  The reference minted for a target with a negative
    identity, as group chats have, does not lead back to the target: the
    minus sign of the identity is read as one more separator, so that the
    owner extracted from the reference is the identity without its sign.
    A confirmed payment then leaves the approved session as it is and
    marks [payment_verified] whatever session is stored under the
    positive identity. *)
Theorem transactionRef_loses_sign
    (env : Env) (w : World) (t0 t : Z) (d : PaymentData) (v : User) :
  0 ≤ t0 → t < 0 →
  let ref := mintRef "tx-" t0 (Js.Int t) in
  ownerOf ref = Js.Int (- t)
  ∧ ((ref ∉ processedTransactions w) → confirmed env ref d →
     users w !! (- t) = Some v →
     let w' := snd (verify (Some ref) env w) in
     users w' !! t = users w !! t
     ∧ ∃ v', users w' !! (- t) = Some v'
             ∧ status v' = payment_verified ∧ paidAmount v' = Some (amount d)).
Proof.
  intros H0 Ht. cbv zeta.
  pose proof (ownerOf_mintRef_negative "tx-" t0 t H0 Ht) as Ho.
  split; [exact Ho|]. intros Hnew Hc Hv.
  pose proof (verify_confirmed_run env w _ d (- t) v
                (mintRef_nonempty t0 t) Hnew Hc Ho Hv) as E.
  assert (users (snd (verify (Some (mintRef "tx-" t0 (Js.Int t))) env w))
          = <[- t := markPaid (now env) (amount d) v]> (users w)) as ->.
  { rewrite E.
    match goal with |- users (snd (?m ?e ?w1)) = ?r =>
      change (post m e w1 (λ _ w', users w' = r)) end.
    wp; done. }
  split; [apply lookup_insert_ne; lia|].
  eexists. split; [apply lookup_insert_eq|done].
Qed.

(** A witness of [transactionRef_loses_sign]: the group chat -1001234 has
    completed the form and is approved; the confirmation of its payment
    leaves it [approved] and marks the session of the actor 1001234 paid,
    who has only started the bot. *)
Lemma transactionRef_loses_sign_witness :
  let w := runEvents sampleEnv groupEvents initialWorld in
  let ref := Js.lit "tx-5000--1001234" in
  let w' := snd (verify (Some ref) sampleEnv w) in
  reachable w
  ∧ (tx_ref <$> users w !! (-1001234)) = Some (Some ref)
  ∧ ownerOf ref = Js.Int 1001234
  ∧ (status <$> users w' !! (-1001234)) = Some approved
  ∧ (status <$> users w !! 1001234) = Some idle
  ∧ (status <$> users w' !! 1001234) = Some payment_verified.
Proof.
  edestruct (transactionRef_loses_sign sampleEnv
               (runEvents sampleEnv groupEvents initialWorld) 5000 (-1001234)
               {| pstatus := Js.lit "success"; amount := 99%float |}
               (freshUser 5000))
    as (H1 & H2); [lia|lia|].
  destruct H2 as (H2 & v' & H3 & H4 & _).
  - vm_compute. discriminate.
  - split; reflexivity.
  - vm_compute. reflexivity.
  - split; [apply reachable_runEvents, reachable_init|].
    split; [vm_compute; reflexivity|]. split; [exact H1|].
    split; [|split; [vm_compute; reflexivity|]].
    + change (Js.lit "tx-5000--1001234")
        with (mintRef "tx-" 5000 (Js.Int (-1001234))).
      rewrite H2. vm_compute. reflexivity.
    + change (Js.lit "tx-5000--1001234")
        with (mintRef "tx-" 5000 (Js.Int (-1001234))).
      change (- -1001234) with 1001234 in H3. rewrite H3. cbn. by rewrite H4.
Defined.

(** A delivery during which no other event runs is the first half of the
    handler followed by the second, with the answer that the gateway gives
    for the reference. *)
Lemma verify_unbroken (env : Env) (w : World) (tx_ref : option Js.JsString) :
  verify tx_ref env w
  = match verifyRequest tx_ref env w with
    | (Normal (inl r), w1) => (Normal r, w1)
    | (Normal (inr ref), w1) => verifyResume ref (verifyTransaction env ref) env w1
    | (Throw e, w1) =>
        (logError e;; mret (mkResponse 500 InternalServerError)) env w1
    end.
Proof.
  unfold verify, verifyRequest, verifyResume, try_catch, mbind, M_bind, get, ask,
    mret, M_ret.
  destruct (noText tx_ref); [done|].
  destruct (bool_decide (default [] tx_ref ∈ processedTransactions w)); [done|].
  destruct (verifyTransaction env (default [] tx_ref)) as [|[d|]]; try done.
  destruct (negb (Js.eqb (pstatus d) (Js.lit "success"))); [done|].
  by destruct (lookupNum (users w) (ownerOf (default [] tx_ref))) as [[id v]|].
Qed.

(** The first half lets a reference pass that is not yet processed. *)
Lemma verifyRequest_new (env : Env) (w : World) (ref : Js.JsString) :
  ref ≠ [] → (ref ∉ processedTransactions w) →
  verifyRequest (Some ref) env w = (Normal (inr ref), w).
Proof.
  intros Hne Hnew. unfold verifyRequest, mbind, M_bind, get, mret, M_ret.
  destruct ref as [|c r]; [done|]. cbn [noText default from_option id].
  by rewrite bool_decide_eq_false_2.
Qed.

(** The second half finalises whenever the gateway confirms and the owner
    has a session: it does not look at the processed references again. *)
Lemma verifyResume_confirmed
    (env : Env) (w : World) (ref : Js.JsString) (d : PaymentData) (k : Z) (u : User) :
  pstatus d = Js.lit "success" → ownerOf ref = Js.Int k → users w !! k = Some u →
  reliable env →
  verifyResume ref (VerifyData (Some d)) env w
  = (Normal (mkResponse 200 Success),
     set_trace (trace w ++
                  [SendMessage (Chat (Js.Int k)) (PaymentVerified (amount d));
                   SendMessage (Chat (ADMIN_ID env))
                     (PaymentReceived (amount d) ref)])
       (set_calls (S (S (calls w)))
          (set_users (<[k := markPaid (now env) (amount d) u]> (users w))
             (set_processedTransactions ({[ref]} ∪ processedTransactions w) w)))).
Proof.
  intros Hs Ho Hu Hd.
  unfold verifyResume, try_catch, mbind, M_bind, get, ask, mret, M_ret.
  unfold Js.eqb. rewrite bool_decide_eq_true_2 by done. cbn [negb].
  rewrite Ho. unfold lookupNum. rewrite Hu.
  cbn [fmap option_fmap option_map].
  unfold addProcessed, updUser, modify, sendMessage, call. store.
  repeat (rewrite Hd; store).
  rewrite <- (insert_as_alter _ _ _ _ Hu). by rewrite <- app_assoc.
Qed.

(** Deliveries that do not overlap are idempotent: the first finalises and
    notifies owner and reviewer, the second is acknowledged as already
    processed and changes nothing. *)
Lemma verify_sequential_deliveries
    (env1 env2 : Env) (w : World) (ref : Js.JsString) (d : PaymentData)
    (k : Z) (u : User) :
  ref ≠ [] → (ref ∉ processedTransactions w) → confirmed env1 ref d →
  ownerOf ref = Js.Int k → users w !! k = Some u → reliable env1 →
  let w1 := snd (verify (Some ref) env1 w) in
  fst (verify (Some ref) env1 w) = Normal (mkResponse 200 Success)
  ∧ verify (Some ref) env2 w1 = (Normal (mkResponse 200 AlreadyProcessed), w1)
  ∧ (∃ u1, users w1 !! k = Some u1 ∧ status u1 = payment_verified)
  ∧ trace w1 = trace w ++
      [SendMessage (Chat (Js.Int k)) (PaymentVerified (amount d));
       SendMessage (Chat (ADMIN_ID env1)) (PaymentReceived (amount d) ref)].
Proof.
  intros Hne Hnew [Hv Hs] Ho Hu Hd. cbv zeta.
  rewrite verify_unbroken, verifyRequest_new by done.
  rewrite Hv, (verifyResume_confirmed env1 w ref d k u) by done.
  cbn [fst snd]. store.
  split; [done|]. split.
  { apply verify_already_processed; [done|]. store.
    apply elem_of_union_l. by apply elem_of_singleton. }
  split; [eexists; split; [apply lookup_insert_eq|done]|done].
Qed.

(** C2 (code defect).  The handler tests [processedTransactions] before it
    awaits the gateway and adds the reference only after the answer.  When
    a second delivery of a new reference arrives while the first awaits
    the gateway, both pass the test: each of them then finalises the
    payment and answers [success], the session is written twice (the
    payment date is that of the second), and owner and reviewer are
    notified twice each.  Only deliveries that do not overlap are
    idempotent ([verify_sequential_deliveries]). *)
Theorem verify_overlapping_deliveries
    (env1 env2 : Env) (w : World) (ref : Js.JsString) (d : PaymentData)
    (k : Z) (u : User) :
  ref ≠ [] → (ref ∉ processedTransactions w) → pstatus d = Js.lit "success" →
  ownerOf ref = Js.Int k → users w !! k = Some u →
  reliable env1 → reliable env2 →
  let r1 := verifyRequest (Some ref) env1 w in
  let r2 := verifyRequest (Some ref) env2 (snd r1) in
  let a1 := verifyResume ref (VerifyData (Some d)) env1 (snd r2) in
  let a2 := verifyResume ref (VerifyData (Some d)) env2 (snd a1) in
  fst r1 = Normal (inr ref) ∧ fst r2 = Normal (inr ref)
  ∧ fst a1 = Normal (mkResponse 200 Success)
  ∧ fst a2 = Normal (mkResponse 200 Success)
  ∧ (∃ u1, users (snd a1) !! k = Some u1
           ∧ status u1 = payment_verified ∧ paymentDate u1 = Some (now env1))
  ∧ (∃ u2, users (snd a2) !! k = Some u2
           ∧ status u2 = payment_verified ∧ paymentDate u2 = Some (now env2)
           ∧ paidAmount u2 = Some (amount d))
  ∧ trace (snd a2) = trace w ++
      [SendMessage (Chat (Js.Int k)) (PaymentVerified (amount d));
       SendMessage (Chat (ADMIN_ID env1)) (PaymentReceived (amount d) ref);
       SendMessage (Chat (Js.Int k)) (PaymentVerified (amount d));
       SendMessage (Chat (ADMIN_ID env2)) (PaymentReceived (amount d) ref)].
Proof.
  intros Hne Hnew Hs Ho Hu Hd1 Hd2. cbv zeta.
  repeat (rewrite verifyRequest_new by done; cbn [fst snd]).
  rewrite (verifyResume_confirmed env1 w ref d k u) by done. cbn [fst snd].
  erewrite (verifyResume_confirmed env2 _ ref d k) by
    (try done; store; apply lookup_insert_eq).
  cbn [fst snd]. store.
  split; [done|]. split; [done|]. split; [done|]. split; [done|].
  split; [eexists; split; [apply lookup_insert_eq|done]|].
  split; [eexists; split; [apply lookup_insert_eq|done]|].
  by rewrite <- app_assoc.
Qed.

(** A witness of [verify_overlapping_deliveries]: the gateway delivers the
    confirmation of applicant 42 twice, the second time before it has
    answered the verification request of the first. *)
Lemma verify_overlapping_deliveries_witness :
  let ref := Js.lit "tx-5000-42" in
  let d := {| pstatus := Js.lit "success"; amount := 99%float |} in
  let r1 := verifyRequest (Some ref) sampleEnv sampleWorld in
  let r2 := verifyRequest (Some ref) sampleEnv (snd r1) in
  let a1 := verifyResume ref (VerifyData (Some d)) sampleEnv (snd r2) in
  let a2 := verifyResume ref (VerifyData (Some d)) sampleEnv (snd a1) in
  fst a1 = Normal (mkResponse 200 Success)
  ∧ fst a2 = Normal (mkResponse 200 Success)
  ∧ trace (snd a2) =
      [SendMessage (Chat (Js.Int 42)) (PaymentVerified 99%float);
       SendMessage (Chat (Js.Int 1)) (PaymentReceived 99%float ref);
       SendMessage (Chat (Js.Int 42)) (PaymentVerified 99%float);
       SendMessage (Chat (Js.Int 1)) (PaymentReceived 99%float ref)].
Proof.
  edestruct (verify_overlapping_deliveries sampleEnv sampleEnv sampleWorld
               (Js.lit "tx-5000-42")
               {| pstatus := Js.lit "success"; amount := 99%float |}
               42 sampleApplicant)
    as (_ & _ & H1 & H2 & _ & _ & H3).
  - discriminate.
  - apply not_elem_of_empty.
  - reflexivity.
  - vm_compute. reflexivity.
  - vm_compute. reflexivity.
  - intros n. reflexivity.
  - intros n. reflexivity.
  - split; [exact H1|]. split; [exact H2|exact H3].
Defined.

(** C1 (divergence of [src/index.js]).  The handler of [src/index.js]
    surfaces failures to the gateway: a callback without [tx_ref] is
    answered with status 400, whatever the state and the collaborators; a
    confirmed payment whose owner has no session is answered with 404; and
    a verification request that fails is answered with 500. *)
Theorem verify_surfaces_failures :
  (∀ env w, verify None env w = (Normal (mkResponse 400 MissingTxRef), w))
  ∧ fst (verify (Some (Js.lit "tx-5000-7")) sampleEnv sampleWorld)
    = Normal (mkResponse 404 UserNotFoundBody)
  ∧ fst (verify (Some (Js.lit "tx-5000-42"))
           {| now := 5000; ADMIN_ID := Js.Int 1; delivers := λ _, true;
              verifyTransaction := λ _, VerifyFails;
              initializeCheckout := CheckoutFails |} sampleWorld)
    = Normal (mkResponse 500 InternalServerError).
Proof.
  split; [intros env w; reflexivity|].
  split; vm_compute; reflexivity.
Qed.

(** The conditions under which the handler answers 404 and 500. *)
Lemma verify_unknown_owner (env : Env) (w : World) (ref : Js.JsString) (d : PaymentData) :
  ref ≠ [] → ref ∉ processedTransactions w →
  verifyTransaction env ref = VerifyData (Some d) →
  pstatus d = Js.lit "success" →
  lookupNum (users w) (ownerOf ref) = None →
  verify (Some ref) env w = (Normal (mkResponse 404 UserNotFoundBody), w).
Proof.
  intros Hne Hnew Hv Hs Hl.
  unfold verify, try_catch, mbind, M_bind, get, ask, mret, M_ret.
  destruct ref as [|c r]; [done|]. cbn [noText default from_option id].
  rewrite bool_decide_eq_false_2 by done. rewrite Hv.
  unfold Js.eqb. rewrite bool_decide_eq_true_2 by done. cbn [negb].
  by rewrite Hl.
Qed.

Lemma verify_gateway_failure (env : Env) (w : World) (ref : Js.JsString) :
  ref ≠ [] → ref ∉ processedTransactions w →
  verifyTransaction env ref = VerifyFails →
  verify (Some ref) env w =
    (Normal (mkResponse 500 InternalServerError),
     set_trace (trace w ++ [ConsoleError GatewayError]) w).
Proof.
  intros Hne Hnew Hv.
  unfold verify, try_catch, mbind, M_bind, get, ask, mret, M_ret.
  destruct ref as [|c r]; [done|]. cbn [noText default from_option id].
  rewrite bool_decide_eq_false_2 by done. by rewrite Hv.
Qed.

(** The handler of [part_000] answers every request with status 200. *)
Lemma Part000_verify_acknowledges
    (env : Env) (w : World) (tx_ref : option Js.JsString) :
  ∃ b, fst (Part000.verify tx_ref env w) = Normal (mkResponse 200 b).
Proof.
  change (post (Part000.verify tx_ref) env w
            (λ c _, ∃ b, c = Normal (mkResponse 200 b))).
  unfold Part000.verify. wp; eauto.
Qed.

(** ** The registration state machine *)

Ltac solve_move :=
  unfold stepMove, listedMove;
  first
    [ by (left; left)
    | left; right; left; eexists _, _; split; [reflexivity|split; reflexivity]
    | left; right; right; left; split; [done|];
      eexists _, _; split; [reflexivity|split; reflexivity]
    | by (left; right; right; right)
    | right; (split; [done|]); (split; [done|]);
      match goal with
      | H : (_ || _ || _) = false |- _ =>
          apply orb_false_iff in H as [H ?];
          apply orb_false_iff in H as [? ?]
      end;
      repeat match goal with
      | H : bool_decide _ = false |- _ => apply bool_decide_eq_false in H
      end; done ].

Ltac same_user :=
  repeat match goal with
  | H : textIs _ _ = true |- _ => apply bool_decide_eq_true in H
  | H1 : ?m !! ?i = Some ?a, H2 : ?m !! ?i = Some ?b |- _ =>
      assert (b = a) as -> by congruence; clear H2
  | H : ∀ v, ?b v = v ∨ _ |- context [?b ?x] =>
      let p := fresh in destruct (H x) as [->|[p ->]]
  end.

(** C6 (as amended).  Whatever message the handler handles, the step of
    every stored session stays, advances exactly one step in the fixed
    sequence, goes back exactly one step on [Back], is reset on [Cancel],
    or restarts at [name] on [Register]; the restart happens only when the
    status of the session is none of [pending_review], [approved] and
    [payment_verified]. *)
Theorem onMessage_step_moves
    (env : Env) (w : World) (msg : Message) (k : Z) (u : User) :
  users w !! k = Some u →
  ∃ u', users (snd (onMessage msg env w)) !! k = Some u'
        ∧ stepMove (text msg) u (step u').
Proof.
  intros Hu.
  change (post (onMessage msg) env w
            (λ _ w', ∃ u', users w' !! k = Some u'
                           ∧ stepMove (text msg) u (step u'))).
  unfold onMessage, onControl, onStep, statusAndAbout.
  wp; store;
    (destruct (decide (chat_id msg = k)) as [Hk|Hne];
     [ subst k; rewrite ?lookup_alter_eq, ?Hu; same_user; cbn; same_user; cbn;
       eexists; (split; [reflexivity|]); unfold stepMove; cbn [step];
       repeat match goal with H : step _ = _ |- _ => rewrite H end;
       solve_move
     | rewrite ?lookup_alter_ne by done; eexists; split; [exact Hu|solve_move] ]).
Qed.

(** A witness of [onMessage_step_moves]: [Register], pressed by applicant
    42 while the e-mail address is expected, restarts the form. *)
Lemma onMessage_step_moves_witness :
  ∃ u u',
    users atEmailStep !! 42 = Some u
    ∧ users (snd (onMessage (mkMessage 42 42 (Some REGISTER) None)
                    sampleEnv atEmailStep)) !! 42 = Some u'
    ∧ stepMove (Some REGISTER) u (step u').
Proof.
  eexists.
  edestruct (onMessage_step_moves sampleEnv atEmailStep
               (mkMessage 42 42 (Some REGISTER) None) 42) as (u' & H1 & H2);
    [vm_compute; reflexivity|].
  exists u'. split; [reflexivity|]. split; [exact H1|exact H2].
Defined.

(** C6 (counterexample).  Applicant 42 has given name, phone and channel
    and is asked for the e-mail address; [Register] takes the session back
    to [name]: three steps back, on a message that is neither [Back] nor
    [Cancel]. *)
Lemma step_invariant_counterexample :
  reachable atEmailStep
  ∧ step <$> users atEmailStep !! 42 = Some (Some step_email)
  ∧ step <$> users (snd (onMessage (mkMessage 42 42 (Some REGISTER) None)
                           sampleEnv atEmailStep)) !! 42
    = Some (Some step_name)
  ∧ ¬ listedMove (Some REGISTER) (Some step_email) (Some step_name).
Proof.
  split; [apply reachable_runEvents, reachable_init|].
  split; [vm_compute; reflexivity|].
  split; [vm_compute; reflexivity|].
  intros [H|[(a & b & [= <-] & H2 & H3)|[[H _]|[_ H]]]]; try discriminate.
  cbn in H2. congruence.
Qed.

(** A message that passes the rate limiter, is not a pending reviewer reply
    and is not a control button reaches the step logic, with the activity
    stamp of its session refreshed. *)
Lemma onMessage_reaches_steps (env : Env) (w : World) (msg : Message) (u : User) :
  users w !! chat_id msg = Some u →
  admitted env w (chat_id msg) = true →
  redirected env w msg = false →
  isControl (text msg) = false →
  onMessage msg env w =
    onStep msg u env
      (set_users
         (alter (set_lastActivity (Some (now env))) (chat_id msg) (users w))
         (set_rateLimit
            (<[chat_id msg := nextLimits (now env) (rateLimit w !! chat_id msg)]>
               (rateLimit w)) w)).
Proof.
  intros Hu Ha Hr Hc.
  unfold isControl in Hc. apply orb_false_iff in Hc as [Hc Hb].
  apply orb_false_iff in Hc as [Hreg Hcan].
  unfold redirected, isAdmin, replyPending in Hr.
  unfold onMessage, mbind, M_bind, checkRateLimit, ask, get, updUser, modify.
  fold (admitted env w (chat_id msg)). rewrite Ha. cbn [negb].
  unfold replyPending. store. rewrite Hr, Hu.
  unfold onControl. by rewrite Hreg, Hcan, Hb.
Qed.

Lemma onMessage_reaches_control (env : Env) (w : World) (msg : Message) (u : User) :
  users w !! chat_id msg = Some u →
  admitted env w (chat_id msg) = true →
  redirected env w msg = false →
  onMessage msg env w = onControl msg u env (touched env w (chat_id msg)).
Proof.
  intros Hu Ha Hr.
  unfold redirected, isAdmin, replyPending in Hr.
  unfold onMessage, mbind, M_bind, checkRateLimit, ask, get, updUser, modify.
  fold (admitted env w (chat_id msg)). rewrite Ha. cbn [negb].
  unfold replyPending. store. by rewrite Hr, Hu.
Qed.

Lemma touched_lookup (env : Env) (w : World) (k : Z) (u : User) :
  users w !! k = Some u →
  users (touched env w k) !! k = Some (set_lastActivity (Some (now env)) u).
Proof. intros Hu. unfold touched. store. by rewrite lookup_alter_eq, Hu. Qed.

(** C10 (as amended).  At the [email] step a message without a text payload
    makes the handler throw a [TypeError] from the validator: no re-prompt
    is sent, and the session keeps its step and every collected field.
    The session is not left as it was, though: its activity stamp, which
    the handler assigns before it dispatches on the step, is that of the
    message. *)
Theorem email_step_without_text_throws
    (env : Env) (w : World) (msg : Message) (u : User) :
  text msg = None →
  users w !! chat_id msg = Some u →
  step u = Some step_email →
  admitted env w (chat_id msg) = true →
  redirected env w msg = false →
  let w' := snd (onMessage msg env w) in
  fst (onMessage msg env w) = Throw TypeError
  ∧ trace w' = trace w
  ∧ (∃ u', users w' !! chat_id msg = Some u'
           ∧ lastActivity u' = Some (now env)
           ∧ sameApartFrom [f_lastActivity] u u')
  ∧ (∀ j, j ≠ chat_id msg → users w' !! j = users w !! j).
Proof.
  intros Ht Hu Hs Ha Hr. cbv zeta.
  rewrite (onMessage_reaches_steps env w msg u Hu Ha Hr)
    by (unfold isControl, textIs; rewrite Ht; done).
  match goal with |- context [onStep msg u env ?w1] =>
    assert (onStep msg u env w1 = (Throw TypeError, w1)) as ->
      by (unfold onStep; rewrite Hs, Ht; reflexivity) end.
  cbn [fst snd]. store.
  split; [done|]. split; [done|]. split.
  - rewrite lookup_alter_eq, Hu. eexists. split; [reflexivity|].
    split; [reflexivity|]. apply sameApartFrom_lastActivity.
  - intros j Hj. by rewrite lookup_alter_ne.
Qed.

(** A witness of [email_step_without_text_throws]: applicant 42 shares a
    contact while the e-mail address is expected. *)
Lemma email_step_without_text_witness :
  let msg := mkMessage 42 42 None (Some (mkContact (Some 42) (Js.lit "0912345678"))) in
  let w' := snd (onMessage msg sampleEnv atEmailStep) in
  fst (onMessage msg sampleEnv atEmailStep) = Throw TypeError
  ∧ trace w' = trace atEmailStep
  ∧ (step <$> users w' !! 42) = Some (Some step_email).
Proof.
  edestruct (email_step_without_text_throws sampleEnv atEmailStep
               (mkMessage 42 42 None
                  (Some (mkContact (Some 42) (Js.lit "0912345678")))))
    as (H1 & H2 & (u' & H3 & _ & H4) & _);
    [vm_compute; reflexivity ..|].
  split; [exact H1|]. split; [exact H2|].
  cbv zeta. cbn [chat_id] in H3. rewrite H3. cbn. f_equal.
  apply (H4 f_step). intros H. by apply list_elem_of_singleton in H.
Defined.

(** C10 (counterexample).  Applicant 42 is asked for the e-mail address and
    shares a contact four seconds after the last message: the handler
    throws, and the session stored afterwards is not the session stored
    before, its activity stamp has moved from 5000 to 9000. *)
Lemma email_step_session_mutated :
  reachable atEmailStep
  ∧ (step <$> users atEmailStep !! 42) = Some (Some step_email)
  ∧ (lastActivity <$> users atEmailStep !! 42) = Some (Some 5000)
  ∧ fst (onMessage
           (mkMessage 42 42 None (Some (mkContact (Some 42) (Js.lit "0912345678"))))
           {| now := 9000; ADMIN_ID := Js.Int 1; delivers := λ _, true;
              verifyTransaction := λ _, VerifyFails;
              initializeCheckout := CheckoutFails |} atEmailStep)
    = Throw TypeError
  ∧ (lastActivity <$>
       users (snd (onMessage
                     (mkMessage 42 42 None
                        (Some (mkContact (Some 42) (Js.lit "0912345678"))))
                     {| now := 9000; ADMIN_ID := Js.Int 1; delivers := λ _, true;
                        verifyTransaction := λ _, VerifyFails;
                        initializeCheckout := CheckoutFails |} atEmailStep)) !! 42)
    = Some (Some 9000).
Proof.
  split; [apply reachable_runEvents, reachable_init|].
  repeat split; vm_compute; reflexivity.
Qed.

(** A text that trimming leaves with fewer than two code units is none of
    the button labels. *)
Lemma trim_short_not_label (s : Js.JsString) :
  (length (Js.trim s) < 2)%nat → isControl (Some s) = false.
Proof.
  intros Hl. unfold isControl, textIs.
  rewrite !bool_decide_eq_false_2; [done|..];
    intros [= ->]; vm_compute in Hl; lia.
Qed.

(** C9 (code defect).  The [name] step tests the length of the text as it
    was sent and stores the text trimmed.  A text of at least two code
    units that trimming leaves with fewer than two, two spaces say, is
    therefore accepted: the trimmed text, which the prompt of the step
    itself calls too short, is stored as the name, the step advances to
    [phone] and the applicant is asked for the phone number. *)
Theorem name_step_accepts_blank
    (env : Env) (w : World) (msg : Message) (u : User) (s : Js.JsString) :
  text msg = Some s → (2 ≤ length s)%nat → (length (Js.trim s) < 2)%nat →
  users w !! chat_id msg = Some u →
  step u = Some step_name →
  admitted env w (chat_id msg) = true →
  redirected env w msg = false →
  let w' := snd (onMessage msg env w) in
  (∃ u', users w' !! chat_id msg = Some u'
         ∧ name u' = Some (Js.trim s) ∧ step u' = Some step_phone)
  ∧ (reliable env →
     trace w' = trace w ++
       [SendChatAction (Chat (Js.Int (chat_id msg)));
        SendMessage (Chat (Js.Int (chat_id msg))) PromptPhone]).
Proof.
  intros Ht Hlen Htrim Hu Hs Ha Hr. cbv zeta.
  rewrite (onMessage_reaches_steps env w msg u Hu Ha Hr)
    by (rewrite Ht; by apply trim_short_not_label).
  fold (touched env w (chat_id msg)).
  pose proof (touched_lookup env w _ u Hu) as Hu0.
  assert (trace (touched env w (chat_id msg)) = trace w) as Htr by done.
  revert Hu0 Htr. generalize (touched env w (chat_id msg)). intros w0 Hu0 Htr.
  unfold onStep. rewrite Hs.
  assert (tooShort (text msg) = false) as ->.
  { unfold tooShort. rewrite Ht. destruct s as [|c [|c' s]]; cbn in *; [lia..|done]. }
  rewrite Ht. split.
  - match goal with |- ∃ u', users (snd (?m ?e ?w1)) !! _ = _ ∧ _ =>
      change (post m e w1 (λ _ w', ∃ u', users w' !! chat_id msg = Some u'
          ∧ name u' = Some (Js.trim s) ∧ step u' = Some step_phone)) end.
    wp; store; rewrite lookup_alter_eq, Hu0; eexists; (split; [reflexivity|]);
      done.
  - intros Hd.
    match goal with |- trace (snd (?m ?e ?w1)) = ?r =>
      change (post m e w1 (λ _ w', trace w' = r)) end.
    wp_reliable Hd. store. rewrite Htr. by rewrite <- !app_assoc.
Qed.

(** A witness of [name_step_accepts_blank]: asked for the name, applicant
    42 sends two spaces; the name stored is the empty string. *)
Lemma name_step_accepts_blank_witness :
  let msg := mkMessage 42 42 (Some (Js.lit "  ")) None in
  let w' := snd (onMessage msg sampleEnv atNameStep) in
  reachable atNameStep
  ∧ (step <$> users atNameStep !! 42) = Some (Some step_name)
  ∧ (∃ u', users w' !! 42 = Some u' ∧ name u' = Some [] ∧ step u' = Some step_phone)
  ∧ trace w' = trace atNameStep ++
      [SendChatAction (Chat (Js.Int 42)); SendMessage (Chat (Js.Int 42)) PromptPhone].
Proof.
  split; [apply reachable_runEvents, reachable_init|].
  split; [vm_compute; reflexivity|].
  edestruct (name_step_accepts_blank sampleEnv atNameStep
               (mkMessage 42 42 (Some (Js.lit "  ")) None)) as (H1 & H2);
    [reflexivity|vm_compute; lia|vm_compute; lia|vm_compute; reflexivity ..|].
  split; [exact H1|]. apply H2. intros n. reflexivity.
Defined.

(** ** The e-mail validator *)

(** Every casing of [skip] is accepted, by either variant. *)
Lemma isValidEmail_skip (e : Js.JsString) :
  Js.toLowerCase e = Js.lit "skip" →
  isValidEmail (Some e) = Normal true ∧ Part001.isValidEmail (Some e) = Normal true.
Proof.
  intros H. unfold isValidEmail, Part001.isValidEmail, Js.eqb.
  by rewrite bool_decide_eq_true_2.
Qed.

(** C8 (divergence of [src/index.js]).  The validator of [src/index.js]
    only looks for an at sign and a dot anywhere in the string: it accepts
    a string with whitespace in it, a string whose only dot comes before
    the at sign, and the bare ["@."]. *)
Theorem isValidEmail_accepts_malformed :
  isValidEmail (Some (Js.lit "a b@c.d")) = Normal true
  ∧ isValidEmail (Some (Js.lit "a.b@c")) = Normal true
  ∧ isValidEmail (Some (Js.lit "@.")) = Normal true.
Proof. vm_compute. repeat split; reflexivity. Qed.

(** The validator of [part_001] rejects the same three strings. *)
Lemma Part001_isValidEmail_rejects_malformed :
  Part001.isValidEmail (Some (Js.lit "a b@c.d")) = Normal false
  ∧ Part001.isValidEmail (Some (Js.lit "a.b@c")) = Normal false
  ∧ Part001.isValidEmail (Some (Js.lit "@.")) = Normal false.
Proof. vm_compute. repeat split; reflexivity. Qed.

(** ** Correctness of the matcher, and the shape [part_001] accepts *)

Section Matcher.
Import Regex.

Lemma nullable_lang (r : Regex.t) : nullable r = true ↔ lang r [].
Proof.
  induction r as [| |p|r1 IH1 r2 IH2|r1 IH1 r2 IH2|r IH]; cbn.
  - split; [done|inversion 1].
  - split; [constructor|done].
  - split; [done|inversion 1].
  - rewrite andb_true_iff, IH1, IH2. split.
    + intros [H1 H2]. by apply (lang_seq _ _ [] []).
    + inversion 1 as [| |? ? s1 s2 H1 H2 E1 E2| | | |]; subst.
      apply app_eq_nil in E2 as [-> ->]. done.
  - rewrite orb_true_iff, IH1, IH2. split.
    + intros [H|H]; [by apply lang_alt_l|by apply lang_alt_r].
    + inversion 1; subst; auto.
  - split; [constructor|done].
Qed.

(** A non-empty word of a star starts with a non-empty word of the body. *)
Lemma lang_star_cons (r : Regex.t) (c : N) (s : Js.JsString) :
  lang (Star r) (c :: s) →
  ∃ s1 s2, s = s1 ++ s2 ∧ lang r (c :: s1) ∧ lang (Star r) s2.
Proof.
  intros H. remember (Star r) as r0 eqn:Er. remember (c :: s) as x eqn:Ex.
  revert s Ex. induction H as [| | | | | |r' s1 s2 H1 _ H2 IH2]; try discriminate.
  injection Er as ->. intros s Ex. destruct s1 as [|c' s1]; cbn in Ex.
  - by apply IH2.
  - injection Ex as -> <-. eauto.
Qed.

Lemma deriv_lang (r : Regex.t) (c : N) (s : Js.JsString) :
  lang (deriv c r) s ↔ lang r (c :: s).
Proof.
  revert s. induction r as [| |p|r1 IH1 r2 IH2|r1 IH1 r2 IH2|r IH]; intros s; cbn.
  - split; inversion 1.
  - split; inversion 1.
  - destruct (p c) eqn:Hp; split; inversion 1; subst.
    + by constructor.
    + constructor.
    + congruence.
  - assert (lang (Seq (deriv c r1) r2) s → lang (Seq r1 r2) (c :: s)) as Hfwd.
    { inversion 1 as [| |? ? s1 s2 H1 H2| | | |]; subst.
      apply IH1 in H1. by apply (lang_seq _ _ (c :: s1) s2). }
    assert (lang (Seq r1 r2) (c :: s) →
            lang (Seq (deriv c r1) r2) s
            ∨ (lang r1 [] ∧ lang r2 (c :: s))) as Hbwd.
    { inversion 1 as [| |? ? s1 s2 H1 H2 E1 E2| | | |]; subst.
      destruct s1 as [|c' s1]; cbn in E2.
      - subst s2. by right.
      - injection E2 as -> <-. left. constructor; [by apply IH1|done]. }
    destruct (nullable r1) eqn:Hn.
    + split.
      * inversion 1; subst; [by apply Hfwd|].
        apply (lang_seq _ _ [] (c :: s)); [by apply nullable_lang|by apply IH2].
      * intros [H|[_ H]]%Hbwd; [by apply lang_alt_l|].
        apply lang_alt_r. by apply IH2.
    + split; [exact Hfwd|].
      intros [H|[H _]]%Hbwd; [done|].
      apply nullable_lang in H. congruence.
  - split.
    + inversion 1; subst; [apply lang_alt_l; by apply IH1|apply lang_alt_r; by apply IH2].
    + inversion 1; subst; [apply lang_alt_l; by apply IH1|apply lang_alt_r; by apply IH2].
  - split.
    + inversion 1 as [| |? ? s1 s2 H1 H2| | | |]; subst.
      apply IH in H1. by apply (lang_star_more _ (c :: s1) s2).
    + intros (s1 & s2 & -> & H1 & H2)%lang_star_cons.
      constructor; [by apply IH|done].
Qed.

(** [test] decides membership in the language. *)
Lemma test_lang (r : Regex.t) (s : Js.JsString) : test r s = true ↔ lang r s.
Proof.
  unfold test. revert r. induction s as [|c s IH]; intros r; cbn.
  - apply nullable_lang.
  - rewrite IH. apply deriv_lang.
Qed.

Lemma lang_chr (c : N) (s : Js.JsString) : lang (Chr c) s ↔ s = [c].
Proof.
  unfold Chr. split.
  - inversion 1 as [|? c' Hc| | | | |]; subst. by apply N.eqb_eq in Hc as ->.
  - intros ->. constructor. apply N.eqb_refl.
Qed.

Lemma lang_star_class (p : N → bool) (s : Js.JsString) :
  lang (Star (Class p)) s ↔ Forall (λ c, p c = true) s.
Proof.
  split.
  - intros H. remember (Star (Class p)) as r eqn:Er.
    induction H as [| | | | | |r' s1 s2 H1 _ H2 IH2]; try discriminate.
    + constructor.
    + injection Er as ->. inversion H1; subst. constructor; [done|by apply IH2].
  - induction 1 as [|c s Hc _ IH]; [constructor|].
    apply (lang_star_more _ [c] s); [by constructor|done].
Qed.

Lemma lang_plus_class (p : N → bool) (s : Js.JsString) :
  lang (Plus (Class p)) s ↔ s ≠ [] ∧ Forall (λ c, p c = true) s.
Proof.
  unfold Plus. split.
  - inversion 1 as [| |? ? s1 s2 H1 H2| | | |]; subst.
    inversion H1; subst. apply lang_star_class in H2.
    split; [done|by constructor].
  - intros [Hne Hall]. destruct Hall as [|c s Hc Hs]; [done|].
    apply (lang_seq _ _ [c] s); [by constructor|by apply lang_star_class].
Qed.

End Matcher.

(** The validator of [part_001] accepts the skip sentinel and otherwise
    exactly the strings of the shape [<part>@<part>.<part>]. *)
Lemma Part001_isValidEmail_shape (e : Js.JsString) :
  Part001.isValidEmail (Some e) = Normal true
  ↔ Js.toLowerCase e = Js.lit "skip" ∨ emailShape e.
Proof.
  assert (Regex.test Part001.emailRegex e = true ↔ emailShape e) as Hshape.
  { rewrite test_lang. unfold Part001.emailRegex, emailShape. split.
    - inversion 1 as [| |? ? l s2 Hl H2| | | |]; subst.
      inversion H2 as [| |? ? a s3 Ha H3| | | |]; subst.
      inversion H3 as [| |? ? m s4 Hm H4| | | |]; subst.
      inversion H4 as [| |? ? d t Hd Ht| | | |]; subst.
      apply lang_chr in Ha as ->. apply lang_chr in Hd as ->.
      apply lang_plus_class in Hl as [? ?], Hm as [? ?], Ht as [? ?].
      exists l, m, t. done.
    - intros (l & m & t & -> & ? & ? & ? & ? & ? & ?).
      apply lang_seq; [by apply lang_plus_class|].
      apply (lang_seq _ _ [64%N]); [by apply lang_chr|].
      apply lang_seq; [by apply lang_plus_class|].
      apply (lang_seq _ _ [46%N]); [by apply lang_chr|].
      by apply lang_plus_class. }
  unfold Part001.isValidEmail, Js.eqb. case_bool_decide as Hskip.
  - split; [by left|done].
  - split.
    + intros [= H]. right. by apply Hshape.
    + intros [?|H]; [done|]. f_equal. by apply Hshape.
Qed.

(** ** Worked scenarios *)

(** The registration dialogue of applicant 42, from [/start] to the review
    request: the session ends in [pending_review] with the five fields
    stored, and the review request and the confirmation are sent last. *)
Example registration_scenario :
  let w := runAll sampleEnv
             [onStart (mkMessage 42 42 (Some (Js.lit "/start")) None);
              says 42 REGISTER;
              says 42 (Js.lit "Jane Doe");
              says 42 (Js.lit "0912345678");
              says 42 (Js.lit "https://youtube.com/@jane");
              says 42 (Js.lit "skip");
              says 42 (Js.lit "Math")] initialWorld in
  users w !! 42
  = Some (set_createdAt (Some 5000) (set_lastActivity (Some 5000) sampleApplicant))
  ∧ drop 12 (trace w)
    = [GetChat; SendMessage DbChannel (ReviewRequest 42);
       SendMessage (Chat (Js.Int 42)) Submitted].
Proof. vm_compute. split; reflexivity. Qed.

(** Approval two hours and thirty hours after the registration began. *)
Example approval_fee_scenario :
  let approve hours :=
    snd (onCallbackQuery (mkQuery 1 (Js.lit "approve_42"))
           {| now := 1000 + hours * 3600000; ADMIN_ID := Js.Int 1;
              delivers := λ _, true;
              verifyTransaction := λ _, VerifyFails;
              initializeCheckout := CheckoutResponse true |} sampleWorld) in
  (status <$> users (approve 2) !! 42) = Some approved
  ∧ List.last (trace (approve 2)) GetChat
    = SendMessage (Chat (Js.Int 42)) (ApprovedWithLink 99)
  ∧ List.last (trace (approve 30)) GetChat
    = SendMessage (Chat (Js.Int 42)) (ApprovedWithLink 149).
Proof. vm_compute. repeat split; reflexivity. Qed.

(** The thirty-first request of one window is turned away, the first of
    the next window is let through. *)
Example rate_limit_scenario :
  let w30 := runAll sampleEnv (replicate 30 (says 42 (Js.lit "hello"))) sampleWorld in
  let later := {| now := 5000 + 60001; ADMIN_ID := Js.Int 1;
                  delivers := λ _, true;
                  verifyTransaction := λ _, VerifyFails;
                  initializeCheckout := CheckoutFails |} in
  admitted sampleEnv sampleWorld 42 = true
  ∧ admitted sampleEnv w30 42 = false
  ∧ admitted later w30 42 = true.
Proof. vm_compute. repeat split; reflexivity. Qed.

(** [/start] replaces whatever session the actor had by a fresh one. *)
Lemma onStart_resets (env : Env) (w : World) (msg : Message) :
  admitted env w (chat_id msg) = true →
  users (snd (onStart msg env w))
  = (<[chat_id msg := freshUser (now env)]> (users w)).
Proof.
  intros Ha.
  change (post (onStart msg) env w
            (λ _ w', users w' = <[chat_id msg := freshUser (now env)]> (users w))).
  unfold onStart. wp_step. wp_step. rewrite Ha. cbn [negb]. wp; done.
Qed.

(** * Further properties of the code *)

(** ** Substrings *)

Section Substrings.
Import Js.

Lemma startsWith_spec (p s : JsString) :
  startsWith p s = true ↔ ∃ b, s = p ++ b.
Proof.
  revert s. induction p as [|a p IH]; intros s; cbn.
  - split; [eauto|done].
  - destruct s as [|c s].
    + split; [done|]. intros [b H]. done.
    + rewrite andb_true_iff, N.eqb_eq, IH. split.
      * intros [-> [b ->]]. eauto.
      * intros [b [= -> ->]]. eauto.
Qed.

(** [s.includes(sub)] holds exactly when [sub] occurs in [s]. *)
Lemma includes_spec (sub s : JsString) :
  includes sub s = true ↔ ∃ a b, s = a ++ sub ++ b.
Proof.
  induction s as [|c s IH].
  - cbn. rewrite orb_false_r, startsWith_spec. split.
    + intros [b H]. exists [], b. done.
    + intros (a & b & H). destruct a; [eauto|done].
  - cbn [includes]. rewrite orb_true_iff, startsWith_spec, IH. split.
    + intros [[b H]|(a & b & ->)].
      * exists [], b. done.
      * exists (c :: a), b. done.
    + intros (a & b & H). destruct a as [|c' a].
      * left. eauto.
      * right. injection H as -> ->. eauto.
Qed.

Lemma includes_unit (c : N) (s : JsString) : includes [c] s = true ↔ c ∈ s.
Proof.
  rewrite includes_spec. split.
  - intros (a & b & ->). apply elem_of_app. right. left.
  - intros (a & b & ->)%list_elem_of_split. eauto.
Qed.

End Substrings.

(** ** The validators *)

(** X1.  [isValidYouTubeUrl] accepts a string exactly when one of the five
    markers occurs somewhere in it: the match is not anchored, so any text
    around a marker is accepted with it, and the empty string is not. *)
Theorem isValidYouTubeUrl_contains (u : Js.JsString) :
  isValidYouTubeUrl (Some u) = true
  ↔ ∃ m a b, m ∈ youtubeMarkers ∧ u = a ++ Js.lit m ++ b.
Proof.
  assert (isValidYouTubeUrl (Some u)
          = existsb (λ m, Js.includes (Js.lit m) u) youtubeMarkers) as ->.
  { destruct u; [done|]. cbn [isValidYouTubeUrl existsb youtubeMarkers].
    by rewrite orb_false_r, !orb_assoc. }
  rewrite existsb_exists. split.
  - intros (m & Hm & (a & b & ->)%includes_spec).
    exists m, a, b. split; [|done]. by apply list_elem_of_In.
  - intros (m & a & b & Hm & ->). exists m. split.
    + by apply list_elem_of_In.
    + apply includes_spec. eauto.
Qed.

(** X2.  [isValidEmail] of [src/index.js] accepts a string exactly when it
    is a casing of [skip] or holds an at sign and a dot, each anywhere;
    whatever the pattern of [part_001] accepts, it accepts too. *)
Theorem isValidEmail_contains (e : Js.JsString) :
  (isValidEmail (Some e) = Normal true
   ↔ Js.toLowerCase e = Js.lit "skip" ∨ (64%N ∈ e ∧ 46%N ∈ e))
  ∧ (Part001.isValidEmail (Some e) = Normal true →
     isValidEmail (Some e) = Normal true).
Proof.
  assert (isValidEmail (Some e) = Normal true
          ↔ Js.toLowerCase e = Js.lit "skip" ∨ (64%N ∈ e ∧ 46%N ∈ e)) as Hc.
  { unfold isValidEmail, Js.eqb. case_bool_decide as Hs.
    - split; [by left|done].
    - change (Js.lit "@") with [64%N]. change (Js.lit ".") with [46%N].
      split.
      + intros [= H]. right. apply andb_true_iff in H as [H1 H2].
        by rewrite <- !includes_unit.
      + intros [?|[H1 H2]]; [done|]. f_equal. apply andb_true_iff.
        by rewrite !includes_unit. }
  split; [exact Hc|].
  intros [?|(l & m & t & -> & _)]%Part001_isValidEmail_shape; apply Hc; [by left|].
  right. split.
  - apply elem_of_app. right. left.
  - apply elem_of_app. right. right. apply elem_of_app. right. left.
Qed.

(** A witness of [isValidEmail_contains]. *)
Lemma isValidEmail_contains_witness :
  isValidEmail (Some (Js.lit "a@b.c")) = Normal true.
Proof.
  apply (proj2 (isValidEmail_contains (Js.lit "a@b.c"))).
  vm_compute. reflexivity.
Defined.

Section MatcherOfPhones.
Import Regex.

Lemma lang_lit (s : string) (x : Js.JsString) : lang (Lit s) x ↔ x = Js.lit s.
Proof.
  unfold Lit. generalize (Js.lit s). intros l. revert x.
  induction l as [|c l IH]; intros x; cbn.
  - split; [by inversion 1|intros ->; constructor].
  - split.
    + inversion 1 as [| |? ? s1 s2 H1 H2| | | |]; subst.
      apply lang_chr in H1 as ->. apply IH in H2 as ->. done.
    + intros ->. apply (lang_seq _ _ [c] l); [by apply lang_chr|by apply IH].
Qed.

Lemma lang_opt (r : Regex.t) (x : Js.JsString) :
  lang (Opt r) x ↔ lang r x ∨ x = [].
Proof.
  unfold Opt. split.
  - inversion 1 as [| | |? ? ? H1|? ? ? H1| |]; subst; [by left|].
    inversion H1. by right.
  - intros [H| ->]; [by apply lang_alt_l|apply lang_alt_r; constructor].
Qed.

Lemma lang_repeat_class (n : nat) (p : N → bool) (x : Js.JsString) :
  lang (Repeat n (Class p)) x ↔ length x = n ∧ Forall (λ c, p c = true) x.
Proof.
  revert x. induction n as [|n IH]; intros x; cbn.
  - split.
    + by inversion 1.
    + intros [->%nil_length_inv _]. constructor.
  - split.
    + inversion 1 as [| |? ? s1 s2 H1 H2| | | |]; subst.
      inversion H1; subst. apply IH in H2 as [<- ?]. split; [done|by constructor].
    + intros [Hl Hall]. destruct Hall as [|c x Hc Hx]; [done|].
      injection Hl as Hl.
      apply (lang_seq _ _ [c] x); [by constructor|by apply IH].
Qed.

End MatcherOfPhones.

(** X3.  [isValidPhone] accepts a string exactly when, with its whitespace
    removed, it is an optional [+251] or [0], then a nine, then eight more
    digits. *)
Theorem isValidPhone_shape (p : Js.JsString) :
  isValidPhone p = true
  ↔ phoneShape (filter (λ c, negb (Js.isWhiteSpace c)) p).
Proof.
  unfold isValidPhone. cbv zeta. rewrite test_lang.
  generalize (filter (λ c, negb (Js.isWhiteSpace c)) p). intros x.
  unfold phoneRegex, phoneShape. split.
  - inversion 1 as [| |? ? pre s2 Hpre H2| | | |]; subst.
    inversion H2 as [| |? ? n ds Hn Hds| | | |]; subst.
    apply lang_chr in Hn as ->.
    apply (lang_repeat_class 8 Js.isDigit) in Hds as [? ?].
    exists pre, ds. split; [done|]. split; [|done].
    apply lang_opt in Hpre as [Hpre|Hpre]; [|by left].
    right. inversion Hpre; subst.
    + left. by apply lang_lit.
    + right. by apply lang_lit.
  - intros (pre & ds & -> & Hpre & Hl & Hds).
    apply lang_seq.
    + apply lang_opt. destruct Hpre as [->|[->| ->]]; [by right| |]; left.
      * apply lang_alt_l. by apply lang_lit.
      * apply lang_alt_r. by apply lang_lit.
    + apply (lang_seq _ _ [57%N] ds); [by apply lang_chr|].
      by apply (lang_repeat_class 8 Js.isDigit).
Qed.

(** ** The rate limiter *)

Lemma attempts_cons (k : Z) (env : Env) (envs : list Env) (w : World) :
  attempts k (env :: envs) w
  = let w1 := set_rateLimit
                (<[k := nextLimits (now env) (rateLimit w !! k)]> (rateLimit w)) w in
    (admitted env w k :: fst (attempts k envs w1), snd (attempts k envs w1)).
Proof.
  cbn [attempts]. unfold checkRateLimit, admitted. cbv zeta.
  by destruct (attempts k envs _).
Qed.

(** Inside a window every request is counted, admitted or not. *)
Lemma attempts_in_window (k : Z) (envs : list Env) (w : World) (c r : Z) :
  rateLimit w !! k = Some {| count := c; resetTime := r |} →
  Forall (λ e, now e ≤ r) envs →
  fst (attempts k envs w)
  = map (λ i, bool_decide (c + Z.of_nat i < MAX_REQUESTS)) (seq 0 (length envs))
  ∧ ∀ j, j ≠ k → rateLimit (snd (attempts k envs w)) !! j = rateLimit w !! j.
Proof.
  revert w c. induction envs as [|e envs IH]; intros w c Hk Hall; [done|].
  apply Forall_cons in Hall as [He Hall].
  rewrite attempts_cons. cbv zeta. unfold admitted.
  assert (nextLimits (now e) (rateLimit w !! k)
          = {| count := c + 1; resetTime := r |}) as ->.
  { unfold nextLimits. rewrite Hk. cbn [default from_option id resetTime count].
    by rewrite (proj2 (Z.ltb_ge r (now e))) by done. }
  match goal with |- context [attempts k envs ?w1] =>
    destruct (IH w1 (c + 1)) as (IH1 & IH3);
      [store; by rewrite lookup_insert_eq|done|] end.
  cbn [fst snd count]. rewrite IH1. split.
  - cbn [length seq map]. f_equal.
    + rewrite Z.add_0_r. unfold MAX_REQUESTS.
      destruct (Z.leb_spec (c + 1) 30);
        [by rewrite bool_decide_eq_true_2 by lia
        |by rewrite bool_decide_eq_false_2 by lia].
    + rewrite <- seq_shift, map_map. apply map_ext. intros i.
      apply bool_decide_ext. lia.
  - intros j Hj. rewrite IH3 by done. store. by rewrite lookup_insert_ne.
Qed.

(** X4.  [checkRateLimit] counts in fixed windows: of the requests of one
    actor from the one that opens a window to the end of that window,
    exactly the first thirty are admitted, however many follow; the entries
    of the other actors are not touched. *)
Theorem checkRateLimit_admits_thirty
    (k : Z) (e0 : Env) (envs : list Env) (w : World) :
  windowOpens (now e0) (rateLimit w !! k) →
  Forall (λ e, now e ≤ now e0 + RATE_LIMIT_WINDOW) envs →
  fst (attempts k (e0 :: envs) w)
  = map (λ i, bool_decide (i < 30)%nat) (seq 0 (S (length envs)))
  ∧ ∀ j, j ≠ k →
      rateLimit (snd (attempts k (e0 :: envs) w)) !! j = rateLimit w !! j.
Proof.
  intros Hopen Hall. rewrite attempts_cons. cbv zeta. unfold admitted.
  assert (nextLimits (now e0) (rateLimit w !! k)
          = {| count := 1; resetTime := now e0 + RATE_LIMIT_WINDOW |}) as ->.
  { unfold nextLimits, windowOpens in *.
    destruct (rateLimit w !! k) as [e|]; cbn [default from_option id resetTime].
    - by rewrite (proj2 (Z.ltb_lt _ _)) by done.
    - unfold RATE_LIMIT_WINDOW. rewrite (proj2 (Z.ltb_ge _ _)) by lia.
      cbn. done. }
  match goal with |- context [attempts k envs ?w1] =>
    destruct (attempts_in_window k envs w1 1 (now e0 + RATE_LIMIT_WINDOW))
      as (H1 & H3); [store; by rewrite lookup_insert_eq|done|] end.
  cbn [fst snd count]. split.
  - cbn [seq map]. f_equal. rewrite H1, <- seq_shift, map_map.
    apply map_ext. intros i. apply bool_decide_ext. unfold MAX_REQUESTS. lia.
  - intros j Hj. rewrite H3 by done. store. by rewrite lookup_insert_ne.
Qed.

(** A witness of [checkRateLimit_admits_thirty]: thirty-two requests of
    actor 42 at one clock reading. *)
Lemma checkRateLimit_admits_thirty_witness :
  fst (attempts 42 (sampleEnv :: replicate 31 sampleEnv) initialWorld)
  = map (λ i, bool_decide (i < 30)%nat) (seq 0 32)
  ∧ ∀ j, j ≠ 42 →
      rateLimit (snd (attempts 42 (sampleEnv :: replicate 31 sampleEnv)
                        initialWorld)) !! j
      = rateLimit initialWorld !! j.
Proof.
  apply (checkRateLimit_admits_thirty 42 sampleEnv (replicate 31 sampleEnv)
           initialWorld).
  - vm_compute. exact I.
  - apply Forall_replicate. vm_compute. discriminate.
Defined.

(** ** The fee in milliseconds *)

Lemma getFee_fee (now : Z) (u : User) :
  fst (getFee now (Some u))
  = if truthyTime (createdAt u)
       && (bool_decide (status u = reapply_required)
           || (24 * (1000 * 60 * 60) <? now - default 0 (createdAt u)))
    then PENALTY else STANDARD.
Proof.
  unfold getFee. cbv zeta. destruct (truthyTime (createdAt u)); [|done].
  cbn [negb andb].
  assert (bool_decide (Q2Qc 24 < hoursSince now (default 0%Z (createdAt u)))%Qc
          = (24 * (1000 * 60 * 60) <? now - default 0 (createdAt u))) as ->.
  { destruct (Z.ltb_spec (24 * (1000 * 60 * 60)) (now - default 0 (createdAt u)));
      [apply bool_decide_eq_true_2|apply bool_decide_eq_false_2];
      rewrite hoursSince_exceeds; lia. }
  by destruct (bool_decide (status u = reapply_required) || _).
Qed.

(** X5.  [getFee] charges the penalty fee exactly when the session has a
    non-zero creation timestamp and either its status is
    [reapply_required] or more than 86 400 000 ms have passed since that
    timestamp; at exactly 24 hours the fee is still the standard one. *)
Theorem getFee_threshold (now : Z) (u : User) :
  (fst (getFee now (Some u)) = PENALTY
   ↔ ∃ c, createdAt u = Some c ∧ c ≠ 0
          ∧ (status u = reapply_required ∨ 86400000 < now - c))
  ∧ (fst (getFee now (Some u)) = PENALTY ∨ fst (getFee now (Some u)) = STANDARD).
Proof.
  rewrite getFee_fee. unfold truthyTime.
  destruct (createdAt u) as [c|]; cbn [default from_option id andb].
  - destruct (Z.eqb_spec c 0) as [->|Hc]; cbn [negb andb].
    + split; [|by right]. split; [done|]. intros (c & [= <-] & ? & _). done.
    + destruct (bool_decide (status u = reapply_required)) eqn:Hs; cbn [orb].
      * apply bool_decide_eq_true in Hs. split; [|by left].
        split; [|done]. intros _. exists c. auto.
      * apply bool_decide_eq_false in Hs.
        destruct (Z.ltb_spec (24 * (1000 * 60 * 60)) (now - c)) as [Hl|Hl].
        -- split; [|by left]. split; [|done]. intros _. exists c.
           split; [done|]. split; [done|]. right. lia.
        -- split; [|by right]. split; [done|].
           intros (c' & [= <-] & _ & [?|?]); [done|lia].
  - split; [|by right]. split; [done|]. intros (c & ? & _). done.
Qed.

(** ** The sweep as a filter *)

(** X6.  [cleanupInactiveSessions] is a filter: it keeps exactly the
    sessions that are not idle past the timeout with status [idle] or
    [collecting], each unchanged; a second sweep at the same clock reading
    removes nothing more, and a later sweep removes at least as much. *)
Theorem cleanup_is_filter (now later : Z) (us : gmap Z User) :
  cleanupInactiveSessions now us = filter (λ kv, evicted now kv.2 = false) us
  ∧ cleanupInactiveSessions now (cleanupInactiveSessions now us)
    = cleanupInactiveSessions now us
  ∧ (now ≤ later →
     cleanupInactiveSessions later us ⊆ cleanupInactiveSessions now us).
Proof.
  split; [|split].
  - apply map_eq. intros k. rewrite cleanup_lookup.
    destruct (us !! k) as [u|] eqn:Hu; cbn.
    + destruct (evicted now u) eqn:He.
      * symmetry. apply map_lookup_filter_None. right. intros u' Hu'.
        cbn. congruence.
      * symmetry. apply map_lookup_filter_Some. done.
    + symmetry. apply map_lookup_filter_None. by left.
  - apply map_eq. intros k. rewrite !cleanup_lookup.
    destruct (us !! k) as [u|]; cbn; [|done].
    destruct (evicted now u) eqn:He; cbn; [done|]. by rewrite He.
  - intros Hle. apply map_subseteq_spec. intros k u. rewrite !cleanup_lookup.
    destruct (us !! k) as [u0|]; cbn; [|done].
    destruct (evicted later u0) eqn:He; [done|]. intros [= <-].
    destruct (evicted now u0) eqn:He'; [|done].
    apply evicted_spec in He' as [(la & Hla & Hnz & Hlt) Hs].
    assert (evicted later u0 = true); [|congruence].
    apply evicted_spec. split; [|done]. exists la.
    split; [done|]. split; [done|]. lia.
Qed.

(** A witness of [cleanup_is_filter]. *)
Lemma cleanup_is_filter_witness :
  cleanupInactiveSessions 3000000 {[7 := freshUser 1]}
  ⊆ cleanupInactiveSessions 1000000 {[7 := freshUser 1]}.
Proof.
  apply (proj2 (proj2 (cleanup_is_filter 1000000 3000000 {[7 := freshUser 1]}))).
  lia.
Defined.

(** ** The [/start] handler *)

(** X7.  [/start] stores a fresh idle session under the sender, whatever
    session was there and whatever its status, and then sends the typing
    indicator and the welcome; a throttled [/start] leaves the sessions as
    they are.  The processed references and the reply target are never
    touched. *)
Theorem onStart_replaces (env : Env) (w : World) (msg : Message) :
  let w' := snd (onStart msg env w) in
  (admitted env w (chat_id msg) = true →
     users w' = (<[chat_id msg := freshUser (now env)]> (users w))
     ∧ (reliable env →
        trace w' = trace w ++
          [SendChatAction (Chat (Js.Int (chat_id msg)));
           SendMessage (Chat (Js.Int (chat_id msg))) Welcome]))
  ∧ (admitted env w (chat_id msg) = false → users w' = users w)
  ∧ processedTransactions w' = processedTransactions w
  ∧ adminReplyTarget w' = adminReplyTarget w.
Proof.
  cbv zeta. split; [|split; [|split]].
  - intros Ha. split.
    + change (post (onStart msg) env w
          (λ _ w', users w' = <[chat_id msg := freshUser (now env)]> (users w))).
      unfold onStart. wp_step. wp_step. rewrite Ha. cbn [negb]. wp; done.
    + intros Hd.
      match goal with |- trace (snd (?m ?e ?w1)) = ?r =>
        change (post m e w1 (λ _ w', trace w' = r)) end.
      unfold onStart. wp_step. wp_step. rewrite Ha. cbn [negb].
      wp_reliable Hd. store. by rewrite <- !app_assoc.
  - intros Ha.
    change (post (onStart msg) env w (λ _ w', users w' = users w)).
    unfold onStart. wp_step. wp_step. rewrite Ha. cbn [negb]. wp; done.
  - change (post (onStart msg) env w
              (λ _ w', processedTransactions w' = processedTransactions w)).
    unfold onStart. wp; done.
  - change (post (onStart msg) env w
              (λ _ w', adminReplyTarget w' = adminReplyTarget w)).
    unfold onStart. wp; done.
Qed.

(** A witness of [onStart_replaces]: applicant 42, who awaits review,
    sends [/start]. *)
Lemma onStart_replaces_witness :
  let msg := mkMessage 42 42 (Some (Js.lit "/start")) None in
  users (snd (onStart msg sampleEnv sampleWorld))
  = (<[42 := freshUser 5000]> (users sampleWorld))
  ∧ trace (snd (onStart msg sampleEnv sampleWorld))
    = trace sampleWorld ++
        [SendChatAction (Chat (Js.Int 42)); SendMessage (Chat (Js.Int 42)) Welcome].
Proof.
  destruct (proj1 (onStart_replaces sampleEnv sampleWorld
                     (mkMessage 42 42 (Some (Js.lit "/start")) None)))
    as [H1 H2].
  - vm_compute. reflexivity.
  - split; [exact H1|]. apply H2. intros n. reflexivity.
Defined.

(** ** The message handler *)

(** X8.  The message handler neither creates nor deletes a session, leaves
    the sessions of everybody but the sender as they are, and never
    touches the processed references. *)
Theorem onMessage_touches_only_sender (env : Env) (w : World) (msg : Message) :
  let w' := snd (onMessage msg env w) in
  dom (users w') = dom (users w)
  ∧ (∀ k, k ≠ chat_id msg → users w' !! k = users w !! k)
  ∧ processedTransactions w' = processedTransactions w.
Proof.
  change (post (onMessage msg) env w
            (λ _ w', dom (users w') = dom (users w)
                     ∧ (∀ k, k ≠ chat_id msg → users w' !! k = users w !! k)
                     ∧ processedTransactions w' = processedTransactions w)).
  unfold onMessage, onControl, onStep, statusAndAbout.
  wp; store; rewrite ?dom_alter_L;
    (split; [done|]); (split; [|done]);
    intros k Hk; by rewrite ?lookup_alter_ne.
Qed.

(** A witness of [onMessage_touches_only_sender]: a message of actor 7
    leaves the session of applicant 42 alone. *)
Lemma onMessage_touches_only_sender_witness :
  users (snd (onMessage (mkMessage 7 7 (Some REGISTER) None) sampleEnv
                (set_users {[7 := freshUser 1000; 42 := sampleApplicant]}
                   initialWorld))) !! 42
  = Some sampleApplicant.
Proof.
  rewrite (proj1 (proj2 (onMessage_touches_only_sender sampleEnv
                           (set_users {[7 := freshUser 1000; 42 := sampleApplicant]}
                              initialWorld)
                           (mkMessage 7 7 (Some REGISTER) None))) 42).
  - vm_compute. reflexivity.
  - vm_compute. discriminate.
Defined.

(** X9.  The message handler changes the status of a session only to
    [collecting] (on [Register], unless the status is [pending_review],
    [approved] or [payment_verified]), to [idle] (on [Cancel]) or to
    [pending_review] (at the subject step); it never writes the
    transaction reference, the paid amount, the commission or the payment
    date. *)
Theorem onMessage_status_moves
    (env : Env) (w : World) (msg : Message) (k : Z) (u : User) :
  users w !! k = Some u →
  ∃ u', users (snd (onMessage msg env w)) !! k = Some u'
        ∧ statusMove (text msg) u (status u')
        ∧ tx_ref u' = tx_ref u ∧ paidAmount u' = paidAmount u
        ∧ commission u' = commission u ∧ paymentDate u' = paymentDate u.
Proof.
  intros Hu.
  change (post (onMessage msg) env w
            (λ _ w', ∃ u', users w' !! k = Some u'
        ∧ statusMove (text msg) u (status u')
        ∧ tx_ref u' = tx_ref u ∧ paidAmount u' = paidAmount u
        ∧ commission u' = commission u ∧ paymentDate u' = paymentDate u)).
  unfold onMessage, onControl, onStep, statusAndAbout.
  wp; store;
    (destruct (decide (chat_id msg = k)) as [Hk|Hne];
     [ subst k; rewrite ?lookup_alter_eq, ?Hu; same_user; cbn; same_user; cbn;
       eexists; (split; [reflexivity|]); cbn; unfold statusMove
     | rewrite ?lookup_alter_ne by done; eexists; split; [exact Hu|];
       unfold statusMove; by (split; [left|]) ]).
  all: try by (split; [left|]).
  all: try by (split; [right; right; right|]).
  all: try by (split; [right; right; left|]).
  all: split; [|done]; right; left;
    repeat match goal with
           | H : _ || _ = false |- _ => apply orb_false_iff in H as [? ?]
           | H : bool_decide _ = false |- _ => apply bool_decide_eq_false in H
           end; done.
Qed.

(** A witness of [onMessage_status_moves]. *)
Lemma onMessage_status_moves_witness :
  ∃ u', users (snd (onMessage (mkMessage 42 42 (Some CANCEL) None) sampleEnv
                      sampleWorld)) !! 42 = Some u'
        ∧ statusMove (Some CANCEL) sampleApplicant (status u')
        ∧ tx_ref u' = tx_ref sampleApplicant
        ∧ paidAmount u' = paidAmount sampleApplicant
        ∧ commission u' = commission sampleApplicant
        ∧ paymentDate u' = paymentDate sampleApplicant.
Proof.
  apply (onMessage_status_moves sampleEnv sampleWorld
           (mkMessage 42 42 (Some CANCEL) None) 42 sampleApplicant).
  vm_compute. reflexivity.
Defined.

(** X10.  A throttled message changes no session and at most sends the
    notice of the limiter; an admitted message of a sender without a
    session, outside the reply mode, is dropped: nothing is stored and
    nothing is sent. *)
Theorem onMessage_ignores (env : Env) (w : World) (msg : Message) :
  let w' := snd (onMessage msg env w) in
  (admitted env w (chat_id msg) = false →
     users w' = users w ∧ adminReplyTarget w' = adminReplyTarget w
     ∧ (trace w' = trace w
        ∨ trace w' = trace w
                     ++ [SendMessage (Chat (Js.Int (chat_id msg))) TooManyRequests]))
  ∧ (admitted env w (chat_id msg) = true → redirected env w msg = false →
     users w !! chat_id msg = None →
     fst (onMessage msg env w) = Normal ()
     ∧ users w' = users w ∧ adminReplyTarget w' = adminReplyTarget w
     ∧ trace w' = trace w).
Proof.
  cbv zeta. split.
  - intros Ha.
    change (post (onMessage msg) env w
              (λ _ w', users w' = users w
                       ∧ adminReplyTarget w' = adminReplyTarget w
                       ∧ (trace w' = trace w
                          ∨ trace w' = trace w ++
                              [SendMessage (Chat (Js.Int (chat_id msg)))
                                 TooManyRequests]))).
    unfold onMessage. wp_step. wp_step. rewrite Ha. cbn [negb].
    wp; store; auto.
  - intros Ha Hr Hu.
    unfold onMessage, mbind, M_bind, checkRateLimit, ask, get, mret, M_ret.
    fold (admitted env w (chat_id msg)). rewrite Ha. cbn [negb].
    unfold redirected, isAdmin in Hr. unfold replyPending in *. store.
    rewrite Hr, Hu. done.
Qed.

(** A witness of [onMessage_ignores]: actor 7 has no session. *)
Lemma onMessage_ignores_witness :
  let msg := mkMessage 7 7 (Some REGISTER) None in
  fst (onMessage msg sampleEnv sampleWorld) = Normal ()
  ∧ users (snd (onMessage msg sampleEnv sampleWorld)) = users sampleWorld
  ∧ adminReplyTarget (snd (onMessage msg sampleEnv sampleWorld))
    = adminReplyTarget sampleWorld
  ∧ trace (snd (onMessage msg sampleEnv sampleWorld)) = trace sampleWorld.
Proof.
  apply (proj2 (onMessage_ignores sampleEnv sampleWorld
                  (mkMessage 7 7 (Some REGISTER) None)));
    vm_compute; reflexivity.
Defined.

(** *** The buttons and the steps *)

(** X11.  [Cancel] is not guarded by the status: from any status, also
    [approved] and [payment_verified], it makes the session idle with no
    step, and the sweep that runs more than thirty minutes later deletes
    the session. *)
Theorem cancel_resets_any_status
    (env : Env) (w : World) (msg : Message) (u : User) (later : Z) :
  text msg = Some CANCEL →
  users w !! chat_id msg = Some u →
  admitted env w (chat_id msg) = true →
  redirected env w msg = false →
  now env ≠ 0 → now env + SESSION_TIMEOUT < later →
  let w' := snd (onMessage msg env w) in
  users w' !! chat_id msg
  = Some (set_status idle (set_step None (set_lastActivity (Some (now env)) u)))
  ∧ cleanupInactiveSessions later (users w') !! chat_id msg = None.
Proof.
  intros Ht Hu Ha Hr Hn Hl. cbv zeta.
  assert (users (snd (onMessage msg env w)) !! chat_id msg
          = Some (set_status idle (set_step None
                    (set_lastActivity (Some (now env)) u)))) as E.
  { rewrite (onMessage_reaches_control env w msg u Hu Ha Hr).
    pose proof (touched_lookup env w _ u Hu) as Hu0.
    revert Hu0. generalize (touched env w (chat_id msg)). intros w0 Hu0.
    match goal with |- users (snd (?m ?e ?w1)) !! _ = Some ?r =>
      change (post m e w1 (λ _ w', users w' !! chat_id msg = Some r)) end.
    unfold onControl, textIs. rewrite Ht.
    rewrite (bool_decide_eq_false_2 (Some CANCEL = Some REGISTER)) by done.
    rewrite (bool_decide_eq_true_2 (Some CANCEL = Some CANCEL)) by done.
    wp; store; by rewrite lookup_alter_eq, Hu0. }
  split; [exact E|].
  rewrite cleanup_lookup, E. cbn [mbind option_bind].
  assert (evicted later (set_status idle (set_step None
            (set_lastActivity (Some (now env)) u))) = true) as ->; [|done].
  apply evicted_spec. split; [|by left].
  exists (now env). cbn. split; [done|]. split; [done|]. lia.
Qed.

(** A witness of [cancel_resets_any_status]: a teacher whose payment is
    verified presses [Cancel]. *)
Lemma cancel_resets_any_status_witness :
  let paid := markPaid 4000 (99%float) sampleApplicant in
  let w := set_users {[42 := paid]} initialWorld in
  let w' := snd (onMessage (mkMessage 42 42 (Some CANCEL) None) sampleEnv w) in
  users w' !! 42
  = Some (set_status idle (set_step None (set_lastActivity (Some 5000) paid)))
  ∧ cleanupInactiveSessions 1900000 (users w') !! 42 = None.
Proof.
  apply (cancel_resets_any_status sampleEnv
           (set_users {[42 := markPaid 4000 (99%float) sampleApplicant]}
              initialWorld)
           (mkMessage 42 42 (Some CANCEL) None)
           (markPaid 4000 (99%float) sampleApplicant) 1900000);
    vm_compute; (reflexivity || discriminate).
Defined.

(** X12.  [Register] restarts the fee clock: whatever the creation
    timestamp, the penalty flag and the status were (also
    [reapply_required]), the session restarts at the name step as
    [collecting] with [createdAt] at the clock reading, and for the next
    24 hours [getFee] charges it the standard fee. *)
Theorem register_restarts_fee_clock
    (env : Env) (w : World) (msg : Message) (u : User) (later : Z) :
  text msg = Some REGISTER →
  users w !! chat_id msg = Some u →
  admitted env w (chat_id msg) = true →
  redirected env w msg = false →
  status u ≠ pending_review → status u ≠ approved → status u ≠ payment_verified →
  now env ≠ 0 → later - now env ≤ 24 * (1000 * 60 * 60) →
  ∃ u', users (snd (onMessage msg env w)) !! chat_id msg = Some u'
        ∧ step u' = Some step_name ∧ status u' = collecting
        ∧ createdAt u' = Some (now env)
        ∧ fst (getFee later (Some u')) = STANDARD.
Proof.
  intros Ht Hu Ha Hr H1 H2 H3 Hn Hl.
  rewrite (onMessage_reaches_control env w msg u Hu Ha Hr).
  pose proof (touched_lookup env w _ u Hu) as Hu'.
  revert Hu'. generalize (touched env w (chat_id msg)). intros w0 Hu0.
  match goal with |- ∃ u', users (snd (?m ?e ?w1)) !! _ = _ ∧ _ =>
    change (post m e w1 (λ _ w', ∃ u', users w' !! chat_id msg = Some u'
        ∧ step u' = Some step_name ∧ status u' = collecting
        ∧ createdAt u' = Some (now env)
        ∧ fst (getFee later (Some u')) = STANDARD)) end.
  unfold onControl, textIs. rewrite Ht.
  rewrite (bool_decide_eq_true_2 (Some REGISTER = Some REGISTER)) by done.
  rewrite !bool_decide_eq_false_2 by done. cbn [orb].
  wp; store; rewrite lookup_alter_eq, Hu0; cbn [fmap option_fmap option_map];
    (eexists; split; [reflexivity|]); rewrite getFee_fee; cbn;
    rewrite (proj2 (Z.eqb_neq (now env) 0)) by done; cbn [negb andb];
    rewrite (proj2 (Z.ltb_ge _ _)) by lia; done.
Qed.

(** A witness of [register_restarts_fee_clock]: a rejected applicant
    registers again and is asked for the fee a day later. *)
Lemma register_restarts_fee_clock_witness :
  let w := set_users {[42 := set_status reapply_required sampleApplicant]}
             initialWorld in
  ∃ u', users (snd (onMessage (mkMessage 42 42 (Some REGISTER) None)
                      sampleEnv w)) !! 42 = Some u'
        ∧ step u' = Some step_name ∧ status u' = collecting
        ∧ createdAt u' = Some 5000
        ∧ fst (getFee 86405000 (Some u')) = STANDARD.
Proof.
  apply (register_restarts_fee_clock sampleEnv
           (set_users {[42 := set_status reapply_required sampleApplicant]}
              initialWorld)
           (mkMessage 42 42 (Some REGISTER) None)
           (set_status reapply_required sampleApplicant) 86405000);
    vm_compute; (reflexivity || discriminate).
Defined.

(** X13.  What the [My Status] button does depends on the step of the
    form.  With no step pending (none, or [completed]) the session is
    stamped (and, when approved, its penalty flag set by [getFee]) and one
    status notice is sent.  At the [subject] step the label of the button
    is first stored as the subject and the application submitted, and the
    handler then goes on to send the status notice, which reads pending
    review and precedes the review request of the task.  At the [name]
    step the label is stored as the name and the phone number is asked
    for; at the [phone], [youtube] and [email] steps it is refused as
    invalid input.  In these four cases no status notice is sent. *)
Theorem status_button
    (env : Env) (w : World) (msg : Message) (u : User) :
  text msg = Some MY_STATUS →
  users w !! chat_id msg = Some u →
  admitted env w (chat_id msg) = true →
  redirected env w msg = false →
  let k := chat_id msg in
  let w' := snd (onMessage msg env w) in
  let seen := set_lastActivity (Some (now env)) u in
  (step u = None ∨ step u = Some step_completed →
     users w' !! k
     = (if bool_decide (status u = approved)
        then snd (getFee (now env) (Some seen)) else Some seen)
     ∧ (reliable env →
        trace w' = trace w ++
          [SendMessage (Chat (Js.Int k)) (statusNotice (now env) seen)]))
  ∧ (step u = Some step_subject →
     users w' !! k
     = Some (set_status pending_review
               (set_step (Some step_completed)
                  (set_subject (Some MY_STATUS) seen)))
     ∧ (reliable env →
        trace w' = trace w ++
          [GetChat;
           SendMessage (Chat (Js.Int k)) (StatusReport pending_review None);
           SendMessage DbChannel (ReviewRequest k);
           SendMessage (Chat (Js.Int k)) Submitted]))
  ∧ (step u = Some step_name →
     users w' !! k
     = Some (set_step (Some step_phone) (set_name (Some MY_STATUS) seen))
     ∧ (reliable env →
        trace w' = trace w ++
          [SendChatAction (Chat (Js.Int k)); SendMessage (Chat (Js.Int k)) PromptPhone]))
  ∧ (∀ s n, (s, n) ∈ [(step_phone, InvalidPhone); (step_youtube, InvalidYoutube);
                      (step_email, InvalidEmail)] →
     step u = Some s → contact msg = None →
     users w' !! k = Some seen
     ∧ (reliable env → trace w' = trace w ++ [SendMessage (Chat (Js.Int k)) n])).
Proof.
  intros Ht Hu Ha Hr. cbv zeta.
  rewrite (onMessage_reaches_steps env w msg u Hu Ha Hr)
    by (unfold isControl, textIs; rewrite Ht;
        rewrite !bool_decide_eq_false_2 by (intros [= E]; vm_compute in E; done);
        done).
  fold (touched env w (chat_id msg)).
  pose proof (touched_lookup env w _ u Hu) as Hu0.
  assert (trace (touched env w (chat_id msg)) = trace w) as Htr by done.
  revert Hu0 Htr. generalize (touched env w (chat_id msg)). intros w0 Hu0 Htr.
  split; [|split; [|split]].
  - intros Hs.
    assert (onStep msg u = statusAndAbout (chat_id msg) (Some MY_STATUS)) as ->.
    { unfold onStep. rewrite Ht. by destruct Hs as [-> | ->]. }
    unfold statusAndAbout, textIs.
    rewrite (bool_decide_eq_true_2 (Some MY_STATUS = Some MY_STATUS)) by done.
    unfold mbind, M_bind, get, getFeeOf, sendMessage, call. cbv beta iota.
    rewrite Hu0. unfold statusNotice. cbn [status set_lastActivity].
    destruct (status u) eqn:Hst; cbv beta iota.
    all: try rewrite (bool_decide_eq_false_2 (_ = approved)) by done.
    all: try rewrite (bool_decide_eq_true_2 (approved = approved)) by done.
    all: rewrite ?Hu0.
    all: try (destruct (getFee_cases (now env)
                          (set_lastActivity (Some (now env)) u))
                as [[_ E]|[(_ & _ & E)|(_ & _ & E)]]; rewrite E);
      cbn [fst snd]; store.
    all: split;
      [ match goal with |- context [delivers ?e ?n] =>
          destruct (delivers e n) end;
        cbn [snd]; store; by rewrite ?lookup_insert_eq
      | intros Hd; rewrite Hd; cbn [snd]; store; by rewrite Htr ].
  - intros Hs. unfold onStep. rewrite Hs, Ht.
    change (tooShort (Some MY_STATUS)) with false. cbv iota.
    change (Js.trim <$> Some MY_STATUS) with (Some MY_STATUS).
    unfold statusAndAbout, textIs.
    rewrite (bool_decide_eq_true_2 (Some MY_STATUS = Some MY_STATUS)) by done.
    split.
    + match goal with |- users (snd (?m ?e ?w1)) !! _ = Some ?r =>
        change (post m e w1 (λ _ w', users w' !! chat_id msg = Some r)) end.
      wp; store;
        repeat match goal with
        | H : context [alter _ _ _ !! _] |- _ =>
            rewrite lookup_alter_eq, Hu0 in H; cbn in H;
            first [discriminate H | injection H as <-]
        | H : status _ = _ |- _ => cbn in H; discriminate H
        end; try discriminate; by rewrite ?lookup_alter_eq, Hu0.
    + intros Hd.
      match goal with |- trace (snd (?m ?e ?w1)) = ?r =>
        change (post m e w1 (λ _ w', trace w' = r)) end.
      wp_reliable Hd; store;
        repeat match goal with
        | H : context [alter _ _ _ !! _] |- _ =>
            rewrite lookup_alter_eq, Hu0 in H; cbn in H;
            first [discriminate H | injection H as <-]
        | H : status _ = _ |- _ => cbn in H; discriminate H
        end; try discriminate.
      all: rewrite Htr; by rewrite <- !app_assoc.
  - intros Hs. unfold onStep. rewrite Hs, Ht.
    change (tooShort (Some MY_STATUS)) with false. cbv iota.
    change (Js.trim <$> Some MY_STATUS) with (Some MY_STATUS).
    split.
    + match goal with |- users (snd (?m ?e ?w1)) !! _ = Some ?r =>
        change (post m e w1 (λ _ w', users w' !! chat_id msg = Some r)) end.
      wp; store; by rewrite lookup_alter_eq, Hu0.
    + intros Hd.
      match goal with |- trace (snd (?m ?e ?w1)) = ?r =>
        change (post m e w1 (λ _ w', trace w' = r)) end.
      wp_reliable Hd. store. rewrite Htr. by rewrite <- !app_assoc.
  - intros s n Hin Hs Hc. unfold onStep. rewrite Hs, Ht, Hc.
    repeat (apply elem_of_cons in Hin as [[= -> ->]|Hin]);
      [| | |by apply elem_of_nil in Hin].
    + cbv iota.
      change (negb (noText (Some MY_STATUS)) && negb (textIs (Some MY_STATUS) BACK)
              && negb (textIs (Some MY_STATUS) CANCEL)) with true.
      cbv iota. change (isValidPhone MY_STATUS) with false.
      cbn [negb]. cbv iota.
      unfold sendMessage, call.
      split; [destruct (delivers env (calls w0)); cbn [snd]; store; exact Hu0|].
      intros Hd. rewrite Hd. cbn [snd]. store. by rewrite Htr.
    + change (noText (Some MY_STATUS)
              || Js.eqb (Js.toLowerCase (default [] (Some MY_STATUS))) (Js.lit "skip"))
        with false.
      cbv iota. change (isValidYouTubeUrl (Some MY_STATUS)) with false.
      cbn [negb]. cbv iota.
      unfold sendMessage, call.
      split; [destruct (delivers env (calls w0)); cbn [snd]; store; exact Hu0|].
      intros Hd. rewrite Hd. cbn [snd]. store. by rewrite Htr.
    + change (isValidEmail (Some MY_STATUS)) with (Normal false).
      unfold mbind, M_bind, complete. cbn [negb]. cbv iota.
      unfold sendMessage, call.
      split; [destruct (delivers env (calls w0)); cbn [snd]; store; exact Hu0|].
      intros Hd. rewrite Hd. cbn [snd]. store. by rewrite Htr.
Qed.

(** A witness of [status_button]: applicant 42 is asked for the subject
    and presses [My Status]. *)
Lemma status_button_witness :
  let msg := mkMessage 42 42 (Some MY_STATUS) None in
  let w := runEvents sampleEnv (take 6 registrationEvents) initialWorld in
  let w' := snd (onMessage msg sampleEnv w) in
  (step <$> users w !! 42) = Some (Some step_subject)
  ∧ (subject <$> users w' !! 42) = Some (Some MY_STATUS)
  ∧ (status <$> users w' !! 42) = Some pending_review
  ∧ trace w' = trace w ++
      [GetChat;
       SendMessage (Chat (Js.Int 42)) (StatusReport pending_review None);
       SendMessage DbChannel (ReviewRequest 42);
       SendMessage (Chat (Js.Int 42)) Submitted].
Proof.
  edestruct (status_button sampleEnv
               (runEvents sampleEnv (take 6 registrationEvents) initialWorld)
               (mkMessage 42 42 (Some MY_STATUS) None))
    as (_ & H & _); [vm_compute; reflexivity ..|].
  destruct H as [H1 H2]; [vm_compute; reflexivity|].
  cbv zeta. cbn [chat_id] in H1, H2.
  split; [vm_compute; reflexivity|]. rewrite H1.
  split; [reflexivity|]. split; [reflexivity|].
  apply H2. intros n. reflexivity.
Defined.

(** X14.  At the phone step a shared contact is used only when it is the
    sender's own: then its number, if valid, is stored as it was given and
    the step advances; the contact of somebody else, without a text, is
    answered with the request to use the button and stores nothing. *)
Theorem phone_step_contact
    (env : Env) (w : World) (msg : Message) (u : User) (c : Contact) :
  contact msg = Some c →
  users w !! chat_id msg = Some u →
  step u = Some step_phone →
  admitted env w (chat_id msg) = true →
  redirected env w msg = false →
  isControl (text msg) = false →
  let w' := snd (onMessage msg env w) in
  let seen := set_lastActivity (Some (now env)) u in
  (user_id c = Some (chat_id msg) →
     users w' !! chat_id msg
     = Some (if isValidPhone (phone_number c)
             then set_step (Some step_youtube)
                    (set_phone (Some (phone_number c)) seen)
             else seen))
  ∧ (user_id c ≠ Some (chat_id msg) → text msg = None →
     users w' !! chat_id msg = Some seen
     ∧ (delivers env (calls w) = true →
        trace w' = trace w ++
          [SendMessage (Chat (Js.Int (chat_id msg))) UseContactButton])).
Proof.
  intros Hc Hu Hs Ha Hr Hctl. cbv zeta.
  rewrite (onMessage_reaches_steps env w msg u Hu Ha Hr Hctl).
  fold (touched env w (chat_id msg)).
  pose proof (touched_lookup env w _ u Hu) as Hu0.
  assert (trace (touched env w (chat_id msg)) = trace w) as Htr by done.
  assert (calls (touched env w (chat_id msg)) = calls w) as Hcl by done.
  revert Hu0 Htr Hcl. generalize (touched env w (chat_id msg)).
  intros w0 Hu0 Htr Hcl.
  unfold onStep. rewrite Hs, Hc. split.
  - intros Hid. rewrite bool_decide_eq_true_2 by done.
    match goal with |- users (snd (?m ?e ?w1)) !! _ = Some ?r =>
      change (post m e w1 (λ _ w', users w' !! chat_id msg = Some r)) end.
    destruct (isValidPhone (phone_number c)); cbn [negb];
      wp; store; by rewrite ?lookup_alter_eq, Hu0.
  - intros Hid Ht. rewrite bool_decide_eq_false_2 by done. rewrite Ht.
    cbn [noText negb andb]. unfold sendMessage, call. rewrite Hcl.
    destruct (delivers env (calls w)); cbn [snd]; store; (split; [done|]);
      [intros _; by rewrite Htr|done].
Qed.

(** A witness of [phone_step_contact]: applicant 42 shares the contact of
    actor 7. *)
Lemma phone_step_contact_witness :
  let msg := mkMessage 42 42 None (Some (mkContact (Some 7) (Js.lit "0912345678"))) in
  let w := set_users {[42 := collectingAt step_phone]} initialWorld in
  users (snd (onMessage msg sampleEnv w)) !! 42
  = Some (set_lastActivity (Some 5000) (collectingAt step_phone))
  ∧ trace (snd (onMessage msg sampleEnv w))
    = [SendMessage (Chat (Js.Int 42)) UseContactButton].
Proof.
  edestruct (phone_step_contact sampleEnv
               (set_users {[42 := collectingAt step_phone]} initialWorld)
               (mkMessage 42 42 None
                  (Some (mkContact (Some 7) (Js.lit "0912345678"))))
               (collectingAt step_phone)
               (mkContact (Some 7) (Js.lit "0912345678")))
    as [_ H]; [vm_compute; reflexivity ..|].
  destruct H as [H1 H2]; [vm_compute; discriminate|reflexivity|].
  split; [exact H1|]. apply H2. reflexivity.
Defined.

(** X15.  At the subject step a text of at least two code units that is
    not a button submits the application: the handler completes and the
    session awaits review with the trimmed subject, whatever the transport
    does to the notifications; over a transport that delivers, the channel
    is queried, the review request goes to the channel and the
    confirmation to the applicant, in this order. *)
Theorem subject_step_submits
    (env : Env) (w : World) (msg : Message) (u : User) (s : Js.JsString) :
  text msg = Some s → (2 ≤ length s)%nat →
  s ≠ REGISTER → s ≠ CANCEL → s ≠ BACK → s ≠ MY_STATUS → s ≠ ABOUT →
  users w !! chat_id msg = Some u →
  step u = Some step_subject →
  admitted env w (chat_id msg) = true →
  redirected env w msg = false →
  let w' := snd (onMessage msg env w) in
  fst (onMessage msg env w) = Normal ()
  ∧ users w' !! chat_id msg
    = Some (set_status pending_review
              (set_step (Some step_completed)
                 (set_subject (Some (Js.trim s))
                    (set_lastActivity (Some (now env)) u))))
  ∧ (reliable env →
     trace w' = trace w ++
       [GetChat; SendMessage DbChannel (ReviewRequest (chat_id msg));
        SendMessage (Chat (Js.Int (chat_id msg))) Submitted]).
Proof.
  intros Ht Hlen Hreg Hcan Hback Hst Hab Hu Hs Ha Hr. cbv zeta.
  rewrite (onMessage_reaches_steps env w msg u Hu Ha Hr)
    by (unfold isControl, textIs; rewrite Ht;
        rewrite !bool_decide_eq_false_2 by congruence; done).
  fold (touched env w (chat_id msg)).
  pose proof (touched_lookup env w _ u Hu) as Hu0.
  assert (trace (touched env w (chat_id msg)) = trace w) as Htr by done.
  revert Hu0 Htr. generalize (touched env w (chat_id msg)). intros w0 Hu0 Htr.
  assert (tooShort (text msg) = false) as Hts.
  { unfold tooShort. rewrite Ht. destruct s as [|c [|c' s]]; cbn in *; [lia..|done]. }
  assert (statusAndAbout (chat_id msg) (text msg) = mret ()) as Hsa.
  { unfold statusAndAbout, textIs. rewrite Ht.
    by rewrite !bool_decide_eq_false_2 by congruence. }
  unfold onStep. rewrite Hs, Hts, Hsa. rewrite Ht.
  split; [|split].
  - match goal with |- fst (?m ?e ?w1) = _ =>
      change (post m e w1 (λ c _, c = Normal ())) end.
    wp; done.
  - match goal with |- users (snd (?m ?e ?w1)) !! _ = Some ?r =>
      change (post m e w1 (λ _ w', users w' !! chat_id msg = Some r)) end.
    wp; store; by rewrite lookup_alter_eq, Hu0.
  - intros Hd.
    match goal with |- trace (snd (?m ?e ?w1)) = ?r =>
      change (post m e w1 (λ _ w', trace w' = r)) end.
    wp_reliable Hd. store. rewrite Htr. by rewrite <- !app_assoc.
Qed.

(** A witness of [subject_step_submits]. *)
Lemma subject_step_submits_witness :
  let msg := mkMessage 42 42 (Some (Js.lit " Math ")) None in
  let w := set_users {[42 := collectingAt step_subject]} initialWorld in
  fst (onMessage msg sampleEnv w) = Normal ()
  ∧ users (snd (onMessage msg sampleEnv w)) !! 42
    = Some (set_status pending_review
              (set_step (Some step_completed)
                 (set_subject (Some (Js.trim (Js.lit " Math ")))
                    (set_lastActivity (Some 5000) (collectingAt step_subject)))))
  ∧ trace (snd (onMessage msg sampleEnv w))
    = [GetChat; SendMessage DbChannel (ReviewRequest 42);
       SendMessage (Chat (Js.Int 42)) Submitted].
Proof.
  edestruct (subject_step_submits sampleEnv
               (set_users {[42 := collectingAt step_subject]} initialWorld)
               (mkMessage 42 42 (Some (Js.lit " Math ")) None)
               (collectingAt step_subject) (Js.lit " Math "))
    as (H1 & H2 & H3);
    [vm_compute; (reflexivity || discriminate || lia) ..|].
  split; [exact H1|]. split; [exact H2|]. apply H3. intros n. reflexivity.
Defined.

(** ** Reviewer decisions, further *)

Section NumberOfIntegers.
Import Js.

Lemma Number_negative_digits (ds : JsString) :
  ds ≠ [] → Forall (λ c, isDigit c = true) ds →
  Number (45%N :: ds) = Int (- digitsValue ds).
Proof.
  intros Hne Hds. unfold Number.
  assert (trim (45%N :: ds) = 45%N :: ds) as ->.
  { unfold trim. rewrite (trimStart_id 45) by done.
    change (rev (45%N :: ds)) with (rev ds ++ [45%N]).
    destruct (rev ds) as [|c r] eqn:Hr.
    { apply (f_equal (@rev N)) in Hr. rewrite rev_involutive in Hr. done. }
    assert (isDigit c = true) as Hc.
    { assert (Forall (λ c, isDigit c = true) (c :: r)) as Hall
        by (rewrite <- Hr; by apply List.Forall_rev).
      by apply Forall_inv in Hall. }
    cbn [app]. rewrite trimStart_id by (by apply digit_not_space).
    change (rev (c :: r ++ [45%N])) with (rev ((c :: r) ++ [45%N])).
    rewrite <- Hr, rev_app_distr, rev_involutive. done. }
  destruct ds as [|c ds]; [done|].
  pose proof (Forall_inv Hds) as Hc. cbn beta in Hc.
  unfold isDigit in Hc. apply andb_true_iff in Hc as [Hc1 Hc2].
  apply N.leb_le in Hc1. apply N.leb_le in Hc2.
  assert (nonDecimalLiteral (45%N :: c :: ds) = None) as ->.
  { unfold nonDecimalLiteral. rewrite !(proj2 (N.eqb_neq c _)) by lia. done. }
  unfold decimalLiteral, signOf. cbn [N.eqb Pos.eqb].
  unfold eqb. rewrite bool_decide_eq_false_2.
  2:{ intros [= -> _]. vm_compute in Hc2. done. }
  pose proof (spanDigits_app (c :: ds) [] Hds I) as Hsp.
  rewrite app_nil_r in Hsp. rewrite Hsp, app_nil_r.
  cbn [exponentPart length Z.of_nat]. unfold scale.
  destruct (digitsValue (c :: ds) =? 0) eqn:Hz.
  - apply Z.eqb_eq in Hz. by rewrite Hz.
  - cbn. f_equal. destruct (digitsValue (c :: ds)); lia.
Qed.

(** [Number(String(z))] is [z], for every integer. *)
Lemma Number_ofZ_all (z : Z) : Number (ofZ z) = Int z.
Proof.
  destruct (Z.ltb_spec z 0) as [Hz|Hz]; [|by apply Number_ofZ].
  unfold ofZ. rewrite (proj2 (Z.ltb_lt z 0)) by done.
  rewrite Number_negative_digits by (apply ofN_nonempty || apply ofN_digits).
  rewrite ofN_value. f_equal. lia.
Qed.

Lemma split_cons_sep (sep : N) (a b : JsString) :
  Forall (λ c, c ≠ sep) a → split sep (a ++ sep :: b) = a :: split sep b.
Proof.
  induction 1 as [|c a Hc _ IH]; cbn [app split].
  - by rewrite N.eqb_refl.
  - rewrite (proj2 (N.eqb_neq c sep)) by done. by rewrite IH.
Qed.

Lemma ofZ_no_underscore (z : Z) : Forall (λ c, c ≠ 95%N) (ofZ z).
Proof.
  assert (∀ n, Forall (λ c, c ≠ 95%N) (ofN n)) as Hn.
  { intros n. eapply List.Forall_impl; [|apply ofN_digits]. intros c Hc ->. done. }
  unfold ofZ. destruct (z <? 0); [constructor; [done|]|]; apply Hn.
Qed.

(** The target is read back from callback data made of an action, an
    underscore and the decimal identity. *)
Lemma targetOf_minted (action : string) (caller chatId : Z) :
  Forall (λ c, c ≠ 95%N) (lit action) →
  targetOf (mkQuery caller ((lit action ++ [95%N]) ++ ofZ chatId)) = Int chatId.
Proof.
  intros Ha. unfold targetOf. cbn [data].
  rewrite <- app_assoc. cbn [app].
  rewrite split_cons_sep by done.
  rewrite split_single by apply ofZ_no_underscore.
  cbn. apply Number_ofZ_all.
Qed.

End NumberOfIntegers.

(** X16.  The callback data that the review request puts on its three
    buttons leads back to the applicant: for every identity, negative ones
    included, each of the three strings is dispatched to its own branch and
    decoded there to that identity. *)
Theorem reviewButtons_roundtrip (chatId caller : Z) :
  Forall (λ d, targetOf (mkQuery caller d) = Js.Int chatId) (reviewButtons chatId)
  ∧ ∀ env w,
      map (λ d, onCallbackQuery (mkQuery caller d) env w) (reviewButtons chatId)
      = [onReply (mkQuery caller (Js.lit "reply_" ++ Js.ofZ chatId)) env w;
         onApprove (mkQuery caller (Js.lit "approve_" ++ Js.ofZ chatId)) env w;
         onReject (mkQuery caller (Js.lit "reject_" ++ Js.ofZ chatId)) env w].
Proof.
  split.
  - repeat constructor.
    + apply (targetOf_minted "reply"). vm_compute. repeat constructor; done.
    + apply (targetOf_minted "approve"). vm_compute. repeat constructor; done.
    + apply (targetOf_minted "reject"). vm_compute. repeat constructor; done.
  - intros env w. reflexivity.
Qed.

(** X17.  The reply mode is a round trip: after the reviewer pressed the
    reply button of applicant [k], the reviewer's next message, whatever
    its text, goes to [k] and to nobody else, is confirmed to the reviewer,
    ends the mode and changes no session. *)
Theorem reply_roundtrip
    (env1 env2 : Env) (w : World) (admin k : Z) (msg : Message) :
  ADMIN_ID env1 = Js.Int admin → ADMIN_ID env2 = Js.Int admin →
  reliable env1 → reliable env2 →
  k ≠ 0 → from_id msg = admin →
  admitted env2 w (chat_id msg) = true →
  let q := mkQuery admin (Js.lit "reply_" ++ Js.ofZ k) in
  let w1 := snd (onCallbackQuery q env1 w) in
  let w2 := snd (onMessage msg env2 w1) in
  adminReplyTarget w1 = Some (Js.Int k)
  ∧ adminReplyTarget w2 = None
  ∧ users w2 = users w
  ∧ trace w2 = trace w ++
      [AnswerCallbackQuery ReplyModeActivated;
       SendMessage (Chat (Js.Int admin)) TypeYourReply;
       SendMessage (Chat (Js.Int k)) (AdminMessage (text msg));
       SendMessage (Chat (Js.Int admin)) ReplyDelivered].
Proof.
  intros Ha1 Ha2 Hd1 Hd2 Hk Hf Hadm. cbv zeta.
  assert (targetOf (mkQuery admin (Js.lit "reply_" ++ Js.ofZ k)) = Js.Int k) as Ht.
  { apply (targetOf_minted "reply"). vm_compute. repeat constructor; done. }
  assert (onCallbackQuery (mkQuery admin (Js.lit "reply_" ++ Js.ofZ k)) env1 w
          = (Normal (),
             set_trace (trace w ++ [AnswerCallbackQuery ReplyModeActivated;
                          SendMessage (Chat (Js.Int admin)) TypeYourReply])
               (set_calls (S (S (calls w)))
                  (set_adminReplyTarget (Some (Js.Int k)) w)))) as E1.
  { change (onCallbackQuery (mkQuery admin (Js.lit "reply_" ++ Js.ofZ k)))
      with (onReply (mkQuery admin (Js.lit "reply_" ++ Js.ofZ k))).
    unfold onReply, mbind, M_bind, ask, modify, sendMessage, call, isAdmin.
    cbn [query_from]. rewrite Ha1, bool_decide_eq_true_2 by done. cbn [negb].
    rewrite Ht. store. rewrite !Hd1. store. by rewrite <- app_assoc. }
  rewrite E1. cbn [snd]. store. split; [done|].
  match goal with |- context [onMessage msg env2 ?w1] =>
    assert (onMessage msg env2 w1
            = (Normal (),
               set_adminReplyTarget None
                 (set_trace ((trace w1 ++
                     [SendMessage (Chat (Js.Int k)) (AdminMessage (text msg))]) ++
                     [SendMessage (Chat (Js.Int admin)) ReplyDelivered])
                    (set_calls (S (S (calls w1)))
                       (set_rateLimit
                          (<[chat_id msg := nextLimits (now env2)
                                              (rateLimit w !! chat_id msg)]>
                             (rateLimit w)) w1))))) as E2
  end.
  { unfold onMessage, mbind, M_bind, checkRateLimit, ask, get, modify,
      sendMessage, call. store.
    fold (admitted env2 w (chat_id msg)). rewrite Hadm. cbn [negb].
    unfold replyPending. store. rewrite Hf, Ha2, bool_decide_eq_true_2 by done.
    cbn [Js.truthy andb]. rewrite (proj2 (Z.eqb_neq k 0)) by done. cbn [negb].
    store. rewrite !Hd2. store. done. }
  rewrite E2. cbn [snd]. store. split; [done|]. split; [done|].
  by rewrite <- !app_assoc.
Qed.

(** A witness of [reply_roundtrip]: the reviewer (identity 1) answers
    applicant 42. *)
Lemma reply_roundtrip_witness :
  let q := mkQuery 1 (Js.lit "reply_" ++ Js.ofZ 42) in
  let msg := mkMessage 1 1 (Some (Js.lit "Welcome aboard")) None in
  let w1 := snd (onCallbackQuery q sampleEnv sampleWorld) in
  let w2 := snd (onMessage msg sampleEnv w1) in
  adminReplyTarget w1 = Some (Js.Int 42)
  ∧ adminReplyTarget w2 = None
  ∧ users w2 = users sampleWorld
  ∧ trace w2 = trace sampleWorld ++
      [AnswerCallbackQuery ReplyModeActivated;
       SendMessage (Chat (Js.Int 1)) TypeYourReply;
       SendMessage (Chat (Js.Int 42)) (AdminMessage (text msg));
       SendMessage (Chat (Js.Int 1)) ReplyDelivered].
Proof.
  apply (reply_roundtrip sampleEnv sampleEnv sampleWorld 1 42
           (mkMessage 1 1 (Some (Js.lit "Welcome aboard")) None));
    try (intros n); vm_compute; (reflexivity || discriminate).
Defined.

(** X18.  The reply and reject branches are closed to everybody but the
    reviewer: for such a caller the sessions, the reply target and the
    processed references stay as they were, and the only effect is the
    answer [Unauthorized]. *)
Theorem reply_reject_refused (env : Env) (w : World) (q : Query) :
  isAdmin env (query_from q) = false →
  Js.startsWith (Js.lit "approve_") (data q) = false →
  let w' := snd (onCallbackQuery q env w) in
  users w' = users w ∧ adminReplyTarget w' = adminReplyTarget w
  ∧ processedTransactions w' = processedTransactions w
  ∧ (Js.startsWith (Js.lit "reply_") (data q) = true
     ∨ Js.startsWith (Js.lit "reject_") (data q) = true →
     delivers env (calls w) = true →
     trace w' = trace w ++ [AnswerCallbackQuery Unauthorized]).
Proof.
  intros Hna Hp. cbv zeta.
  change (post (onCallbackQuery q) env w
            (λ _ w', users w' = users w ∧ adminReplyTarget w' = adminReplyTarget w
  ∧ processedTransactions w' = processedTransactions w
  ∧ (Js.startsWith (Js.lit "reply_") (data q) = true
     ∨ Js.startsWith (Js.lit "reject_") (data q) = true →
     delivers env (calls w) = true →
     trace w' = trace w ++ [AnswerCallbackQuery Unauthorized]))).
  unfold onCallbackQuery. rewrite Hp.
  destruct (Js.startsWith (Js.lit "reply_") (data q)) eqn:Hrep.
  - unfold onReply. wp_step. wp_step. rewrite Hna. cbn [negb].
    unfold post, call. destruct (delivers env (calls w)); done.
  - destruct (Js.startsWith (Js.lit "reject_") (data q)) eqn:Hrej.
    + unfold onReject. wp_step. wp_step. rewrite Hna. cbn [negb].
      unfold post, call. destruct (delivers env (calls w)); done.
    + wp. repeat split; try done. intros [?|?]; done.
Qed.

(** A witness of [reply_reject_refused]: identity 666 presses the reject
    button of applicant 42. *)
Lemma reply_reject_refused_witness :
  let q := mkQuery 666 (Js.lit "reject_42") in
  users (snd (onCallbackQuery q sampleEnv sampleWorld)) = users sampleWorld
  ∧ trace (snd (onCallbackQuery q sampleEnv sampleWorld))
    = [AnswerCallbackQuery Unauthorized].
Proof.
  edestruct (reply_reject_refused sampleEnv sampleWorld
               (mkQuery 666 (Js.lit "reject_42")))
    as (H1 & _ & _ & H4); [vm_compute; reflexivity ..|].
  split; [exact H1|]. apply H4; [right|]; reflexivity.
Defined.

(** X19.  A decision on a target that has no session (an unknown identity,
    or callback data whose second segment is not an integer) is answered
    with the alert that the user was not found and changes nothing: for
    the approve branch whoever the caller is, for the reject branch when
    the caller is the reviewer. *)
Theorem unknown_target_reported (env : Env) (w : World) (q : Query) :
  lookupNum (users w) (targetOf q) = None →
  Js.startsWith (Js.lit "approve_") (data q) = true
  ∨ (Js.startsWith (Js.lit "reject_") (data q) = true
     ∧ isAdmin env (query_from q) = true) →
  let w' := snd (onCallbackQuery q env w) in
  users w' = users w ∧ adminReplyTarget w' = adminReplyTarget w
  ∧ processedTransactions w' = processedTransactions w
  ∧ (delivers env (calls w) = true →
     trace w' = trace w ++ [AnswerCallbackQuery UserNotFound]).
Proof.
  intros Hl Hb. cbv zeta.
  change (post (onCallbackQuery q) env w
            (λ _ w', users w' = users w ∧ adminReplyTarget w' = adminReplyTarget w
                     ∧ processedTransactions w' = processedTransactions w
                     ∧ (delivers env (calls w) = true →
                        trace w' = trace w ++ [AnswerCallbackQuery UserNotFound]))).
  unfold onCallbackQuery.
  destruct (Js.startsWith (Js.lit "approve_") (data q)) eqn:Hp.
  - unfold onApprove. wp_step. wp_step. rewrite Hl. cbv beta iota.
    unfold post, call. destruct (delivers env (calls w)); done.
  - destruct Hb as [?|[Hr Ha]]; [done|].
    destruct (Js.startsWith (Js.lit "reply_") (data q)) eqn:Hrep.
    { exfalso. apply startsWith_spec in Hr as [b Hb], Hrep as [b' Hb'].
      rewrite Hb in Hb'. apply (f_equal (λ l, nth 2 l 0%N)) in Hb'.
      vm_compute in Hb'. done. }
    rewrite Hr. unfold onReject. wp_step. wp_step. rewrite Ha. cbn [negb].
    wp_step. wp_step. rewrite Hl. cbv beta iota.
    unfold post, call. destruct (delivers env (calls w)); done.
Qed.

(** A witness of [unknown_target_reported]: nobody has identity 7. *)
Lemma unknown_target_reported_witness :
  let q := mkQuery 1 (Js.lit "approve_7") in
  users (snd (onCallbackQuery q sampleEnv sampleWorld)) = users sampleWorld
  ∧ trace (snd (onCallbackQuery q sampleEnv sampleWorld))
    = [AnswerCallbackQuery UserNotFound].
Proof.
  edestruct (unknown_target_reported sampleEnv sampleWorld
               (mkQuery 1 (Js.lit "approve_7")))
    as (H1 & _ & _ & H4); [vm_compute; reflexivity|left; reflexivity|].
  split; [exact H1|]. apply H4. reflexivity.
Defined.

(** X20.  An approval is not undone when no payment link is obtained: if
    the gateway fails or answers without success, the handler completes,
    the session stays [approved] with its minted reference, the error is
    logged, the applicant is told that the link could not be generated and
    the reviewer is alerted; the review message is not edited. *)
Theorem onApprove_link_failure
    (env : Env) (w : World) (q : Query) (k : Z) (u : User) (e : Exn) :
  Js.startsWith (Js.lit "approve_") (data q) = true →
  lookupNum (users w) (targetOf q) = Some (k, u) →
  is_Some (name u) →
  checkoutError (initializeCheckout env) = Some e →
  reliable env →
  let w' := snd (onCallbackQuery q env w) in
  fst (onCallbackQuery q env w) = Normal ()
  ∧ (∃ u', users w' !! k = Some u' ∧ status u' = approved
           ∧ tx_ref u' = Some (mintRef "tx-" (now env) (Js.Int k)))
  ∧ trace w' = trace w ++
      [ConsoleError e; SendMessage (Chat (Js.Int k)) PaymentLinkFailed;
       AnswerCallbackQuery PaymentLinkFailedAlert].
Proof.
  intros Hp Hl [n Hn] He Hd. cbv zeta.
  split; [|split; [by apply (onApprove_mints env w q k u)|]].
  - change (post (onCallbackQuery q) env w (λ c _, c = Normal ())).
    unfold onCallbackQuery. rewrite Hp. unfold onApprove.
    wp_step. wp_step. rewrite Hl. cbv beta iota.
    wp_step. wp_step. wp_step. wp_step. wp_step. wp_step. rewrite Hn.
    wp_step. destruct (initializeCheckout env) as [|[]]; try done;
      wp_reliable Hd; done.
  - change (post (onCallbackQuery q) env w
              (λ _ w', trace w' = trace w ++
                 [ConsoleError e; SendMessage (Chat (Js.Int k)) PaymentLinkFailed;
                  AnswerCallbackQuery PaymentLinkFailedAlert])).
    unfold onCallbackQuery. rewrite Hp. unfold onApprove.
    wp_step. wp_step. rewrite Hl. cbv beta iota.
    apply lookupNum_Some in Hl as [Ht Hu]. rewrite Ht.
    wp_step. wp_step. wp_step. wp_step. wp_step. wp_step. rewrite Hn.
    wp_step. destruct (initializeCheckout env) as [|[]]; try done;
      injection He as <-; wp_reliable Hd; store; by rewrite <- !app_assoc.
Qed.

(** A witness of [onApprove_link_failure]: the gateway cannot be
    reached. *)
Lemma onApprove_link_failure_witness :
  let env := {| now := 5000; ADMIN_ID := Js.Int 1; delivers := λ _, true;
                verifyTransaction := λ _, VerifyFails;
                initializeCheckout := CheckoutFails |} in
  let q := mkQuery 1 (Js.lit "approve_42") in
  fst (onCallbackQuery q env sampleWorld) = Normal ()
  ∧ (∃ u', users (snd (onCallbackQuery q env sampleWorld)) !! 42 = Some u'
           ∧ status u' = approved
           ∧ tx_ref u' = Some (mintRef "tx-" 5000 (Js.Int 42)))
  ∧ trace (snd (onCallbackQuery q env sampleWorld)) = trace sampleWorld ++
      [ConsoleError GatewayError;
       SendMessage (Chat (Js.Int 42)) PaymentLinkFailed;
       AnswerCallbackQuery PaymentLinkFailedAlert].
Proof.
  apply (onApprove_link_failure
           {| now := 5000; ADMIN_ID := Js.Int 1; delivers := λ _, true;
              verifyTransaction := λ _, VerifyFails;
              initializeCheckout := CheckoutFails |}
           sampleWorld (mkQuery 1 (Js.lit "approve_42")) 42 sampleApplicant
           GatewayError);
    try (intros n); vm_compute; (reflexivity || eauto).
Defined.

(** X21.  Approving a session that holds no name (one that has not passed
    the name step) throws a [TypeError] while the payment request is
    built: by then the session is [approved] and carries a minted
    reference, and nothing is sent to anybody. *)
Theorem onApprove_without_name
    (env : Env) (w : World) (q : Query) (k : Z) (u : User) :
  Js.startsWith (Js.lit "approve_") (data q) = true →
  lookupNum (users w) (targetOf q) = Some (k, u) →
  name u = None →
  let w' := snd (onCallbackQuery q env w) in
  fst (onCallbackQuery q env w) = Throw TypeError
  ∧ (∃ u', users w' !! k = Some u' ∧ status u' = approved
           ∧ tx_ref u' = Some (mintRef "tx-" (now env) (Js.Int k)))
  ∧ trace w' = trace w.
Proof.
  intros Hp Hl Hn. cbv zeta.
  split; [|split; [by apply (onApprove_mints env w q k u)|]].
  - change (post (onCallbackQuery q) env w (λ c _, c = Throw TypeError)).
    unfold onCallbackQuery. rewrite Hp. unfold onApprove.
    wp_step. wp_step. rewrite Hl. cbv beta iota.
    wp_step. wp_step. wp_step. wp_step. wp_step. wp_step. rewrite Hn.
    wp. done.
  - change (post (onCallbackQuery q) env w (λ _ w', trace w' = trace w)).
    unfold onCallbackQuery. rewrite Hp. unfold onApprove.
    wp_step. wp_step. rewrite Hl. cbv beta iota.
    wp_step. wp_step. wp_step. wp_step. wp_step. wp_step. rewrite Hn.
    wp. done.
Qed.

(** A witness of [onApprove_without_name]: actor 7 has only sent
    [/start]. *)
Lemma onApprove_without_name_witness :
  let w := set_users {[7 := freshUser 1000]} initialWorld in
  let q := mkQuery 1 (Js.lit "approve_7") in
  fst (onCallbackQuery q sampleEnv w) = Throw TypeError
  ∧ (∃ u', users (snd (onCallbackQuery q sampleEnv w)) !! 7 = Some u'
           ∧ status u' = approved
           ∧ tx_ref u' = Some (mintRef "tx-" 5000 (Js.Int 7)))
  ∧ trace (snd (onCallbackQuery q sampleEnv w)) = trace w.
Proof.
  apply (onApprove_without_name sampleEnv
           (set_users {[7 := freshUser 1000]} initialWorld)
           (mkQuery 1 (Js.lit "approve_7")) 7 (freshUser 1000));
    vm_compute; reflexivity.
Defined.

(** ** The webhook, further *)

(** X22.  The webhook finalises on the gateway's word alone: for a new
    reference that the gateway confirms and whose last segment names a
    stored session, that session becomes [payment_verified] with the
    confirmed amount, the commission and the payment date, whatever its
    status, its stored reference and its fee were, and keeps its other
    fields; no other session changes, the reference is marked processed,
    owner and reviewer are notified in this order, and the answer is
    200. *)
Theorem verify_finalises
    (env : Env) (w : World) (ref : Js.JsString) (d : PaymentData) (k : Z) (u : User) :
  ref ≠ [] → (ref ∉ processedTransactions w) → confirmed env ref d →
  ownerOf ref = Js.Int k → users w !! k = Some u →
  reliable env →
  let w' := snd (verify (Some ref) env w) in
  fst (verify (Some ref) env w) = Normal (mkResponse 200 Success)
  ∧ (∃ u', users w' !! k = Some u'
           ∧ status u' = payment_verified
           ∧ paidAmount u' = Some (amount d)
           ∧ commission u' = Some (amount d * 0.55)%float
           ∧ paymentDate u' = Some (now env)
           ∧ sameApartFrom [f_status; f_paidAmount; f_commission; f_paymentDate]
               u u')
  ∧ (∀ j, j ≠ k → users w' !! j = users w !! j)
  ∧ processedTransactions w' = ({[ref]} ∪ processedTransactions w)
  ∧ trace w' = trace w ++
      [SendMessage (Chat (Js.Int k)) (PaymentVerified (amount d));
       SendMessage (Chat (ADMIN_ID env)) (PaymentReceived (amount d) ref)].
Proof.
  intros Hne Hnew Hc Ho Hu Hd. cbv zeta.
  rewrite (verify_confirmed_run env w ref d k u) by done.
  unfold try_catch, mbind, M_bind, sendMessage, call, mret, M_ret.
  store. repeat (rewrite Hd; store).
  cbn [fst snd]. store. split; [done|]. split.
  { rewrite lookup_insert_eq. eexists. split; [reflexivity|].
    split; [reflexivity|]. split; [reflexivity|]. split; [reflexivity|].
    split; [reflexivity|]. apply sameApartFrom_markPaid. }
  split; [intros j Hj; by rewrite lookup_insert_ne|].
  split; [done|]. by rewrite <- app_assoc.
Qed.

(** A witness of [verify_finalises]: a confirmed reference that was never
    minted finalises the session of applicant 42, who has not been
    approved. *)
Lemma verify_finalises_witness :
  let ref := Js.lit "anything-42" in
  let w' := snd (verify (Some ref) sampleEnv sampleWorld) in
  fst (verify (Some ref) sampleEnv sampleWorld) = Normal (mkResponse 200 Success)
  ∧ (∃ u', users w' !! 42 = Some u'
           ∧ status u' = payment_verified
           ∧ paidAmount u' = Some 99%float
           ∧ commission u' = Some 54.45%float
           ∧ paymentDate u' = Some 5000
           ∧ sameApartFrom [f_status; f_paidAmount; f_commission; f_paymentDate]
               sampleApplicant u')
  ∧ (∀ j, j ≠ 42 → users w' !! j = users sampleWorld !! j)
  ∧ processedTransactions w' = ({[ref]} ∪ processedTransactions sampleWorld)
  ∧ trace w' = trace sampleWorld ++
      [SendMessage (Chat (Js.Int 42)) (PaymentVerified (99%float));
       SendMessage (Chat (Js.Int 1)) (PaymentReceived (99%float) ref)].
Proof.
  apply (verify_finalises sampleEnv sampleWorld (Js.lit "anything-42")
           {| pstatus := Js.lit "success"; amount := 99%float |} 42 sampleApplicant).
  - discriminate.
  - apply not_elem_of_empty.
  - split; reflexivity.
  - vm_compute. reflexivity.
  - vm_compute. reflexivity.
  - intros n. reflexivity.
Defined.


(** X23.  When the notification of the owner is not delivered, the payment
    is recorded all the same and the reference marked processed, the error
    is logged and the answer is 500; the reviewer is not notified, and a
    retry of the gateway is answered as already processed, so that nobody
    is notified later either. *)
Theorem verify_notification_failure
    (env env2 : Env) (w : World) (ref : Js.JsString) (d : PaymentData)
    (k : Z) (u : User) :
  ref ≠ [] → (ref ∉ processedTransactions w) → confirmed env ref d →
  ownerOf ref = Js.Int k → users w !! k = Some u →
  delivers env (calls w) = false →
  let w' := snd (verify (Some ref) env w) in
  fst (verify (Some ref) env w) = Normal (mkResponse 500 InternalServerError)
  ∧ users w' = (<[k := markPaid (now env) (amount d) u]> (users w))
  ∧ processedTransactions w' = ({[ref]} ∪ processedTransactions w)
  ∧ trace w' = trace w ++ [ConsoleError TransportError]
  ∧ verify (Some ref) env2 w' = (Normal (mkResponse 200 AlreadyProcessed), w').
Proof.
  intros Hne Hnew Hc Ho Hu Hd. cbv zeta.
  rewrite (verify_confirmed_run env w ref d k u) by done.
  unfold try_catch, mbind, M_bind, sendMessage, call, logError, modify, mret, M_ret.
  store. rewrite Hd. store.
  split; [done|]. split; [done|]. split; [done|]. split; [done|].
  apply verify_already_processed; [done|]. store.
  apply elem_of_union_l. by apply elem_of_singleton.
Qed.

(** A witness of [verify_notification_failure]: the transport is down. *)
Lemma verify_notification_failure_witness :
  let env := {| now := 5000; ADMIN_ID := Js.Int 1; delivers := λ _, false;
                verifyTransaction :=
                  λ _, VerifyData (Some {| pstatus := Js.lit "success";
                                           amount := 99%float |});
                initializeCheckout := CheckoutFails |} in
  let ref := Js.lit "tx-5000-42" in
  let w' := snd (verify (Some ref) env sampleWorld) in
  fst (verify (Some ref) env sampleWorld)
  = Normal (mkResponse 500 InternalServerError)
  ∧ users w' = (<[42 := markPaid 5000 (99%float) sampleApplicant]> (users sampleWorld))
  ∧ processedTransactions w' = ({[ref]} ∪ processedTransactions sampleWorld)
  ∧ trace w' = trace sampleWorld ++ [ConsoleError TransportError]
  ∧ verify (Some ref) sampleEnv w' = (Normal (mkResponse 200 AlreadyProcessed), w').
Proof.
  apply (verify_notification_failure
           {| now := 5000; ADMIN_ID := Js.Int 1; delivers := λ _, false;
              verifyTransaction :=
                λ _, VerifyData (Some {| pstatus := Js.lit "success";
                                         amount := 99%float |});
              initializeCheckout := CheckoutFails |}
           sampleEnv sampleWorld (Js.lit "tx-5000-42")
           {| pstatus := Js.lit "success"; amount := 99%float |} 42 sampleApplicant).
  - discriminate.
  - apply not_elem_of_empty.
  - split; reflexivity.
  - vm_compute. reflexivity.
  - vm_compute. reflexivity.
  - reflexivity.
Defined.

(** X24.  The webhook changes the sessions or the processed references
    only when it finalises: in every other run both are as before, and
    when they change, the reference is new and confirmed by the gateway,
    it joins the processed set, and its owner alone is marked paid. *)
Theorem verify_mutates_only_on_confirmed_payment
    (env : Env) (w : World) (tx_ref : option Js.JsString) :
  let w' := snd (verify tx_ref env w) in
  (users w' = users w ∧ processedTransactions w' = processedTransactions w)
  ∨ ∃ ref d k u,
      tx_ref = Some ref ∧ (ref ∉ processedTransactions w) ∧ confirmed env ref d
      ∧ ownerOf ref = Js.Int k ∧ users w !! k = Some u
      ∧ users w' = (<[k := markPaid (now env) (amount d) u]> (users w))
      ∧ processedTransactions w' = ({[ref]} ∪ processedTransactions w).
Proof.
  cbv zeta.
  change (post (verify tx_ref) env w
    (λ _ w',
       (users w' = users w ∧ processedTransactions w' = processedTransactions w)
       ∨ ∃ ref d k u,
           tx_ref = Some ref ∧ (ref ∉ processedTransactions w)
           ∧ confirmed env ref d
           ∧ ownerOf ref = Js.Int k ∧ users w !! k = Some u
           ∧ users w' = (<[k := markPaid (now env) (amount d) u]> (users w))
           ∧ processedTransactions w' = ({[ref]} ∪ processedTransactions w))).
  unfold verify. destruct tx_ref as [ref|]; [|wp; by left].
  destruct ref as [|c r]; cbn [noText default from_option id]; [wp; by left|].
  wp; store; try (by left).
  all: right;
    repeat match goal with
    | H : lookupNum _ _ = Some _ |- _ => apply lookupNum_Some in H as [? ?]
    | H : bool_decide _ = false |- _ => apply bool_decide_eq_false in H
    | H : negb _ = false |- _ => apply negb_false_iff in H
    | H : Js.eqb _ _ = true |- _ => apply bool_decide_eq_true in H
    end;
    eexists _, _, _, _; unfold confirmed;
    (split; [reflexivity|]); (split; [done|]);
    (split; [split; eassumption|]); (split; [eassumption|]);
    (split; [eassumption|]); (split; [|done]);
    symmetry; by apply insert_as_alter.
Qed.

(** X25.  Approval and payment fit together: when the target identity and
    the clock reading are not negative, the reference that the approval
    stores is one the webhook accepts, and its confirmation marks the
    approved session paid and keeps the reference; the session holds the
    confirmed amount and, as commission, the product of the amount and
    0.55 in double arithmetic (55.00000000000001 for an amount of 100). *)
Theorem approval_then_payment
    (env1 env2 : Env) (w : World) (q : Query) (k : Z) (u : User) (d : PaymentData) :
  0 ≤ now env1 → 0 ≤ k →
  Js.startsWith (Js.lit "approve_") (data q) = true →
  lookupNum (users w) (targetOf q) = Some (k, u) →
  let ref := mintRef "tx-" (now env1) (Js.Int k) in
  (ref ∉ processedTransactions w) → confirmed env2 ref d → reliable env2 →
  let w1 := snd (onCallbackQuery q env1 w) in
  let w2 := snd (verify (Some ref) env2 w1) in
  fst (verify (Some ref) env2 w1) = Normal (mkResponse 200 Success)
  ∧ ∃ u2, users w2 !! k = Some u2
          ∧ status u2 = payment_verified ∧ tx_ref u2 = Some ref
          ∧ paidAmount u2 = Some (amount d)
          ∧ commission u2 = Some (amount d * 0.55)%float.
Proof.
  intros Hn Hk Hp Hl ref Hnew Hc Hd. cbv zeta.
  destruct (onApprove_mints env1 w q k u Hp Hl) as (u1 & Hu1 & _ & Hr).
  assert (ref ≠ []) as Hne.
  { intros E. apply (f_equal (λ l, nth 0 l 0%N)) in E. vm_compute in E. done. }
  rewrite (verify_confirmed_run env2 _ ref d k u1);
    [|done|by rewrite onCallbackQuery_processed|done
     |by apply ownerOf_mintRef|done].
  unfold try_catch, mbind, M_bind, sendMessage, call, mret, M_ret.
  store. repeat (rewrite Hd; store). split; [done|].
  cbn [snd]. store. rewrite lookup_insert_eq. eexists. split; [done|]. by cbn.
Qed.

(** A witness of [approval_then_payment]: applicant 42 is approved and
    pays 100. *)
Lemma approval_then_payment_witness :
  let paid := {| now := 6000; ADMIN_ID := Js.Int 1; delivers := λ _, true;
                 verifyTransaction :=
                   λ _, VerifyData (Some {| pstatus := Js.lit "success";
                                            amount := 100%float |});
                 initializeCheckout := CheckoutResponse true |} in
  let q := mkQuery 1 (Js.lit "approve_42") in
  let ref := mintRef "tx-" 5000 (Js.Int 42) in
  let w1 := snd (onCallbackQuery q sampleEnv sampleWorld) in
  let w2 := snd (verify (Some ref) paid w1) in
  fst (verify (Some ref) paid w1) = Normal (mkResponse 200 Success)
  ∧ ∃ u2, users w2 !! 42 = Some u2
          ∧ status u2 = payment_verified ∧ tx_ref u2 = Some ref
          ∧ paidAmount u2 = Some (100%float)
          ∧ commission u2 = Some (55.00000000000001%float).
Proof.
  apply (approval_then_payment sampleEnv
           {| now := 6000; ADMIN_ID := Js.Int 1; delivers := λ _, true;
              verifyTransaction :=
                λ _, VerifyData (Some {| pstatus := Js.lit "success";
                                         amount := 100%float |});
              initializeCheckout := CheckoutResponse true |}
           sampleWorld
           (mkQuery 1 (Js.lit "approve_42")) 42 sampleApplicant
           {| pstatus := Js.lit "success"; amount := 100%float |}).
  - vm_compute. discriminate.
  - lia.
  - reflexivity.
  - vm_compute. reflexivity.
  - apply not_elem_of_empty.
  - split; reflexivity.
  - intros n. reflexivity.
Defined.

(** ** The process as a whole *)

(** X26.  No handler prunes the processed references or the table of the
    rate limiter: an event leaves every processed reference and every
    actor's entry in place, and every event but a call of the webhook
    leaves the processed references exactly as they are. *)
Theorem stores_only_grow (env : Env) (ev : Event) (w : World) :
  let w' := snd (handle ev env w) in
  processedTransactions w ⊆ processedTransactions w'
  ∧ dom (rateLimit w) ⊆ dom (rateLimit w')
  ∧ ((∀ r, ev ≠ EvVerify r) →
     processedTransactions w' = processedTransactions w).
Proof.
  cbv zeta.
  change (post (handle ev) env w
            (λ _ w', processedTransactions w ⊆ processedTransactions w'
                     ∧ dom (rateLimit w) ⊆ dom (rateLimit w')
                     ∧ ((∀ r, ev ≠ EvVerify r) →
                        processedTransactions w' = processedTransactions w))).
  destruct ev as [msg|msg|q|r|]; cbn [handle].
  - unfold onStart. wp; store; (split; [done|]); (split; [|done]);
      rewrite dom_insert_L; apply union_subseteq_r.
  - unfold onMessage, onControl, onStep, statusAndAbout.
    wp; store; (split; [done|]); (split; [|done]);
      rewrite dom_insert_L; apply union_subseteq_r.
  - unfold onCallbackQuery, onApprove, onReply, onReject.
    wp; store; done.
  - unfold verify.
    wp; store; (split; [done || apply union_subseteq_r|]); (split; [done|]);
      intros H; by destruct (H r).
  - unfold sweep, post. cbn. done.
Qed.

(** A witness of [stores_only_grow]. *)
Lemma stores_only_grow_witness :
  processedTransactions
    (snd (handle (EvMessage (mkMessage 42 42 (Some CANCEL) None)) sampleEnv
            sampleWorld))
  = processedTransactions sampleWorld.
Proof.
  apply (proj2 (proj2 (stores_only_grow sampleEnv
                         (EvMessage (mkMessage 42 42 (Some CANCEL) None))
                         sampleWorld))).
  intros r. discriminate.
Defined.

(** *** What an event leaves of a session *)

Lemma sessionAfter_same now us k u : us !! k = Some u → sessionAfter now us k u.
Proof. intros H. right. exists u. split; [done|]. apply rtc_refl. Qed.

Lemma tooShort_is_Some (t : option Js.JsString) :
  tooShort t = false → is_Some (Js.trim <$> t).
Proof. destruct t; [eauto|done]. Qed.

Ltac ss_one :=
  lazymatch goal with
  | |- sessionStep _ _ _ (set_penalty _ _) => apply ss_penalty
  | |- sessionStep _ _ _ (set_lastActivity _ _) => apply ss_touch
  | |- sessionStep _ _ _ (set_createdAt _ _) => apply ss_register
  | |- sessionStep _ _ _ (set_status idle _) => apply ss_cancel
  | |- sessionStep _ _ _ (set_step (Some step_phone) (set_name _ _)) =>
      apply ss_name
  | |- sessionStep _ _ _ (set_step (Some step_youtube) (set_phone _ _)) =>
      apply ss_phone
  | |- sessionStep _ _ _ (set_step (Some step_email) (set_youtube _ _)) =>
      apply ss_youtube
  | |- sessionStep _ _ _ (set_step (Some step_subject) (set_email _ _)) =>
      apply ss_email
  | |- sessionStep _ _ _ (set_status pending_review _) => apply ss_subject
  | |- sessionStep _ _ _ (set_step (Some _) _) => eapply ss_back
  | |- sessionStep _ _ _ (set_tx_ref _ _) => apply ss_approve
  | |- sessionStep _ _ _ (set_status reapply_required _) => apply ss_reject
  | |- sessionStep _ _ _ (markPaid _ _ _) => apply ss_paid
  end.

Ltac ss_facts :=
  repeat match goal with
  | H : _ || _ = false |- _ => apply orb_false_iff in H as [? ?]
  | H : bool_decide _ = false |- _ => apply bool_decide_eq_false in H
  | H : negb _ = false |- _ => apply negb_false_iff in H
  end.

Ltac ss_guard :=
  cbn;
  first
    [ eassumption
    | reflexivity
    | done
    | by apply tooShort_is_Some
    | match goal with
      | |- is_Some _ =>
          match goal with
          | |- context [text ?m] =>
              destruct (text m); cbn in *; try done; repeat case_match; eauto
          end
      end ].

Ltac ss_chain :=
  repeat first
    [ apply rtc_refl
    | eapply rtc_r; [|ss_one; ss_guard] ].

Lemma onMessage_session (env : Env) (w : World) (msg : Message) (k : Z) (u' : User) :
  users (snd (onMessage msg env w)) !! k = Some u' →
  sessionAfter (now env) (users w) k u'.
Proof.
  revert u'.
  change (post (onMessage msg) env w
            (λ _ w', ∀ u', users w' !! k = Some u' →
                           sessionAfter (now env) (users w) k u')).
  unfold onMessage, onControl, onStep, statusAndAbout.
  wp; store; intros u' Hu';
    (destruct (decide (chat_id msg = k)) as [Hk|Hne];
     [ subst k | rewrite ?lookup_alter_ne in Hu' by done;
                 by apply sessionAfter_same ]).
  all: rewrite ?lookup_alter_eq in Hu'.
  all: try by apply sessionAfter_same.
  all: same_user.
  all: try match goal with H : users _ !! _ = Some _ |- _ =>
             rewrite H in Hu' end.
  all: cbn in Hu'; same_user; cbn in Hu'; injection Hu' as <-.
  all: right; eexists; (split; [eassumption|]).
  all: same_user; ss_facts; ss_chain.
Qed.

Lemma onCallbackQuery_session
    (env : Env) (w : World) (q : Query) (k : Z) (u' : User) :
  users (snd (onCallbackQuery q env w)) !! k = Some u' →
  sessionAfter (now env) (users w) k u'.
Proof.
  revert u'.
  change (post (onCallbackQuery q) env w
            (λ _ w', ∀ u', users w' !! k = Some u' →
                           sessionAfter (now env) (users w) k u')).
  unfold onCallbackQuery, onApprove, onReply, onReject.
  wp; store; intros u' Hu'; try (by apply sessionAfter_same).
  all: match goal with H : lookupNum _ _ = Some _ |- _ =>
         apply lookupNum_Some in H as [Ht Hz] end.
  all: match type of Hu' with context [alter _ ?z _] =>
         destruct (decide (z = k)) as [->|Hne];
         [|rewrite ?lookup_alter_ne in Hu' by done; by apply sessionAfter_same]
       end.
  all: rewrite ?lookup_alter_eq, Hz in Hu'; cbn in Hu'; injection Hu' as <-.
  all: rewrite ?Ht; same_user.
  all: right; eexists; (split; [eassumption|]); ss_chain.
Qed.

Lemma verify_session
    (env : Env) (w : World) (r : option Js.JsString) (k : Z) (u' : User) :
  users (snd (verify r env w)) !! k = Some u' →
  sessionAfter (now env) (users w) k u'.
Proof.
  revert u'.
  change (post (verify r) env w
            (λ _ w', ∀ u', users w' !! k = Some u' →
                           sessionAfter (now env) (users w) k u')).
  unfold verify.
  wp; store; intros u' Hu'; try (by apply sessionAfter_same).
  all: match goal with H : lookupNum _ _ = Some _ |- _ =>
         apply lookupNum_Some in H as [Ht Hz] end.
  all: match type of Hu' with context [alter _ ?z _] =>
         destruct (decide (z = k)) as [->|Hne];
         [|rewrite ?lookup_alter_ne in Hu' by done; by apply sessionAfter_same]
       end.
  all: rewrite ?lookup_alter_eq, Hz in Hu'; cbn in Hu'; injection Hu' as <-.
  all: right; eexists; (split; [eassumption|]); apply rtc_once, ss_paid.
Qed.

(** Whatever the event, a session it leaves is fresh or comes from the
    session that was there by assignments of the handlers. *)
Lemma handle_session (env : Env) (ev : Event) (w : World) (k : Z) (u' : User) :
  users (snd (handle ev env w)) !! k = Some u' →
  sessionAfter (now env) (users w) k u'.
Proof.
  destruct ev as [msg|msg|q|r|]; cbn [handle].
  - change (post (onStart msg) env w
              (λ _ w', users w' !! k = Some u' →
                       sessionAfter (now env) (users w) k u')).
    unfold onStart. wp; store; try apply sessionAfter_same.
    all: destruct (decide (chat_id msg = k)) as [->|Hne];
      [rewrite lookup_insert_eq; intros [= <-]; by left
      |rewrite lookup_insert_ne by done; apply sessionAfter_same].
  - apply onMessage_session.
  - apply onCallbackQuery_session.
  - assert (snd ((verify r;; mret ()) env w) = snd (verify r env w)) as ->.
    { unfold mbind, M_bind. by destruct (verify r env w) as [[?|?] ?]. }
    apply verify_session.
  - unfold sweep. cbn [snd]. store. rewrite cleanup_lookup.
    destruct (users w !! k) as [u|] eqn:Hu; cbn; [|done].
    destruct (evicted (now env) u); [done|]. intros [= <-].
    by apply sessionAfter_same.
Qed.

(** A property of sessions that the fresh session has and every assignment
    keeps holds of every session of every reachable world. *)
Lemma reachable_invariant (P : Z → User → Prop) (w : World) :
  (∀ now k, P k (freshUser now)) →
  (∀ now k u u', P k u → sessionStep now k u u' → P k u') →
  reachable w → ∀ k u, users w !! k = Some u → P k u.
Proof.
  intros Hfresh Hstep. induction 1 as [|env ev w _ IH]; intros k u Hu.
  - done.
  - apply handle_session in Hu as [->|(u0 & Hu0 & Hrtc)]; [apply Hfresh|].
    apply IH in Hu0. induction Hrtc as [|x y z Hxy _ IHr]; [done|].
    apply IHr. by apply (Hstep (now env) k x y).
Qed.

(** *** Invariants of the reachable worlds *)

Lemma collected_step now k u u' :
  collected u → sessionStep now k u u' → collected u'.
Proof.
  unfold collected. intros (H1 & H2 & H3 & H4 & H5 & H6) Hs.
  destruct Hs as [p| |? ? ?| |a b Ha Hb Hc|n Hn Hi|p Hp Hv|y Hy Hi|e He Hi
                 |s Hsb Hi| | |a]; cbn.
  5: destruct a, b; try done.
  all: repeat match goal with H : step _ = Some _ |- _ => rewrite H in * end;
    cbn in *.
  all: repeat split; intros;
    first [ done | lia | by eauto
          | by (match goal with H : status _ = _ |- _ => specialize (H1 H) end)
          | apply H2; lia | apply H3; lia | apply H4; lia | apply H5; lia
          | apply H6; lia ].
Qed.

(** X27.  In every reachable world a session that awaits review has
    completed the form: it holds a name, a phone number that
    [isValidPhone] accepts, a channel link, an e-mail entry and a subject.
    (So the approve branch does not fail on the name of such a
    session.) *)
Theorem submission_complete (w : World) (k : Z) (u : User) :
  reachable w → users w !! k = Some u → status u = pending_review →
  step u = Some step_completed
  ∧ is_Some (name u)
  ∧ (∃ p, phone u = Some p ∧ isValidPhone p = true)
  ∧ is_Some (youtube u) ∧ is_Some (email u) ∧ is_Some (subject u).
Proof.
  intros Hw Hu Hs.
  assert (collected u) as (H1 & H2 & H3 & H4 & H5 & H6).
  { apply (reachable_invariant (λ _, collected) w) with (k := k);
      [| |exact Hw|exact Hu].
    - intros now k0. unfold collected. cbn. repeat split; (done || (intros; lia)).
    - intros now k0 u0 u'. apply collected_step. }
  specialize (H1 Hs). rewrite H1 in *. cbn in *.
  split; [done|].
  repeat split;
    (apply H2 || apply H3 || apply H4 || apply H5 || apply H6); lia.
Qed.

(** A witness of [submission_complete]: the world after the registration
    of applicant 42. *)
Lemma submission_complete_witness :
  let u := set_createdAt (Some 5000) (set_lastActivity (Some 5000) sampleApplicant) in
  step u = Some step_completed
  ∧ is_Some (name u)
  ∧ (∃ p, phone u = Some p ∧ isValidPhone p = true)
  ∧ is_Some (youtube u) ∧ is_Some (email u) ∧ is_Some (subject u).
Proof.
  apply (submission_complete
           (runEvents sampleEnv registrationEvents initialWorld) 42
           (set_createdAt (Some 5000)
              (set_lastActivity (Some 5000) sampleApplicant))).
  - apply reachable_runEvents, reachable_init.
  - vm_compute. reflexivity.
  - reflexivity.
Defined.

(** X28.  In every reachable world the payment fields of a session go
    together: a session that is [payment_verified] holds a paid amount,
    and a session that holds a paid amount holds a payment date and, as
    commission, the product of that amount and 0.55 in double
    arithmetic. *)
Theorem payment_record_kept (w : World) (k : Z) (u : User) :
  reachable w → users w !! k = Some u →
  (status u = payment_verified → is_Some (paidAmount u))
  ∧ (∀ a, paidAmount u = Some a →
       commission u = Some (a * 0.55)%float ∧ is_Some (paymentDate u)).
Proof.
  intros Hw Hu.
  assert (paymentRecord u) as Hp.
  { apply (reachable_invariant (λ _, paymentRecord) w) with (k := k);
      [| |exact Hw|exact Hu].
    - intros now k0. unfold paymentRecord. cbn. done.
    - intros now k0 u0 u' Hp Hs. unfold paymentRecord in *.
      destruct Hs; cbn; try done;
        destruct (paidAmount u0); try done;
        destruct Hp as (? & ? & ?); eauto. }
  unfold paymentRecord in Hp. destruct (paidAmount u) as [a|].
  - split; [eauto|]. intros a' [= <-]. done.
  - split; [|done]. intros Hs. by destruct Hp.
Qed.

(** A witness of [payment_record_kept]: the world after the registration,
    the approval and the payment of applicant 42. *)
Lemma payment_record_kept_witness :
  ∃ u, users (runEvents sampleEnv (registrationEvents ++ paymentEvents)
                initialWorld) !! 42 = Some u
       ∧ status u = payment_verified
       ∧ paidAmount u = Some 99%float
       ∧ commission u = Some 54.45%float
       ∧ is_Some (paymentDate u).
Proof.
  destruct (users (runEvents sampleEnv (registrationEvents ++ paymentEvents)
                     initialWorld) !! 42) as [u|] eqn:Hu;
    [|vm_compute in Hu; discriminate].
  assert (status u = payment_verified ∧ paidAmount u = Some 99%float) as [Hs Ha]
    by (vm_compute in Hu; injection Hu as <-; split; reflexivity).
  exists u. split; [reflexivity|]. split; [exact Hs|]. split; [exact Ha|].
  destruct (payment_record_kept
              (runEvents sampleEnv (registrationEvents ++ paymentEvents)
                 initialWorld) 42 u) as [_ H2].
  - apply reachable_runEvents, reachable_init.
  - exact Hu.
  - exact (H2 _ Ha).
Defined.

(** X29.  In every reachable world a stored transaction reference is
    [tx-], a clock reading, a dash and the identity of the very session
    that stores it; so, for identities and clock readings that are not
    negative, the webhook reads the holder back from it. *)
Theorem stored_reference_names_owner (w : World) (k : Z) (u : User) (r : Js.JsString) :
  reachable w → users w !! k = Some u → tx_ref u = Some r →
  ∃ t, r = mintRef "tx-" t (Js.Int k)
       ∧ (0 ≤ t → 0 ≤ k → ownerOf r = Js.Int k).
Proof.
  intros Hw Hu Hr.
  assert (refNamesOwner k u) as Hp.
  { apply (reachable_invariant refNamesOwner w); [| |exact Hw|exact Hu].
    - intros now k0 r0. cbn. done.
    - intros now k0 u0 u' Hp Hs. unfold refNamesOwner in *.
      destruct Hs; cbn; try done. intros r0 [= <-]. eauto. }
  destruct (Hp r Hr) as [t ->]. exists t. split; [done|].
  intros Ht Hk. by apply ownerOf_mintRef.
Qed.

(** A witness of [stored_reference_names_owner]. *)
Lemma stored_reference_names_owner_witness :
  ∃ t, Js.lit "tx-5000-42" = mintRef "tx-" t (Js.Int 42)
       ∧ (0 ≤ t → 0 ≤ 42 → ownerOf (Js.lit "tx-5000-42") = Js.Int 42).
Proof.
  destruct (users (runEvents sampleEnv (registrationEvents ++ paymentEvents)
                     initialWorld) !! 42) as [u|] eqn:Hu;
    [|vm_compute in Hu; discriminate].
  apply (stored_reference_names_owner
           (runEvents sampleEnv (registrationEvents ++ paymentEvents)
              initialWorld) 42 u).
  - apply reachable_runEvents, reachable_init.
  - exact Hu.
  - vm_compute in Hu. injection Hu as <-. reflexivity.
Defined.

(** ** The approve branch of [part_000] *)

(** X30.  The fee validation of [part_000] never fails: [getFee] returns
    99 or 149, so whatever the state and the caller, the handler neither
    reports a failed fee calculation to the reviewer nor answers with that
    alert. *)
Theorem Part000_fee_check_never_fails (env : Env) (w : World) (q : Query) :
  ∃ l, trace (snd (Part000.onCallbackQuery q env w)) = trace w ++ l
       ∧ (AnswerCallbackQuery FeeFailedAlert ∉ l)
       ∧ ∀ to, (SendMessage to FeeCalculationFailed ∉ l).
Proof.
  change (post (Part000.onCallbackQuery q) env w
            (λ _ w', ∃ l, trace w' = trace w ++ l
                          ∧ (AnswerCallbackQuery FeeFailedAlert ∉ l)
                          ∧ ∀ to, (SendMessage to FeeCalculationFailed ∉ l))).
  unfold Part000.onCallbackQuery, Part000.onApprove, onReply, onReject.
  wp; store;
    try match goal with
        | H : (?fee <=? 0) = true, H' : ?fee = STANDARD ∨ ?fee = PENALTY |- _ =>
            exfalso; apply Z.leb_le in H; unfold STANDARD, PENALTY in H';
            destruct H'; lia
        end;
    rewrite <- ?app_assoc;
    (eexists; split; [try reflexivity; symmetry; apply app_nil_r|]);
    (split; [|intros to]); intros Hin;
    repeat (apply elem_of_cons in Hin as [Hin|Hin]; [discriminate|]);
    by apply elem_of_nil in Hin.
Qed.
